(** * knx-go: transport-unit codec, description blocks, search parameters
      and the point-to-point management registry.

    A shallow embedding of the Go sources
      - package cemi: APCI, AppData, ControlData, unpackTransportUnit
      - knx/cemi/management.go: TConnect, TDisconnect, TAck, TNak and the
        L_Data requests around them
      - package knxnet: the description information blocks and
        DescriptionBlock
      - knx/knxnet/search.go: the search request parameters, SearchResExt
      - knx/management.go: P2PConnection, Management
    Unsigned Go integers are modelled as [Z] with the wrap-around written
    out, byte slices as [list Z], and what a Go call does (a value, an
    error, a run-time panic) as the [outcome] type. *)

From Stdlib Require Import ZArith Lia Bool List.
From stdpp Require Import base option list gmap.

Local Open Scope Z_scope.

(** ** Outcomes: a Go call returns a value, returns an error, or panics *)

Inductive error : Set :=
  | ErrUnexpectedEOF      (* io.ErrUnexpectedEOF: short input *)
  | ErrInvalidLength      (* "invalid length for ... structure" *)
  | ErrUnpackElement      (* "unable to unpack service family / individual address" *)
  | ErrSlotTooShort       (* "data too short to unpack TunnelingSlot" *)
  | ErrUnpackSlot         (* "unable to unpack tunneling slot: ..." *)
  | ErrSlotAddress        (* "invalid tunneling slot address: 0" *)
  | ErrNotFound           (* "connection not found" *)
  | ErrAlreadyConnected   (* "already connected to device" *)
  | ErrResponseTimeout    (* errResponseTimeout *)
  | ErrTunnelClosed       (* "tunnel was closed before a connection could be established" *)
  | ErrSend.              (* an error handed back by Tunnel.Send *)

(** [NoFuel] is the model's own fourth case: a loop given a budget of
    iterations used all of it, that is, the Go loop is still running. *)
Inductive outcome (A : Type) : Type :=
  | Ok (a : A)
  | Err (e : error)
  | Panic
  | NoFuel.
Arguments Ok {A} a.
Arguments Err {A} e.
Arguments Panic {A}.
Arguments NoFuel {A}.

#[global] Instance outcome_ret : MRet outcome := fun A a => Ok a.
#[global] Instance outcome_bind : MBind outcome := fun A B f m =>
  match m with
  | Ok a => f a
  | Err e => Err e
  | Panic => Panic
  | NoFuel => NoFuel
  end.

Definition is_ok {A} (m : outcome A) : bool :=
  match m with Ok _ => true | _ => false end.

(** The call comes back (with a value, an error or a panic): the loop
    budget was enough. *)
Definition returns {A} (m : outcome A) : Prop := m <> NoFuel.

(** ** Bytes and slices *)

(** Conversion to [uint8] (Go's [byte(x)], and the wrap of uint8 arithmetic). *)
Definition byte (z : Z) : Z := z mod 256.
Definition uint16 (z : Z) : Z := z mod 65536.

Definition is_byte (z : Z) : Prop := 0 <= z < 256.
Definition is_bytes (l : list Z) : Prop := Forall is_byte l.

Definition len {A} (l : list A) : Z := Z.of_nat (length l).

(** [s[i]]: panics out of range. *)
Definition idx (s : list Z) (i : nat) : outcome Z :=
  match s !! i with
  | Some v => Ok v
  | None => Panic
  end.

(** [s[i] = v]: panics out of range. *)
Definition set_idx (i : nat) (v : Z) (s : list Z) : outcome (list Z) :=
  if decide (i < length s)%nat then Ok (<[i:=v]> s) else Panic.

(** [s[i] |= v] and [s[i] &= v]. *)
Definition or_idx (i : nat) (v : Z) (s : list Z) : outcome (list Z) :=
  old ← idx s i; set_idx i (Z.lor old v) s.
Definition and_idx (i : nat) (v : Z) (s : list Z) : outcome (list Z) :=
  old ← idx s i; set_idx i (Z.land old v) s.

(** [make([]byte, n)]: panics on a negative length. *)
Definition make (n : Z) : outcome (list Z) :=
  if n <? 0 then Panic else Ok (replicate (Z.to_nat n) 0).

(** [s[k:]]: panics when [k] exceeds the length (capacity = length). *)
Definition slice_from (s : list Z) (k : nat) : outcome (list Z) :=
  if decide (k <= length s)%nat then Ok (drop k s) else Panic.

(** [s[a:b]]: panics unless [a <= b <= len(s)]. *)
Definition slice (s : list Z) (a b : nat) : outcome (list Z) :=
  if decide (a <= b)%nat then
    if decide (b <= length s)%nat then Ok (take (b - a) (drop a s)) else Panic
  else Panic.

(** A slice cut out of a longer one keeps the capacity of its parent: its
    underlying array goes on after its length. [spare] is that part of the
    array, from [len(s)] to [cap(s)]; a slice fresh from [make] has none.
    [s[a:b]] panics unless [a <= b <= cap(s)], so it may reach past
    [len(s)] into the spare part. *)
Definition slice_cap (s spare : list Z) (a b : nat) : outcome (list Z) :=
  slice (s ++ spare) a b.

(** What is left of the array after [s[a:b]]: the spare part of the
    result. *)
Definition spare_after (s spare : list Z) (b : nat) : list Z :=
  drop b (s ++ spare).

(** The builtin [copy(dst, src)]: the first [min(len dst, len src)] bytes
    of [dst] are overwritten; the result is the new contents of [dst]. *)
Definition copy (dst src : list Z) : list Z :=
  take (length dst) src ++ drop (length src) dst.

(** [copy(s[k:], src)] seen from the whole slice [s]. *)
Definition copy_at (k : nat) (src : list Z) (s : list Z) : outcome (list Z) :=
  tl ← slice_from s k; Ok (take k s ++ copy tl src).

(** A bounded universal check turned into a statement about every value of
    the range; used to settle bit-level facts on bytes by evaluation. *)
Fixpoint all_below (n : nat) (P : Z -> bool) : bool :=
  match n with
  | O => true
  | S k => P (Z.of_nat k) && all_below k P
  end.

(** ** cemi: transport units *)

Module Cemi.

(** *** TPCI and APCI constants *)

Definition Connect : Z := 0.
Definition Disconnect : Z := 1.
Definition Ack : Z := 2.
Definition Nak : Z := 3.

Definition PrefixUserMessage : Z := 11.
Definition PrefixEscape : Z := 15.

(* Standard APCIs *)
Definition GroupValueRead : Z := 0.
Definition GroupValueResponse : Z := 64.
Definition GroupValueWrite : Z := 128.
Definition IndividualAddrWrite : Z := 192.
Definition IndividualAddrRequest : Z := 256.
Definition IndividualAddrResponse : Z := 320.
Definition AdcRead : Z := 384.
Definition AdcResponse : Z := 448.
Definition MemoryRead : Z := 512.
Definition MemoryResponse : Z := 576.
Definition MemoryWrite : Z := 640.
Definition MaskVersionRead : Z := 768.
Definition MaskVersionResponse : Z := 832.
Definition Restart : Z := 896.

(* Extended APCIs (prefix 0b0111) *)
Definition SystemNetworkParameterRead : Z := 456.
Definition SystemNetworkParameterResponse : Z := 457.
Definition SystemNetworkParameterWrite : Z := 458.
Definition PropertyExtValueRead : Z := 460.
Definition PropertyExtValueResponse : Z := 461.
Definition PropertyExtValueWriteCon : Z := 462.
Definition PropertyExtValueWriteConRes : Z := 463.
Definition PropertyExtValueWriteUnCon : Z := 464.
Definition PropertyExtValueInfoReport : Z := 465.
Definition PropertyExtDescriptionRead : Z := 466.
Definition PropertyExtDescriptionResponse : Z := 467.
Definition FunctionPropertyExtCommand : Z := 468.
Definition FunctionPropertyExtStateRead : Z := 469.
Definition FunctionPropertyExtStateResponse : Z := 470.
Definition MemoryExtendedWrite : Z := 507.
Definition MemoryExtendedWriteResponse : Z := 508.
Definition MemoryExtendedRead : Z := 509.
Definition MemoryExtendedReadResponse : Z := 510.

(* User Message APCIs (prefix 0b1011) *)
Definition UserMemoryRead : Z := 704.
Definition UserMemoryResponse : Z := 705.
Definition UserMemoryWrite : Z := 706.
Definition UserMemoryBitWrite : Z := 708.
Definition UserManufacturerInfoRead : Z := 709.
Definition UserManufacturerInfoResponse : Z := 710.
Definition FunctionPropertyCommand : Z := 711.
Definition FunctionPropertyStateRead : Z := 712.
Definition FunctionPropertyStateResponse : Z := 713.

(* More Extended APCIs (prefix 0b1111) *)
Definition FilterTableOpen : Z := 960.
Definition FilterTableRead : Z := 961.
Definition FilterTableResponse : Z := 962.
Definition FilterTableWrite : Z := 963.
Definition RouterMemoryRead : Z := 968.
Definition RouterMemoryResponse : Z := 969.
Definition RouterMemoryWrite : Z := 970.
Definition RouterStatusRead : Z := 973.
Definition RouterStatusResponse : Z := 974.
Definition RouterStatusWrite : Z := 975.
Definition MemoryBitWrite : Z := 976.
Definition AuthorizeRequest : Z := 977.
Definition AuthorizeResponse : Z := 978.
Definition KeyWrite : Z := 979.
Definition KeyResponse : Z := 980.
Definition PropertyValueRead : Z := 981.
Definition PropertyValueResponse : Z := 982.
Definition PropertyValueWrite : Z := 983.
Definition PropertyDescriptionRead : Z := 984.
Definition PropertyDescriptionResponse : Z := 985.
Definition NetworkParameterRead : Z := 986.
Definition NetworkParameterResponse : Z := 987.
Definition IndividualAddressSerialNumberRead : Z := 988.
Definition IndividualAddressSerialNumberResponse : Z := 989.
Definition IndividualAddressSerialNumberWrite : Z := 990.
Definition DomainAddressWrite : Z := 992.
Definition DomainAddressRead : Z := 993.
Definition DomainAddressResponse : Z := 994.
Definition DomainAddressSelectiveRead : Z := 995.
Definition NetworkParameterWrite : Z := 996.
Definition LinkRead : Z := 997.
Definition LinkResponse : Z := 998.
Definition LinkWrite : Z := 999.
Definition GroupPropValueRead : Z := 1000.
Definition GroupPropValueResponse : Z := 1001.
Definition GroupPropValueWrite : Z := 1002.
Definition GroupPropValueInfoReport : Z := 1003.
Definition DomainAddressSerialNumberRead : Z := 1004.
Definition DomainAddressSerialNumberResponse : Z := 1005.
Definition DomainAddressSerialNumberWrite : Z := 1006.
Definition FileStreamInforReport : Z := 1008.

Definition standard_APCIs : list Z :=
  [ GroupValueRead; GroupValueResponse; GroupValueWrite; IndividualAddrWrite;
    IndividualAddrRequest; IndividualAddrResponse; AdcRead; AdcResponse;
    MemoryRead; MemoryResponse; MemoryWrite; MaskVersionRead;
    MaskVersionResponse; Restart ].

Definition extended_APCIs : list Z :=
  [ SystemNetworkParameterRead; SystemNetworkParameterResponse;
    SystemNetworkParameterWrite; PropertyExtValueRead;
    PropertyExtValueResponse; PropertyExtValueWriteCon;
    PropertyExtValueWriteConRes; PropertyExtValueWriteUnCon;
    PropertyExtValueInfoReport; PropertyExtDescriptionRead;
    PropertyExtDescriptionResponse; FunctionPropertyExtCommand;
    FunctionPropertyExtStateRead; FunctionPropertyExtStateResponse;
    MemoryExtendedWrite; MemoryExtendedWriteResponse; MemoryExtendedRead;
    MemoryExtendedReadResponse ].

Definition user_message_APCIs : list Z :=
  [ UserMemoryRead; UserMemoryResponse; UserMemoryWrite; UserMemoryBitWrite;
    UserManufacturerInfoRead; UserManufacturerInfoResponse;
    FunctionPropertyCommand; FunctionPropertyStateRead;
    FunctionPropertyStateResponse ].

Definition escape_APCIs : list Z :=
  [ FilterTableOpen; FilterTableRead; FilterTableResponse; FilterTableWrite;
    RouterMemoryRead; RouterMemoryResponse; RouterMemoryWrite;
    RouterStatusRead; RouterStatusResponse; RouterStatusWrite;
    MemoryBitWrite; AuthorizeRequest; AuthorizeResponse; KeyWrite;
    KeyResponse; PropertyValueRead; PropertyValueResponse;
    PropertyValueWrite; PropertyDescriptionRead;
    PropertyDescriptionResponse; NetworkParameterRead;
    NetworkParameterResponse; IndividualAddressSerialNumberRead;
    IndividualAddressSerialNumberResponse;
    IndividualAddressSerialNumberWrite; DomainAddressWrite;
    DomainAddressRead; DomainAddressResponse; DomainAddressSelectiveRead;
    NetworkParameterWrite; LinkRead; LinkResponse; LinkWrite;
    GroupPropValueRead; GroupPropValueResponse; GroupPropValueWrite;
    GroupPropValueInfoReport; DomainAddressSerialNumberRead;
    DomainAddressSerialNumberResponse; DomainAddressSerialNumberWrite;
    FileStreamInforReport ].

(** Every named APCI constant of the package. *)
Definition named_APCIs : list Z :=
  standard_APCIs ++ extended_APCIs ++ user_message_APCIs ++ escape_APCIs.

(** *** APCI predicates *)

Definition IsGroupCommand (apci : Z) : bool := Z.shiftr apci 6 <? 3.

Definition IsStandardCommand (apci : Z) : bool :=
  negb (apci =? UserMemoryRead)
  && (Z.land apci 63 =? 0)
  && (Z.shiftr apci 6 <? 15).

(** *** AppData *)

Record AppData : Type := mkAppData {
  app_Numbered : bool;
  app_SeqNumber : Z;   (* uint8 *)
  app_Command : Z;     (* APCI, uint16 *)
  app_Data : list Z
}.

Definition clamp_len (n : Z) : Z :=
  if 255 <? n then 255 else if n <? 1 then 1 else n.

Definition AppData_Size (app : AppData) : Z :=
  let cmdLength := 2 in
  let cmdLength :=
    if negb (IsStandardCommand (app_Command app)) then cmdLength + 1
    else cmdLength in
  let dataLength := clamp_len (len (app_Data app)) in
  cmdLength + dataLength.

Definition AppData_Pack (app : AppData) (buffer : list Z) : outcome (list Z) :=
  let dataLength := clamp_len (len (app_Data app)) in
  let dataLength :=
    if negb (IsStandardCommand (app_Command app)) then dataLength + 1
    else dataLength in
  buffer ← set_idx 0 (byte dataLength) buffer;
  buffer ← (if app_Numbered app
            then or_idx 1
                   (Z.lor (Z.shiftl 1 6)
                          (byte (Z.shiftl (Z.land (app_SeqNumber app) 15) 2)))
                   buffer
            else Ok buffer);
  buffer ← or_idx 1 (Z.land (byte (Z.shiftr (app_Command app) 8)) 3) buffer;
  if IsStandardCommand (app_Command app) then
    buffer ← copy_at 2 (app_Data app) buffer;
    buffer ← and_idx 2 63 buffer;
    or_idx 2 (byte (Z.shiftl (byte (Z.land (Z.shiftr (app_Command app) 6) 3)) 6))
           buffer
  else
    buffer ← set_idx 2 (byte (Z.land (app_Command app) 255)) buffer;
    copy_at 3 (app_Data app) buffer.

(** *** ControlData and its four named variants *)

Record ControlData : Type := mkControlData {
  ctl_Numbered : bool;
  ctl_SeqNumber : Z;   (* uint8 *)
  ctl_Command : Z      (* uint8 *)
}.

Definition ControlData_Size : Z := 2.

Definition ControlData_Pack (control : ControlData) (buffer : list Z)
  : outcome (list Z) :=
  buffer ← set_idx 0 0 buffer;
  buffer ← set_idx 1 (Z.lor (Z.shiftl 1 7) (Z.land (ctl_Command control) 3))
                   buffer;
  if ctl_Numbered control then
    or_idx 1 (Z.lor (Z.shiftl 1 6)
                    (byte (Z.shiftl (Z.land (ctl_SeqNumber control) 15) 2)))
           buffer
  else Ok buffer.

(** A transport unit is one of the pointer types that implement the
    interface; the four Control* structs embed a ControlData. *)
Inductive TransportUnit : Type :=
  | UAppData (app : AppData)
  | UControlData (c : ControlData)
  | UControlConn (c : ControlData)
  | UControlDisc (c : ControlData)
  | UControlAck (c : ControlData)
  | UControlNak (c : ControlData).

Definition TConnect : TransportUnit :=
  UControlConn (mkControlData false 0 Connect).
Definition TDisconnect : TransportUnit :=
  UControlDisc (mkControlData false 0 Disconnect).
Definition TAck (seqNumber : Z) : TransportUnit :=
  UControlAck (mkControlData true seqNumber Ack).
Definition TNak (seqNumber : Z) : TransportUnit :=
  UControlNak (mkControlData true seqNumber Nak).

(** The ControlData carried by a control unit, whatever its variant. *)
Definition control_of (u : TransportUnit) : option ControlData :=
  match u with
  | UAppData _ => None
  | UControlData c | UControlConn c | UControlDisc c
  | UControlAck c | UControlNak c => Some c
  end.

(** Size and Pack through the interface; the embedded ControlData provides
    both for the four variants. *)
Definition Size (u : TransportUnit) : Z :=
  match u with
  | UAppData app => AppData_Size app
  | _ => ControlData_Size
  end.

Definition Pack (u : TransportUnit) (buffer : list Z) : outcome (list Z) :=
  match u with
  | UAppData app => AppData_Pack app buffer
  | UControlData c | UControlConn c | UControlDisc c
  | UControlAck c | UControlNak c => ControlData_Pack c buffer
  end.

(** Packing into a fresh zeroed buffer of [Size] bytes. *)
Definition AllocAndPack (u : TransportUnit) : outcome (list Z) :=
  Pack u (replicate (Z.to_nat (Size u)) 0).

(** *** unpackTransportUnit *)

Definition unpackTransportUnit (data : list Z) : outcome (TransportUnit * Z) :=
  if len data <? 2 then Err ErrUnexpectedEOF else
  d1 ← idx data 1;
  if Z.land d1 (Z.shiftl 1 7) =? Z.shiftl 1 7 then
    let numbered := Z.land d1 (Z.shiftl 1 6) =? Z.shiftl 1 6 in
    let seqNumber := Z.land (Z.shiftr d1 2) 15 in
    let command := Z.land d1 3 in
    let unit :=
      if command =? Connect then TConnect
      else if command =? Disconnect then TDisconnect
      else if command =? Ack then TAck seqNumber
      else if command =? Nak then TNak seqNumber
      else UControlData (mkControlData numbered seqNumber command) in
    Ok (unit, 2)
  else
    d0 ← idx data 0;
    let dataLength := d0 in
    if (len data <? 3) || (dataLength + 2 <? len data) then
      Err ErrUnexpectedEOF
    else
      d2 ← idx data 2;
      let numbered := Z.land d1 (Z.shiftl 1 6) =? Z.shiftl 1 6 in
      let seqNumber := Z.land (Z.shiftr d1 2) 15 in
      let p := Z.lor (byte (Z.shiftl (Z.land d1 3) 2)) (Z.shiftr d2 6) in
      if (p =? PrefixUserMessage) || (p =? PrefixEscape) then
        let command := Z.lor (uint16 (Z.shiftl p 6)) d2 in
        appData ← make (dataLength - 1);
        src ← slice_from data 3;
        let appData := copy appData src in
        Ok (UAppData (mkAppData numbered seqNumber command appData),
            dataLength + 2)
      else
        let command := uint16 (Z.shiftl p 6) in
        appData ← make dataLength;
        src ← slice_from data 2;
        let appData := copy appData src in
        appData ← and_idx 0 63 appData;
        Ok (UAppData (mkAppData numbered seqNumber command appData),
            dataLength + 2).

(** *** Round trips *)

(** Pack into a fresh buffer, then unpack what was written. *)
Definition unpack_pack (u : TransportUnit) : outcome (TransportUnit * Z) :=
  buffer ← AllocAndPack u; unpackTransportUnit buffer.

(** The shape of the control units the four constructors build:
    T_CONNECT and T_DISCONNECT are unnumbered with sequence number 0,
    T_ACK and T_NAK are numbered with a four-bit sequence number. *)
Definition ControlData_wf (c : ControlData) : bool :=
  ((ctl_Command c =? Connect) || (ctl_Command c =? Disconnect))
    && negb (ctl_Numbered c) && (ctl_SeqNumber c =? 0)
  || ((ctl_Command c =? Ack) || (ctl_Command c =? Nak))
    && ctl_Numbered c && (0 <=? ctl_SeqNumber c) && (ctl_SeqNumber c <? 16).

(** The payload an AppData comes back with: for a standard command the two
    high bits of the first byte belong to the APCI and are cleared. *)
Definition masked_data (command : Z) (d : list Z) : list Z :=
  if IsStandardCommand command then
    match d with
    | [] => []
    | d0 :: ds => Z.land d0 63 :: ds
    end
  else d.

(** The commands unpackTransportUnit can tell apart: the standard ones and
    those under the UserMessage and Escape prefixes. *)
Definition decodable (command : Z) : bool :=
  IsStandardCommand command
  || (Z.shiftr command 6 =? PrefixUserMessage)
  || (Z.shiftr command 6 =? PrefixEscape).

(** The bytes AppData.Pack leaves at offsets 1 and 2 of a zeroed buffer. *)
Definition packed_control (nb : bool) (s a : Z) : Z :=
  Z.lor (if nb
         then Z.lor 0 (Z.lor (Z.shiftl 1 6) (byte (Z.shiftl (Z.land s 15) 2)))
         else 0)
        (Z.land (byte (Z.shiftr a 8)) 3).

Definition packed_std_byte (a d0 : Z) : Z :=
  Z.lor (Z.land d0 63) (byte (Z.shiftl (byte (Z.land (Z.shiftr a 6) 3)) 6)).

Definition packed_ext_byte (a : Z) : Z := byte (Z.land a 255).

(** The four-bit prefix unpackTransportUnit rebuilds from bytes 1 and 2. *)
Definition prefix_of (hi d2 : Z) : Z :=
  Z.lor (byte (Z.shiftl hi 2)) (Z.shiftr d2 6).

Definition is_ext_prefix (p : Z) : bool :=
  (p =? PrefixUserMessage) || (p =? PrefixEscape).

(** Bit-level checks on the packed bytes, decided by evaluation over the
    whole range of their arguments. *)
Definition check_control (nb : bool) (s a : Z) : bool :=
  let c := packed_control nb s a in
  negb (Z.land c (Z.shiftl 1 7) =? Z.shiftl 1 7)
  && Bool.eqb (Z.land c (Z.shiftl 1 6) =? Z.shiftl 1 6) nb
  && (Z.land (Z.shiftr c 2) 15 =? (if nb then s else 0))
  && (Z.land c 3 =? Z.shiftr a 8).

Definition check_std (a d0 : Z) : bool :=
  let d2 := packed_std_byte a d0 in
  let p := prefix_of (Z.shiftr a 8) d2 in
  negb (is_ext_prefix p)
  && (uint16 (Z.shiftl p 6) =? a)
  && (Z.land d2 63 =? Z.land d0 63).

Definition check_ext (a : Z) : bool :=
  let d2 := packed_ext_byte a in
  let p := prefix_of (Z.shiftr a 8) d2 in
  is_ext_prefix p && (Z.lor (uint16 (Z.shiftl p 6)) d2 =? a).

(** *** L_Data frames around the control units (cemi/management.go) *)

(** Modelled from the spec: the Control1 constants are declared in a file
    that is not among the sources. Section 6: the Control1 flags are
    standard frame, no-repeat and no-sys-broadcast. Their OR is kept as the
    list of the flags. *)
Inductive Control1Flag : Set :=
  | Control1StdFrame
  | Control1NoRepeat
  | Control1NoSysBroadcast.

(** Modelled from the spec: the LData struct is declared in a file that is
    not among the sources. Section 6: Control1 flags, Control2 with the hop
    count, source, destination; the fields are those the constructors below
    fill in. *)
Record LData : Type := mkLData {
  ld_Control1 : list Control1Flag;
  ld_Control2Hops : Z;
  ld_Source : Z;         (* IndividualAddr *)
  ld_Destination : Z;    (* uint16 *)
  ld_Data : TransportUnit
}.

(** Modelled from the spec: the message types are declared in files that
    are not among the sources. Glossary: L_Data.req, L_Data.con and
    L_Data.ind are the request, confirmation and indication primitives;
    any other cEMI message is [OtherMessage]. *)
Inductive Message : Type :=
  | LDataReq (ldata : LData)
  | LDataCon (ldata : LData)
  | LDataInd (ldata : LData)
  | OtherMessage.

Definition NewConnReq (src dst : Z) : Message :=
  let ctrl := TConnect in
  LDataReq (mkLData [Control1StdFrame; Control1NoRepeat; Control1NoSysBroadcast]
                    6 src (uint16 dst) ctrl).

Definition NewDiscReq (src dst : Z) : Message :=
  let ctrl := TDisconnect in
  LDataReq (mkLData [Control1StdFrame; Control1NoRepeat; Control1NoSysBroadcast]
                    6 src (uint16 dst) ctrl).

Definition NewAck (src dst seq : Z) : Message :=
  let ctrl := TAck seq in
  LDataReq (mkLData [Control1StdFrame; Control1NoSysBroadcast]
                    6 src (uint16 dst) ctrl).

(** *** The payload as it goes on the wire *)

(** AppData.Size and AppData.Pack clamp [len(app.Data)] to 1..255: at most
    255 bytes are copied, and an empty payload leaves the one zero byte of
    the fresh buffer in its place. *)
Definition clamp_data (d : list Z) : list Z :=
  match d with
  | [] => [0]
  | _ => take 255 d
  end.

End Cemi.

(** ** util: wire primitives *)

Module Util.

(** The util package (PackSome, UnpackSome, PackString, UnpackString) is
    not among the sources; this module follows section 4.1 of the
    specification: pack writes a sequence of fixed-width integers
    (big-endian), fixed-size arrays and opaque byte slices at sequential
    offsets and fails if the buffer is undersized; unpack is the inverse,
    advancing a cursor and returning the bytes consumed, and fails with
    short input when the cursor would exceed the input. *)

(** Modelled from the spec: what util.Pack accepts, a fixed-width integer
    of one or two bytes or a run of bytes (slice or fixed-size array). *)
Inductive item : Type :=
  | U8 (v : Z)
  | U16 (v : Z)
  | Bytes (l : list Z).

(** Modelled from the spec: the bytes of an item, integers big-endian. *)
Definition encode (i : item) : list Z :=
  match i with
  | U8 v => [v]
  | U16 v => [Z.shiftr v 8; Z.land v 255]
  | Bytes l => l
  end.

(** Modelled from the spec: the state of util.PackSome, that is the buffer
    being filled, the offset reached and whether a write has failed; after
    a failure nothing more is written. *)
Record writer : Type := mkWriter {
  w_buf : list Z;
  w_off : nat;
  w_failed : bool
}.

(** Modelled from the spec: one write at the current offset; it fails,
    writing nothing, when the buffer is undersized. *)
Definition write (l : list Z) (w : writer) : writer :=
  if w_failed w then w
  else if decide (w_off w + length l <= length (w_buf w))%nat then
    mkWriter (take (w_off w) (w_buf w) ++ l
              ++ drop (w_off w + length l) (w_buf w))
             (w_off w + length l) false
  else mkWriter (w_buf w) (w_off w) true.

(** Modelled from the spec: util.PackSome, the items written at
    sequential offsets. *)
Definition PackSome (buffer : list Z) (items : list item) : writer :=
  foldl (fun w i => write (encode i) w) (mkWriter buffer 0 false) items.

(** The bytes a sequence of items occupies on the wire. *)
Definition encode_all (items : list item) : list Z :=
  concat (map encode items).

(** The callers in knxnet drop PackSome's results and keep the buffer. *)
Definition PackSome_ (buffer : list Z) (items : list item) : list Z :=
  w_buf (PackSome buffer items).

(** Modelled from the spec: util.UnpackSome reads its targets one after
    the other, advancing a cursor; here is one read per kind of target,
    each from cursor [n] of [data], giving the value and the cursor after
    it, or short input. A one-byte integer: *)
Definition unpack_u8 (data : list Z) (n : nat) : outcome (Z * nat) :=
  match data !! n with
  | Some v => Ok (v, S n)
  | None => Err ErrUnexpectedEOF
  end.

(** Modelled from the spec: the read of a two-byte big-endian integer. *)
Definition unpack_u16 (data : list Z) (n : nat) : outcome (Z * nat) :=
  match data !! n, data !! S n with
  | Some hi, Some lo => Ok (Z.lor (Z.shiftl hi 8) lo, S (S n))
  | _, _ => Err ErrUnexpectedEOF
  end.

(** Modelled from the spec: the read of a run of [k] bytes (a slice of
    length [k] or a fixed-size array). *)
Definition unpack_bytes (k : nat) (data : list Z) (n : nat)
  : outcome (list Z * nat) :=
  if decide (n + k <= length data)%nat
  then Ok (take k (drop n data), (n + k)%nat)
  else Err ErrUnexpectedEOF.

(** Modelled from the spec: strings travel in a field of fixed width,
    padded with zero bytes (section 4.3: friendly name padded to 30 bytes);
    reading one drops the padding. *)
Fixpoint trim_zeros (l : list Z) : list Z :=
  match l with
  | [] => []
  | x :: r =>
      match trim_zeros r with
      | [] => if x =? 0 then [] else [x]
      | r' => x :: r'
      end
  end.

(** Modelled from the spec: util.PackString, the string followed by zero
    bytes up to [maxLen]; nothing is written when it does not fit. *)
Definition PackString (buffer : list Z) (maxLen : nat) (input : list Z)
  : list Z :=
  if decide (length input <= maxLen)%nat then
    PackSome_ buffer
      [Bytes (input ++ replicate (maxLen - length input) 0)]
  else buffer.

(** Modelled from the spec: util.UnpackString, the field of [maxLen]
    bytes without its padding. *)
Definition UnpackString (data : list Z) (maxLen : nat)
  : outcome (list Z * nat) :=
  '(raw, n) ← unpack_bytes maxLen data 0;
  Ok (trim_zeros raw, n).

End Util.

(** ** knxnet: description information blocks *)

Module Knxnet.
Import Util.

Definition friendlyNameMaxLen : nat := 30.

Definition DescriptionTypeDeviceInfo : Z := 1.
Definition DescriptionTypeSupportedServiceFamilies : Z := 2.
Definition DescriptionTypeIPConfig : Z := 3.
Definition DescriptionTypeIPCurrentConfig : Z := 4.
Definition DescriptionTypeKNXAddresses : Z := 5.
Definition DescriptionTypeSecuredServiceFamilies : Z := 6.
Definition DescriptionTypeTunnellingInfo : Z := 7.
Definition DescriptionTypeExtendedDeviceInfo : Z := 8.
Definition DescriptionTypeManufacturerData : Z := 254.

(** The loop [for _, x := range xs { x.Pack(buffer[offset:]); offset +=
    x.Size() }] shared by the list-carrying blocks. *)
Fixpoint pack_each {A} (pack : A -> list Z -> list Z) (size : nat)
    (xs : list A) (offset : nat) (buffer : list Z) : outcome (list Z) :=
  match xs with
  | [] => Ok buffer
  | x :: xs' =>
      sub ← slice_from buffer offset;
      pack_each pack size xs' (offset + size)%nat
                (take offset buffer ++ pack x sub)
  end.

(** *** ServiceFamily *)

Record ServiceFamily : Type := mkServiceFamily {
  sf_Type : Z;
  sf_Version : Z
}.

Definition ServiceFamily_Size : nat := 2.

Definition ServiceFamily_Pack (f : ServiceFamily) (buffer : list Z) : list Z :=
  PackSome_ buffer [U8 (sf_Type f); U8 (sf_Version f)].

Definition ServiceFamily_Unpack (data : list Z)
  : outcome (ServiceFamily * nat) :=
  '(ty, n) ← unpack_u8 data 0;
  '(version, n) ← unpack_u8 data n;
  Ok (mkServiceFamily ty version, n).

(** The loop of SupportedServicesDIB.Unpack and SecuredServicesDIB.Unpack:
    [for n < uint(length) { f.Unpack(data[n:]) ... }]. *)
Fixpoint unpack_families (fuel : nat) (data : list Z) (length : Z) (n : nat)
    (families : list ServiceFamily) : outcome (list ServiceFamily * nat) :=
  if Z.of_nat n <? length then
    match fuel with
    | O => NoFuel
    | S fuel' =>
        sub ← slice_from data n;
        match ServiceFamily_Unpack sub with
        | Ok (f, nn) =>
            unpack_families fuel' data length (n + nn)%nat (families ++ [f])
        | Err _ => Err ErrUnpackElement
        | Panic => Panic
        | NoFuel => NoFuel
        end
    end
  else Ok (families, n).

(** *** DeviceInformationBlock *)

Record DeviceInformationBlock : Type := mkDeviceInformationBlock {
  dev_Type : Z;
  dev_Medium : Z;
  dev_Status : Z;
  dev_Source : Z;                          (* uint16 *)
  dev_ProjectIdentifier : Z;               (* uint16 *)
  dev_SerialNumber : list Z;               (* [6]byte *)
  dev_RoutingMulticastAddress : list Z;    (* [4]byte *)
  dev_HardwareAddr : list Z;               (* []byte *)
  dev_FriendlyName : list Z                (* string, as bytes *)
}.

Definition DeviceInformationBlock_zero : DeviceInformationBlock :=
  mkDeviceInformationBlock 0 0 0 0 0 (replicate 6 0) (replicate 4 0) [] [].

Definition DeviceInformationBlock_Size : Z := 54.

Definition DeviceInformationBlock_Pack (dib : DeviceInformationBlock)
    (buffer : list Z) : list Z :=
  let buf := replicate friendlyNameMaxLen 0 in
  let buf := PackString buf friendlyNameMaxLen (dev_FriendlyName dib) in
  PackSome_ buffer
    [ U8 (byte DeviceInformationBlock_Size); U8 (dev_Type dib);
      U8 (dev_Medium dib); U8 (dev_Status dib);
      U16 (dev_Source dib);
      U16 (dev_ProjectIdentifier dib);
      Bytes (dev_SerialNumber dib);
      Bytes (dev_RoutingMulticastAddress dib);
      Bytes (dev_HardwareAddr dib);
      Bytes buf ].

Definition DeviceInformationBlock_Unpack (dib : DeviceInformationBlock)
    (data : list Z) : outcome (DeviceInformationBlock * nat) :=
  '(length, n) ← unpack_u8 data 0;
  '(ty, n) ← unpack_u8 data n;
  '(medium, n) ← unpack_u8 data n;
  '(status, n) ← unpack_u8 data n;
  '(source, n) ← unpack_u16 data n;
  '(project, n) ← unpack_u16 data n;
  '(serial, n) ← unpack_bytes 6 data n;
  '(multicast, n) ← unpack_bytes 4 data n;
  '(hardware, n) ← unpack_bytes 6 data n;
  sub ← slice_from data n;
  '(name, nn) ← UnpackString sub friendlyNameMaxLen;
  let n := (n + nn)%nat in
  if negb (length =? byte DeviceInformationBlock_Size) then
    Err ErrInvalidLength
  else
    Ok (mkDeviceInformationBlock ty medium status source project serial
          multicast hardware name, n).

(** *** SupportedServicesDIB *)

Record SupportedServicesDIB : Type := mkSupportedServicesDIB {
  ss_Type : Z;
  ss_Families : list ServiceFamily
}.

Definition families_Size (families : list ServiceFamily) : Z :=
  foldl (fun size _ => size + Z.of_nat ServiceFamily_Size) 2 families.

Definition SupportedServicesDIB_Size (sdib : SupportedServicesDIB) : Z :=
  families_Size (ss_Families sdib).

Definition SupportedServicesDIB_Pack (sdib : SupportedServicesDIB)
    (buffer : list Z) : outcome (list Z) :=
  let buffer :=
    PackSome_ buffer
      [U8 (byte (SupportedServicesDIB_Size sdib)); U8 (ss_Type sdib)] in
  pack_each ServiceFamily_Pack ServiceFamily_Size (ss_Families sdib) 2 buffer.

Definition SupportedServicesDIB_Unpack (sdib : SupportedServicesDIB)
    (data : list Z) : outcome (SupportedServicesDIB * nat) :=
  '(length, n) ← unpack_u8 data 0;
  '(ty, n) ← unpack_u8 data n;
  '(families, n) ←
     unpack_families (Datatypes.length data) data length n (ss_Families sdib);
  let sdib := mkSupportedServicesDIB ty families in
  if negb (length =? byte (SupportedServicesDIB_Size sdib)) then
    Err ErrInvalidLength
  else Ok (sdib, n).

(** *** IPConfigDIB *)

Record IPConfigDIB : Type := mkIPConfigDIB {
  ipc_Type : Z;
  ipc_IP : list Z;        (* Address = [4]byte *)
  ipc_Mask : list Z;
  ipc_Gateway : list Z;
  ipc_IPCapabilities : Z;
  ipc_IPAssignment : Z
}.

Definition IPConfigDIB_Size : Z := 16.

Definition IPConfigDIB_Pack (idib : IPConfigDIB) (buffer : list Z) : list Z :=
  PackSome_ buffer
    [ U8 (byte IPConfigDIB_Size); U8 (ipc_Type idib);
      Bytes (ipc_IP idib); Bytes (ipc_Mask idib); Bytes (ipc_Gateway idib);
      U8 (ipc_IPCapabilities idib); U8 (ipc_IPAssignment idib) ].

Definition IPConfigDIB_Unpack (idib : IPConfigDIB) (data : list Z)
  : outcome (IPConfigDIB * nat) :=
  '(length, n) ← unpack_u8 data 0;
  '(ty, n) ← unpack_u8 data n;
  '(ip, n) ← unpack_bytes 4 data n;
  '(mask, n) ← unpack_bytes 4 data n;
  '(gateway, n) ← unpack_bytes 4 data n;
  '(capabilities, n) ← unpack_u8 data n;
  '(assignment, n) ← unpack_u8 data n;
  if negb (length =? byte IPConfigDIB_Size) then Err ErrInvalidLength
  else Ok (mkIPConfigDIB ty ip mask gateway capabilities assignment, n).

(** *** IPCurrentConfigDIB *)

Record IPCurrentConfigDIB : Type := mkIPCurrentConfigDIB {
  ipcc_Type : Z;
  ipcc_IP : list Z;
  ipcc_Mask : list Z;
  ipcc_Gateway : list Z;
  ipcc_DHCPServer : list Z;
  ipcc_IPAssignment : Z;
  ipcc_Reserved : Z
}.

Definition IPCurrentConfigDIB_Size : Z := 20.

Definition IPCurrentConfigDIB_Pack (idib : IPCurrentConfigDIB)
    (buffer : list Z) : list Z :=
  PackSome_ buffer
    [ U8 (byte IPCurrentConfigDIB_Size); U8 (ipcc_Type idib);
      Bytes (ipcc_IP idib); Bytes (ipcc_Mask idib);
      Bytes (ipcc_Gateway idib); Bytes (ipcc_DHCPServer idib);
      U8 (ipcc_IPAssignment idib); U8 (ipcc_Reserved idib) ].

Definition IPCurrentConfigDIB_Unpack (idib : IPCurrentConfigDIB)
    (data : list Z) : outcome (IPCurrentConfigDIB * nat) :=
  '(length, n) ← unpack_u8 data 0;
  '(ty, n) ← unpack_u8 data n;
  '(ip, n) ← unpack_bytes 4 data n;
  '(mask, n) ← unpack_bytes 4 data n;
  '(gateway, n) ← unpack_bytes 4 data n;
  '(dhcp, n) ← unpack_bytes 4 data n;
  '(assignment, n) ← unpack_u8 data n;
  '(reserved, n) ← unpack_u8 data n;
  if negb (length =? byte IPCurrentConfigDIB_Size) then Err ErrInvalidLength
  else Ok (mkIPCurrentConfigDIB ty ip mask gateway dhcp assignment reserved,
           n).

(** *** KNXAddrsDIB *)

Record KNXAddrsDIB : Type := mkKNXAddrsDIB {
  ka_Type : Z;
  ka_KNXAddrs : list Z     (* []cemi.IndividualAddr, uint16 each *)
}.

Definition KNXAddrsDIB_Size (kdib : KNXAddrsDIB) : Z :=
  2 + len (ka_KNXAddrs kdib) * 2.

Definition KNXAddrsDIB_Pack (kdib : KNXAddrsDIB) (buffer : list Z)
  : outcome (list Z) :=
  let buffer :=
    PackSome_ buffer [U8 (byte (KNXAddrsDIB_Size kdib)); U8 (ka_Type kdib)] in
  pack_each (fun addr sub => PackSome_ sub [U16 addr]) 2
            (ka_KNXAddrs kdib) 2 buffer.

Fixpoint unpack_addrs (fuel : nat) (data : list Z) (length : Z) (n : nat)
    (addrs : list Z) : outcome (list Z * nat) :=
  if Z.of_nat n <? length then
    match fuel with
    | O => NoFuel
    | S fuel' =>
        sub ← slice_from data n;
        match unpack_u16 sub 0 with
        | Ok (addr, nn) =>
            unpack_addrs fuel' data length (n + nn)%nat (addrs ++ [addr])
        | Err _ => Err ErrUnpackElement
        | Panic => Panic
        | NoFuel => NoFuel
        end
    end
  else Ok (addrs, n).

Definition KNXAddrsDIB_Unpack (kdib : KNXAddrsDIB) (data : list Z)
  : outcome (KNXAddrsDIB * nat) :=
  '(length, n) ← unpack_u8 data 0;
  '(ty, n) ← unpack_u8 data n;
  '(addrs, n) ←
     unpack_addrs (Datatypes.length data) data length n (ka_KNXAddrs kdib);
  let kdib := mkKNXAddrsDIB ty addrs in
  if negb (length =? byte (KNXAddrsDIB_Size kdib)) then Err ErrInvalidLength
  else Ok (kdib, n).

(** *** ManufacturerDataDIB *)

Record ManufacturerDataDIB : Type := mkManufacturerDataDIB {
  md_Type : Z;
  md_ID : Z;               (* uint16 *)
  md_Data : list Z
}.

Definition ManufacturerDataDIB_Size (mdib : ManufacturerDataDIB) : Z :=
  4 + len (md_Data mdib).

Definition ManufacturerDataDIB_Pack (mdib : ManufacturerDataDIB)
    (buffer : list Z) : list Z :=
  PackSome_ buffer
    [ U8 (byte (ManufacturerDataDIB_Size mdib)); U8 (md_Type mdib);
      U16 (md_ID mdib);
      Bytes (md_Data mdib) ].

Definition ManufacturerDataDIB_Unpack (mdib : ManufacturerDataDIB)
    (data : list Z) : outcome (ManufacturerDataDIB * nat) :=
  '(length, n) ← unpack_u8 data 0;
  '(ty, n) ← unpack_u8 data n;
  '(id, n) ← unpack_u16 data n;
  rest ← slice_from data n;
  let mdib := mkManufacturerDataDIB ty id rest in
  if negb (length =? byte (ManufacturerDataDIB_Size mdib)) then
    Err ErrInvalidLength
  else Ok (mdib, n).

(** *** SecuredServicesDIB *)

Record SecuredServicesDIB : Type := mkSecuredServicesDIB {
  sec_Type : Z;
  sec_Families : list ServiceFamily
}.

Definition SecuredServicesDIB_Size (sdib : SecuredServicesDIB) : Z :=
  families_Size (sec_Families sdib).

Definition SecuredServicesDIB_Pack (sdib : SecuredServicesDIB)
    (buffer : list Z) : outcome (list Z) :=
  let buffer :=
    PackSome_ buffer
      [U8 (byte (SecuredServicesDIB_Size sdib)); U8 (sec_Type sdib)] in
  pack_each ServiceFamily_Pack ServiceFamily_Size (sec_Families sdib) 2 buffer.

Definition SecuredServicesDIB_Unpack (sdib : SecuredServicesDIB)
    (data : list Z) : outcome (SecuredServicesDIB * nat) :=
  '(length, n) ← unpack_u8 data 0;
  '(ty, n) ← unpack_u8 data n;
  '(families, n) ←
     unpack_families (Datatypes.length data) data length n (sec_Families sdib);
  let sdib := mkSecuredServicesDIB ty families in
  if negb (length =? byte (SecuredServicesDIB_Size sdib)) then
    Err ErrInvalidLength
  else Ok (sdib, n).

(** *** TunnellingSlot and TunnellingInfoDIB *)

Record TunnellingSlot : Type := mkTunnellingSlot {
  ts_Addr : Z;             (* cemi.IndividualAddr, uint16 *)
  ts_Status : Z            (* uint16 *)
}.

Definition TunnellingSlot_Size : nat := 4.

Definition TunnellingSlot_Pack (ts : TunnellingSlot) (buffer : list Z)
  : list Z :=
  PackSome_ buffer [U16 (ts_Addr ts); U16 (ts_Status ts)].

Definition TunnellingSlot_Unpack (data : list Z)
  : outcome (TunnellingSlot * nat) :=
  if len data <? 4 then Err ErrSlotTooShort
  else
    match ('(addr, n) ← unpack_u16 data 0;
           '(status, n) ← unpack_u16 data n;
           Ok (mkTunnellingSlot addr status, n)) with
    | Ok (ts, n) =>
        if ts_Addr ts =? 0 then Err ErrSlotAddress else Ok (ts, n)
    | Err _ => Err ErrUnpackSlot
    | Panic => Panic
    | NoFuel => NoFuel
    end.

Record TunnellingInfoDIB : Type := mkTunnellingInfoDIB {
  ti_Type : Z;
  ti_APDUSize : Z;         (* uint16 *)
  ti_Slots : list TunnellingSlot
}.

Definition TunnellingInfoDIB_zero : TunnellingInfoDIB :=
  mkTunnellingInfoDIB 0 0 [].

Definition TunnellingInfoDIB_Size (tdib : TunnellingInfoDIB) : Z :=
  4 + len (ti_Slots tdib) * 4.

Definition TunnellingInfoDIB_Pack (tdib : TunnellingInfoDIB)
    (buffer : list Z) : outcome (list Z) :=
  let buffer :=
    PackSome_ buffer
      [ U8 (byte (TunnellingInfoDIB_Size tdib)); U8 (ti_Type tdib);
        U16 (ti_APDUSize tdib) ] in
  pack_each TunnellingSlot_Pack TunnellingSlot_Size (ti_Slots tdib) 4 buffer.

Fixpoint unpack_slots (fuel : nat) (data : list Z) (length : Z) (n : nat)
    (slots : list TunnellingSlot) : outcome (list TunnellingSlot * nat) :=
  if Z.of_nat n <? length then
    match fuel with
    | O => NoFuel
    | S fuel' =>
        sub ← slice_from data n;
        match TunnellingSlot_Unpack sub with
        | Ok (s, nn) =>
            let n := (n + nn)%nat in
            if ts_Addr s =? 0 then Err ErrSlotAddress
            else unpack_slots fuel' data length n (slots ++ [s])
        | Err _ => Err ErrUnpackSlot
        | Panic => Panic
        | NoFuel => NoFuel
        end
    end
  else Ok (slots, n).

Definition TunnellingInfoDIB_Unpack (tdib : TunnellingInfoDIB)
    (data : list Z) : outcome (TunnellingInfoDIB * nat) :=
  '(length, n) ← unpack_u8 data 0;
  '(ty, n) ← unpack_u8 data n;
  '(apdu, n) ← unpack_u16 data n;
  '(slots, n) ←
     unpack_slots (Datatypes.length data) data length n (ti_Slots tdib);
  let tdib := mkTunnellingInfoDIB ty apdu slots in
  if negb (length =? byte (TunnellingInfoDIB_Size tdib)) then
    Err ErrInvalidLength
  else Ok (tdib, n).

(** *** ExtendedDeviceInfoDIB *)

Record ExtendedDeviceInfoDIB : Type := mkExtendedDeviceInfoDIB {
  ed_Type : Z;
  ed_MediumStatus : Z;
  ed_Reserved : Z;
  ed_APDUSize : Z;          (* uint16 *)
  ed_DeviceDescriptor : Z   (* uint16 *)
}.

Definition ExtendedDeviceInfoDIB_Size : Z := 8.

Definition ExtendedDeviceInfoDIB_Pack (edib : ExtendedDeviceInfoDIB)
    (buffer : list Z) : list Z :=
  PackSome_ buffer
    [ U8 (byte ExtendedDeviceInfoDIB_Size); U8 (ed_Type edib);
      U8 (ed_MediumStatus edib); U8 (ed_Reserved edib);
      U16 (ed_APDUSize edib);
      U16 (ed_DeviceDescriptor edib) ].

Definition ExtendedDeviceInfoDIB_Unpack (edib : ExtendedDeviceInfoDIB)
    (data : list Z) : outcome (ExtendedDeviceInfoDIB * nat) :=
  '(length, n) ← unpack_u8 data 0;
  '(ty, n) ← unpack_u8 data n;
  '(medium, n) ← unpack_u8 data n;
  '(reserved, n) ← unpack_u8 data n;
  '(apdu, n) ← unpack_u16 data n;
  '(descriptor, n) ← unpack_u16 data n;
  if negb (length =? byte ExtendedDeviceInfoDIB_Size) then
    Err ErrInvalidLength
  else Ok (mkExtendedDeviceInfoDIB ty medium reserved apdu descriptor, n).

(** *** The DIB interface *)

Inductive DIB : Type :=
  | DIB_DeviceInfo (d : DeviceInformationBlock)
  | DIB_SupportedServices (d : SupportedServicesDIB)
  | DIB_IPConfig (d : IPConfigDIB)
  | DIB_IPCurrentConfig (d : IPCurrentConfigDIB)
  | DIB_KNXAddrs (d : KNXAddrsDIB)
  | DIB_SecuredServices (d : SecuredServicesDIB)
  | DIB_TunnellingInfo (d : TunnellingInfoDIB)
  | DIB_ExtendedDeviceInfo (d : ExtendedDeviceInfoDIB)
  | DIB_ManufacturerData (d : ManufacturerDataDIB).

Definition DIB_Size (dib : DIB) : Z :=
  match dib with
  | DIB_DeviceInfo _ => DeviceInformationBlock_Size
  | DIB_SupportedServices d => SupportedServicesDIB_Size d
  | DIB_IPConfig _ => IPConfigDIB_Size
  | DIB_IPCurrentConfig _ => IPCurrentConfigDIB_Size
  | DIB_KNXAddrs d => KNXAddrsDIB_Size d
  | DIB_SecuredServices d => SecuredServicesDIB_Size d
  | DIB_TunnellingInfo d => TunnellingInfoDIB_Size d
  | DIB_ExtendedDeviceInfo _ => ExtendedDeviceInfoDIB_Size
  | DIB_ManufacturerData d => ManufacturerDataDIB_Size d
  end.

Definition DIB_Pack (dib : DIB) (buffer : list Z) : outcome (list Z) :=
  match dib with
  | DIB_DeviceInfo d => Ok (DeviceInformationBlock_Pack d buffer)
  | DIB_SupportedServices d => SupportedServicesDIB_Pack d buffer
  | DIB_IPConfig d => Ok (IPConfigDIB_Pack d buffer)
  | DIB_IPCurrentConfig d => Ok (IPCurrentConfigDIB_Pack d buffer)
  | DIB_KNXAddrs d => KNXAddrsDIB_Pack d buffer
  | DIB_SecuredServices d => SecuredServicesDIB_Pack d buffer
  | DIB_TunnellingInfo d => TunnellingInfoDIB_Pack d buffer
  | DIB_ExtendedDeviceInfo d => Ok (ExtendedDeviceInfoDIB_Pack d buffer)
  | DIB_ManufacturerData d => Ok (ManufacturerDataDIB_Pack d buffer)
  end.

(** [dib.Unpack(data)] on a receiver of the given dynamic type. *)
Definition DIB_Unpack (dib : DIB) (data : list Z) : outcome (DIB * nat) :=
  match dib with
  | DIB_DeviceInfo d =>
      '(d, n) ← DeviceInformationBlock_Unpack d data; Ok (DIB_DeviceInfo d, n)
  | DIB_SupportedServices d =>
      '(d, n) ← SupportedServicesDIB_Unpack d data;
      Ok (DIB_SupportedServices d, n)
  | DIB_IPConfig d =>
      '(d, n) ← IPConfigDIB_Unpack d data; Ok (DIB_IPConfig d, n)
  | DIB_IPCurrentConfig d =>
      '(d, n) ← IPCurrentConfigDIB_Unpack d data; Ok (DIB_IPCurrentConfig d, n)
  | DIB_KNXAddrs d =>
      '(d, n) ← KNXAddrsDIB_Unpack d data; Ok (DIB_KNXAddrs d, n)
  | DIB_SecuredServices d =>
      '(d, n) ← SecuredServicesDIB_Unpack d data;
      Ok (DIB_SecuredServices d, n)
  | DIB_TunnellingInfo d =>
      '(d, n) ← TunnellingInfoDIB_Unpack d data; Ok (DIB_TunnellingInfo d, n)
  | DIB_ExtendedDeviceInfo d =>
      '(d, n) ← ExtendedDeviceInfoDIB_Unpack d data;
      Ok (DIB_ExtendedDeviceInfo d, n)
  | DIB_ManufacturerData d =>
      '(d, n) ← ManufacturerDataDIB_Unpack d data;
      Ok (DIB_ManufacturerData d, n)
  end.

(** The zero value [&T{}] of each block type. *)
Definition zero_Address : list Z := replicate 4 0.

Definition DIB_new (ty : Z) : option DIB :=
  if ty =? DescriptionTypeDeviceInfo then
    Some (DIB_DeviceInfo DeviceInformationBlock_zero)
  else if ty =? DescriptionTypeSupportedServiceFamilies then
    Some (DIB_SupportedServices (mkSupportedServicesDIB 0 []))
  else if ty =? DescriptionTypeIPConfig then
    Some (DIB_IPConfig
            (mkIPConfigDIB 0 zero_Address zero_Address zero_Address 0 0))
  else if ty =? DescriptionTypeIPCurrentConfig then
    Some (DIB_IPCurrentConfig
            (mkIPCurrentConfigDIB 0 zero_Address zero_Address zero_Address
               zero_Address 0 0))
  else if ty =? DescriptionTypeKNXAddresses then
    Some (DIB_KNXAddrs (mkKNXAddrsDIB 0 []))
  else if ty =? DescriptionTypeSecuredServiceFamilies then
    Some (DIB_SecuredServices (mkSecuredServicesDIB 0 []))
  else if ty =? DescriptionTypeTunnellingInfo then
    Some (DIB_TunnellingInfo TunnellingInfoDIB_zero)
  else if ty =? DescriptionTypeExtendedDeviceInfo then
    Some (DIB_ExtendedDeviceInfo (mkExtendedDeviceInfoDIB 0 0 0 0 0))
  else if ty =? DescriptionTypeManufacturerData then
    Some (DIB_ManufacturerData (mkManufacturerDataDIB 0 0 []))
  else None.

(** The zero value of the same dynamic type as [dib]. *)
Definition DIB_zero_like (dib : DIB) : DIB :=
  match dib with
  | DIB_DeviceInfo _ => DIB_DeviceInfo DeviceInformationBlock_zero
  | DIB_SupportedServices _ =>
      DIB_SupportedServices (mkSupportedServicesDIB 0 [])
  | DIB_IPConfig _ =>
      DIB_IPConfig (mkIPConfigDIB 0 zero_Address zero_Address zero_Address 0 0)
  | DIB_IPCurrentConfig _ =>
      DIB_IPCurrentConfig
        (mkIPCurrentConfigDIB 0 zero_Address zero_Address zero_Address
           zero_Address 0 0)
  | DIB_KNXAddrs _ => DIB_KNXAddrs (mkKNXAddrsDIB 0 [])
  | DIB_SecuredServices _ => DIB_SecuredServices (mkSecuredServicesDIB 0 [])
  | DIB_TunnellingInfo _ => DIB_TunnellingInfo TunnellingInfoDIB_zero
  | DIB_ExtendedDeviceInfo _ =>
      DIB_ExtendedDeviceInfo (mkExtendedDeviceInfoDIB 0 0 0 0 0)
  | DIB_ManufacturerData _ =>
      DIB_ManufacturerData (mkManufacturerDataDIB 0 0 [])
  end.

(** Pack into a fresh buffer of [Size] bytes, unpack into a zero value. *)
Definition DIB_AllocAndPack (dib : DIB) : outcome (list Z) :=
  DIB_Pack dib (replicate (Z.to_nat (DIB_Size dib)) 0).

Definition DIB_unpack_pack (dib : DIB) : outcome (DIB * nat) :=
  buffer ← DIB_AllocAndPack dib; DIB_Unpack (DIB_zero_like dib) buffer.

(** *** DescriptionBlock *)

Record UnknownDescriptionBlock : Type := mkUnknownDescriptionBlock {
  unk_Type : Z;
  unk_Data : list Z
}.

Record DescriptionBlock : Type := mkDescriptionBlock {
  DeviceHardware : DeviceInformationBlock;
  SupportedServices : SupportedServicesDIB;
  IPConfig : IPConfigDIB;
  IPCurrentConfig : IPCurrentConfigDIB;
  KNXAddrs : KNXAddrsDIB;
  SecuredServices : SecuredServicesDIB;
  TunnellingInfo : TunnellingInfoDIB;
  ExtendedDeviceInfo : ExtendedDeviceInfoDIB;
  ManufacturerData : ManufacturerDataDIB;
  UnknownBlocks : list UnknownDescriptionBlock
}.

Definition DescriptionBlock_zero : DescriptionBlock :=
  mkDescriptionBlock
    DeviceInformationBlock_zero
    (mkSupportedServicesDIB 0 [])
    (mkIPConfigDIB 0 zero_Address zero_Address zero_Address 0 0)
    (mkIPCurrentConfigDIB 0 zero_Address zero_Address zero_Address
       zero_Address 0 0)
    (mkKNXAddrsDIB 0 [])
    (mkSecuredServicesDIB 0 [])
    TunnellingInfoDIB_zero
    (mkExtendedDeviceInfoDIB 0 0 0 0 0)
    (mkManufacturerDataDIB 0 0 [])
    [].

(** One turn of the switch in DescriptionBlock.Unpack on the block
    [data[n : n+length]] (already sliced): the field for a known type is
    unpacked in place, [None] stands for the default case. *)
Definition DescriptionBlock_dispatch (di : DescriptionBlock) (ty : Z)
    (blk : outcome (list Z)) : option (outcome DescriptionBlock) :=
  match di with
  | mkDescriptionBlock dev ss ipc ipcc ka sec ti ed md unk =>
    if ty =? DescriptionTypeDeviceInfo then
      Some (b ← blk; '(d, _) ← DeviceInformationBlock_Unpack dev b;
            Ok (mkDescriptionBlock d ss ipc ipcc ka sec ti ed md unk))
    else if ty =? DescriptionTypeSupportedServiceFamilies then
      Some (b ← blk; '(d, _) ← SupportedServicesDIB_Unpack ss b;
            Ok (mkDescriptionBlock dev d ipc ipcc ka sec ti ed md unk))
    else if ty =? DescriptionTypeIPConfig then
      Some (b ← blk; '(d, _) ← IPConfigDIB_Unpack ipc b;
            Ok (mkDescriptionBlock dev ss d ipcc ka sec ti ed md unk))
    else if ty =? DescriptionTypeIPCurrentConfig then
      Some (b ← blk; '(d, _) ← IPCurrentConfigDIB_Unpack ipcc b;
            Ok (mkDescriptionBlock dev ss ipc d ka sec ti ed md unk))
    else if ty =? DescriptionTypeKNXAddresses then
      Some (b ← blk; '(d, _) ← KNXAddrsDIB_Unpack ka b;
            Ok (mkDescriptionBlock dev ss ipc ipcc d sec ti ed md unk))
    else if ty =? DescriptionTypeSecuredServiceFamilies then
      Some (b ← blk; '(d, _) ← SecuredServicesDIB_Unpack sec b;
            Ok (mkDescriptionBlock dev ss ipc ipcc ka d ti ed md unk))
    else if ty =? DescriptionTypeTunnellingInfo then
      Some (b ← blk; '(d, _) ← TunnellingInfoDIB_Unpack ti b;
            Ok (mkDescriptionBlock dev ss ipc ipcc ka sec d ed md unk))
    else if ty =? DescriptionTypeExtendedDeviceInfo then
      Some (b ← blk; '(d, _) ← ExtendedDeviceInfoDIB_Unpack ed b;
            Ok (mkDescriptionBlock dev ss ipc ipcc ka sec ti d md unk))
    else if ty =? DescriptionTypeManufacturerData then
      Some (b ← blk; '(d, _) ← ManufacturerDataDIB_Unpack md b;
            Ok (mkDescriptionBlock dev ss ipc ipcc ka sec ti ed d unk))
    else None
  end.

(** The loop [for n < uint(len(data))] of DescriptionBlock.Unpack. *)
Fixpoint DescriptionBlock_loop (fuel : nat) (di : DescriptionBlock)
    (data : list Z) (n : nat) : outcome (DescriptionBlock * nat) :=
  if (n <? length data)%nat then
    match fuel with
    | O => NoFuel
    | S fuel' =>
        sub ← slice_from data n;
        '(length, k) ← unpack_u8 sub 0;
        '(ty, _) ← unpack_u8 sub k;
        match DescriptionBlock_dispatch di ty
                (slice data n (n + Z.to_nat length)) with
        | Some r =>
            di ← r;
            DescriptionBlock_loop fuel' di data (n + Z.to_nat length)%nat
        | None =>
            (* default: the block is logged and skipped *)
            DescriptionBlock_loop fuel' di data (n + Z.to_nat length)%nat
        end
    end
  else Ok (di, n).

Definition DescriptionBlock_Unpack (fuel : nat) (di : DescriptionBlock)
    (data : list Z) : outcome (DescriptionBlock * nat) :=
  DescriptionBlock_loop fuel di data 0.

(** *** SearchResExt *)

Section SearchResExt.

(** HostInfo and its Unpack live in a file that is not among the sources;
    SearchResExt.Unpack is stated over any unpacker for it. *)
Variable HostInfo : Type.
Variable HostInfo_Unpack : list Z -> outcome (HostInfo * nat).

Record SearchResExt : Type := mkSearchResExt {
  Control : HostInfo;
  DIBs : list DIB
}.

(** The loop [for n < uint(len(data))] of SearchResExt.Unpack; the default
    case of its switch is [continue]. *)
Fixpoint SearchResExt_loop (fuel : nat) (dibs : list DIB) (data : list Z)
    (n : nat) : outcome (list DIB * nat) :=
  if (n <? length data)%nat then
    match fuel with
    | O => NoFuel
    | S fuel' =>
        sub ← slice_from data n;
        '(length, k) ← unpack_u8 sub 0;
        '(ty, _) ← unpack_u8 sub k;
        match DIB_new ty with
        | None => SearchResExt_loop fuel' dibs data n
        | Some dib =>
            blk ← slice data n (n + Z.to_nat length);
            '(dib, _) ← DIB_Unpack dib blk;
            SearchResExt_loop fuel' (dibs ++ [dib]) data
                              (n + Z.to_nat length)%nat
        end
    end
  else Ok (dibs, n).

Definition SearchResExt_Unpack (fuel : nat) (res : SearchResExt)
    (data : list Z) : outcome (SearchResExt * nat) :=
  '(control, n) ← HostInfo_Unpack data;
  '(dibs, n) ← SearchResExt_loop fuel (DIBs res) data n;
  Ok (mkSearchResExt control dibs, n).

End SearchResExt.

Arguments mkSearchResExt {HostInfo} _ _.
Arguments Control {HostInfo} _.
Arguments DIBs {HostInfo} _.
Arguments SearchResExt_Unpack {HostInfo} _ _ _ _.

(** A stand-in for HostInfo.Unpack in examples: it takes the eight bytes
    of the host information as they are. *)
Definition take_HostInfo (data : list Z) : outcome (list Z * nat) :=
  '(raw, n) ← unpack_bytes 8 data 0;
  Ok (raw, n).

(** *** Search request parameters *)

Definition ParameterTypeInvalid : Z := 0.
Definition ParameterTypeSelectProgMode : Z := 1.
Definition ParameterTypeSelectMACAddr : Z := 2.
Definition ParameterTypeSelectSrvSRP : Z := 3.
Definition ParameterTypeRequestDIBs : Z := 4.

(** [var pld byte; if Mandatory { pld |= 0x80 }; pld |= byte(Type)]. *)
Definition srp_pld (mandatory : bool) (ty : Z) : Z :=
  let pld := 0 in
  let pld := if mandatory then Z.lor pld 128 else pld in
  Z.lor pld (byte ty).

Definition pld_Mandatory (pld : Z) : bool := negb (Z.land pld 128 =? 0).
Definition pld_Type (pld : Z) : Z := Z.land pld 127.

Record SelectProgMode : Type := mkSelectProgMode {
  spm_Mandatory : bool;
  spm_Type : Z
}.

Definition NewSelectProgMode (mandatory : bool) : SelectProgMode :=
  mkSelectProgMode mandatory ParameterTypeSelectProgMode.

Definition SelectProgMode_Size : Z := 1.

Definition SelectProgMode_Pack (srp : SelectProgMode) (buffer : list Z)
  : list Z :=
  PackSome_ buffer [U8 (srp_pld (spm_Mandatory srp) (spm_Type srp))].

Definition SelectProgMode_Unpack (srp : SelectProgMode) (data : list Z)
  : outcome (SelectProgMode * nat) :=
  '(length, n) ← unpack_u8 data 0;
  '(pld, n) ← unpack_u8 data n;
  if negb (length =? byte SelectProgMode_Size) then Err ErrInvalidLength
  else Ok (mkSelectProgMode (pld_Mandatory pld) (pld_Type pld), 1%nat).

Record SelectMACAddr : Type := mkSelectMACAddr {
  smac_Mandatory : bool;
  smac_Type : Z;
  smac_HardwareAddr : list Z     (* [6]byte *)
}.

Definition NewSelectMACAddr (mandatory : bool) (addr : list Z)
  : SelectMACAddr :=
  mkSelectMACAddr mandatory ParameterTypeSelectMACAddr addr.

Definition SelectMACAddr_Size : Z := 7.

Definition SelectMACAddr_Pack (srp : SelectMACAddr) (buffer : list Z)
  : list Z :=
  PackSome_ buffer
    [ U8 (srp_pld (smac_Mandatory srp) (smac_Type srp));
      Bytes (smac_HardwareAddr srp) ].

Definition SelectMACAddr_Unpack (srp : SelectMACAddr) (data : list Z)
  : outcome (SelectMACAddr * nat) :=
  '(length, n) ← unpack_u8 data 0;
  '(pld, n) ← unpack_u8 data n;
  '(hardware, n) ← unpack_bytes 6 data n;
  if negb (length =? byte SelectMACAddr_Size) then Err ErrInvalidLength
  else Ok (mkSelectMACAddr (pld_Mandatory pld) (pld_Type pld) hardware,
           7%nat).

Record SelectSrvSRP : Type := mkSelectSrvSRP {
  ssrv_Mandatory : bool;
  ssrv_Type : Z;
  ssrv_Service : Z;
  ssrv_Version : Z
}.

Definition NewSelectSrvSRP (mandatory : bool) (service version : Z)
  : SelectSrvSRP :=
  mkSelectSrvSRP mandatory ParameterTypeSelectSrvSRP service version.

Definition SelectSrvSRP_Size : Z := 3.

Definition SelectSrvSRP_Pack (srp : SelectSrvSRP) (buffer : list Z)
  : list Z :=
  PackSome_ buffer
    [ U8 (srp_pld (ssrv_Mandatory srp) (ssrv_Type srp));
      U8 (ssrv_Service srp); U8 (ssrv_Version srp) ].

Definition SelectSrvSRP_Unpack (srp : SelectSrvSRP) (data : list Z)
  : outcome (SelectSrvSRP * nat) :=
  '(length, n) ← unpack_u8 data 0;
  '(pld, n) ← unpack_u8 data n;
  '(service, n) ← unpack_u8 data n;
  '(version, n) ← unpack_u8 data n;
  if negb (length =? byte SelectSrvSRP_Size) then Err ErrInvalidLength
  else Ok (mkSelectSrvSRP (pld_Mandatory pld) (pld_Type pld) service version,
           3%nat).

Record RequestDIBs : Type := mkRequestDIBs {
  rd_Mandatory : bool;
  rd_Type : Z;
  rd_DescTypes : list Z
}.

Definition NewRequestDIBs (mandatory : bool) (descTypes : list Z)
  : RequestDIBs :=
  mkRequestDIBs mandatory ParameterTypeRequestDIBs descTypes.

Definition RequestDIBs_Size (srp : RequestDIBs) : Z :=
  let lenDeskTypes := len (rd_DescTypes srp) in
  let lenDeskTypes :=
    if negb (lenDeskTypes mod 2 =? 0) then lenDeskTypes + 1
    else lenDeskTypes in
  2 + lenDeskTypes.

(** The description types as they go on the wire: one 0x00 is appended
    when their number is odd. *)
Definition padded (descTypes : list Z) : list Z :=
  if negb (len descTypes mod 2 =? 0) then descTypes ++ [0] else descTypes.

Definition RequestDIBs_Pack (srp : RequestDIBs) (buffer : list Z) : list Z :=
  let pld := srp_pld (rd_Mandatory srp) (rd_Type srp) in
  let descTypes := map byte (rd_DescTypes srp) in
  let descTypes := padded descTypes in
  let length := byte (2 + len descTypes) in
  PackSome_ buffer [U8 length; U8 pld; Bytes descTypes].

(** RequestDIBs.Unpack takes [data[n:length]] with the length byte as the
    upper bound, whatever [len(data)] is: on a slice with spare capacity
    the description types are read up to the capacity. *)
Definition RequestDIBs_Unpack_cap (srp : RequestDIBs) (data spare : list Z)
  : outcome (RequestDIBs * nat) :=
  '(length, n) ← unpack_u8 data 0;
  '(pld, n) ← unpack_u8 data n;
  descTypes ← slice_cap data spare n (Z.to_nat length);
  let srp := mkRequestDIBs (pld_Mandatory pld) (pld_Type pld) descTypes in
  if negb (length =? byte (RequestDIBs_Size srp)) then Err ErrInvalidLength
  else Ok (srp, Z.to_nat length).

(** On a slice without spare capacity, such as a buffer fresh from
    [make]. *)
Definition RequestDIBs_Unpack (srp : RequestDIBs) (data : list Z)
  : outcome (RequestDIBs * nat) :=
  RequestDIBs_Unpack_cap srp data [].

(** The SRPBlock interface. *)
Inductive SRPBlock : Type :=
  | SRP_SelectProgMode (p : SelectProgMode)
  | SRP_SelectMACAddr (p : SelectMACAddr)
  | SRP_SelectSrvSRP (p : SelectSrvSRP)
  | SRP_RequestDIBs (p : RequestDIBs).

Definition SRP_Size (srp : SRPBlock) : Z :=
  match srp with
  | SRP_SelectProgMode _ => SelectProgMode_Size
  | SRP_SelectMACAddr _ => SelectMACAddr_Size
  | SRP_SelectSrvSRP _ => SelectSrvSRP_Size
  | SRP_RequestDIBs p => RequestDIBs_Size p
  end.

Definition SRP_Pack (srp : SRPBlock) (buffer : list Z) : list Z :=
  match srp with
  | SRP_SelectProgMode p => SelectProgMode_Pack p buffer
  | SRP_SelectMACAddr p => SelectMACAddr_Pack p buffer
  | SRP_SelectSrvSRP p => SelectSrvSRP_Pack p buffer
  | SRP_RequestDIBs p => RequestDIBs_Pack p buffer
  end.

(** [param.Unpack(data)] through the interface; of the four
    implementations only RequestDIBs.Unpack slices its argument beyond what
    UnpackSome has read, and so sees the spare capacity. *)
Definition SRP_Unpack_cap (srp : SRPBlock) (data spare : list Z)
  : outcome (SRPBlock * nat) :=
  match srp with
  | SRP_SelectProgMode p =>
      '(p, n) ← SelectProgMode_Unpack p data; Ok (SRP_SelectProgMode p, n)
  | SRP_SelectMACAddr p =>
      '(p, n) ← SelectMACAddr_Unpack p data; Ok (SRP_SelectMACAddr p, n)
  | SRP_SelectSrvSRP p =>
      '(p, n) ← SelectSrvSRP_Unpack p data; Ok (SRP_SelectSrvSRP p, n)
  | SRP_RequestDIBs p =>
      '(p, n) ← RequestDIBs_Unpack_cap p data spare;
      Ok (SRP_RequestDIBs p, n)
  end.

Definition SRP_Unpack (srp : SRPBlock) (data : list Z)
  : outcome (SRPBlock * nat) :=
  SRP_Unpack_cap srp data [].

Definition SRP_zero_like (srp : SRPBlock) : SRPBlock :=
  match srp with
  | SRP_SelectProgMode _ => SRP_SelectProgMode (mkSelectProgMode false 0)
  | SRP_SelectMACAddr _ =>
      SRP_SelectMACAddr (mkSelectMACAddr false 0 (replicate 6 0))
  | SRP_SelectSrvSRP _ => SRP_SelectSrvSRP (mkSelectSrvSRP false 0 0 0)
  | SRP_RequestDIBs _ => SRP_RequestDIBs (mkRequestDIBs false 0 [])
  end.

Definition SRP_AllocAndPack (srp : SRPBlock) : list Z :=
  SRP_Pack srp (replicate (Z.to_nat (SRP_Size srp)) 0).

Definition SRP_unpack_pack (srp : SRPBlock) : outcome (SRPBlock * nat) :=
  SRP_Unpack (SRP_zero_like srp) (SRP_AllocAndPack srp).

(** *** Wire images of the list elements *)

Definition ServiceFamily_wire (f : ServiceFamily) : list Z :=
  encode_all [U8 (sf_Type f); U8 (sf_Version f)].

Definition addr_wire (addr : Z) : list Z := encode (U16 addr).

Definition TunnellingSlot_wire (s : TunnellingSlot) : list Z :=
  encode_all [U16 (ts_Addr s); U16 (ts_Status s)].

(** *** Values the wire format can carry *)

Definition is_u16 (z : Z) : Prop := 0 <= z < 65536.

Definition ServiceFamily_ok (f : ServiceFamily) : Prop :=
  is_byte (sf_Type f) /\ is_byte (sf_Version f).

Definition TunnellingSlot_ok (s : TunnellingSlot) : Prop :=
  is_u16 (ts_Addr s) /\ ts_Addr s <> 0 /\ is_u16 (ts_Status s).

(** Field widths as the Go types give them, the packed size within the
    one-byte length field, the hardware address six bytes long, the friendly
    name at most thirty bytes without a trailing zero byte, and no
    tunnelling slot with address 0. *)
Definition DIB_ok (dib : DIB) : Prop :=
  match dib with
  | DIB_DeviceInfo d =>
      is_byte (dev_Type d) /\ is_byte (dev_Medium d) /\ is_byte (dev_Status d)
      /\ is_u16 (dev_Source d) /\ is_u16 (dev_ProjectIdentifier d)
      /\ length (dev_SerialNumber d) = 6%nat
      /\ length (dev_RoutingMulticastAddress d) = 4%nat
      /\ length (dev_HardwareAddr d) = 6%nat
      /\ (length (dev_FriendlyName d) <= friendlyNameMaxLen)%nat
      /\ trim_zeros (dev_FriendlyName d) = dev_FriendlyName d
  | DIB_SupportedServices d =>
      is_byte (ss_Type d) /\ Forall ServiceFamily_ok (ss_Families d)
      /\ SupportedServicesDIB_Size d <= 255
  | DIB_IPConfig d =>
      is_byte (ipc_Type d) /\ length (ipc_IP d) = 4%nat
      /\ length (ipc_Mask d) = 4%nat /\ length (ipc_Gateway d) = 4%nat
      /\ is_byte (ipc_IPCapabilities d) /\ is_byte (ipc_IPAssignment d)
  | DIB_IPCurrentConfig d =>
      is_byte (ipcc_Type d) /\ length (ipcc_IP d) = 4%nat
      /\ length (ipcc_Mask d) = 4%nat /\ length (ipcc_Gateway d) = 4%nat
      /\ length (ipcc_DHCPServer d) = 4%nat
      /\ is_byte (ipcc_IPAssignment d) /\ is_byte (ipcc_Reserved d)
  | DIB_KNXAddrs d =>
      is_byte (ka_Type d) /\ Forall is_u16 (ka_KNXAddrs d)
      /\ KNXAddrsDIB_Size d <= 255
  | DIB_SecuredServices d =>
      is_byte (sec_Type d) /\ Forall ServiceFamily_ok (sec_Families d)
      /\ SecuredServicesDIB_Size d <= 255
  | DIB_TunnellingInfo d =>
      is_byte (ti_Type d) /\ is_u16 (ti_APDUSize d)
      /\ Forall TunnellingSlot_ok (ti_Slots d)
      /\ TunnellingInfoDIB_Size d <= 255
  | DIB_ExtendedDeviceInfo d =>
      is_byte (ed_Type d) /\ is_byte (ed_MediumStatus d)
      /\ is_byte (ed_Reserved d) /\ is_u16 (ed_APDUSize d)
      /\ is_u16 (ed_DeviceDescriptor d)
  | DIB_ManufacturerData d =>
      is_byte (md_Type d) /\ is_u16 (md_ID d)
      /\ ManufacturerDataDIB_Size d <= 255
  end.

(** A RequestDIBs value as it is typed (the parameter type and the
    description types are uint8) whose packed size fits the length byte. *)
Definition RequestDIBs_ok (p : RequestDIBs) : Prop :=
  is_byte (rd_Type p) /\ is_bytes (rd_DescTypes p)
  /\ RequestDIBs_Size p <= 255.

(** *** SearchReqExt, and Size and Pack of SearchResExt *)

(** The zero value [&T{}] the switch of SearchReqExt.Unpack creates for a
    parameter type; [None] is its default case. *)
Definition SRP_new (ty : Z) : option SRPBlock :=
  if ty =? ParameterTypeSelectProgMode then
    Some (SRP_SelectProgMode (mkSelectProgMode false 0))
  else if ty =? ParameterTypeSelectMACAddr then
    Some (SRP_SelectMACAddr (mkSelectMACAddr false 0 (replicate 6 0)))
  else if ty =? ParameterTypeSelectSrvSRP then
    Some (SRP_SelectSrvSRP (mkSelectSrvSRP false 0 0 0))
  else if ty =? ParameterTypeRequestDIBs then
    Some (SRP_RequestDIBs (mkRequestDIBs false 0 []))
  else None.

(** The type field of a block, whatever its dynamic type. *)
Definition DIB_Type (dib : DIB) : Z :=
  match dib with
  | DIB_DeviceInfo d => dev_Type d
  | DIB_SupportedServices d => ss_Type d
  | DIB_IPConfig d => ipc_Type d
  | DIB_IPCurrentConfig d => ipcc_Type d
  | DIB_KNXAddrs d => ka_Type d
  | DIB_SecuredServices d => sec_Type d
  | DIB_TunnellingInfo d => ti_Type d
  | DIB_ExtendedDeviceInfo d => ed_Type d
  | DIB_ManufacturerData d => md_Type d
  end.

(** The description type that selects the dynamic type of a block in the
    switches of DescriptionBlock.Unpack and SearchResExt.Unpack. *)
Definition DIB_code (dib : DIB) : Z :=
  match dib with
  | DIB_DeviceInfo _ => DescriptionTypeDeviceInfo
  | DIB_SupportedServices _ => DescriptionTypeSupportedServiceFamilies
  | DIB_IPConfig _ => DescriptionTypeIPConfig
  | DIB_IPCurrentConfig _ => DescriptionTypeIPCurrentConfig
  | DIB_KNXAddrs _ => DescriptionTypeKNXAddresses
  | DIB_SecuredServices _ => DescriptionTypeSecuredServiceFamilies
  | DIB_TunnellingInfo _ => DescriptionTypeTunnellingInfo
  | DIB_ExtendedDeviceInfo _ => DescriptionTypeExtendedDeviceInfo
  | DIB_ManufacturerData _ => DescriptionTypeManufacturerData
  end.

(** The bytes of a block packed into a fresh buffer of its size. *)
Definition DIB_wire (dib : DIB) : list Z :=
  match DIB_AllocAndPack dib with
  | Ok w => w
  | _ => []
  end.

(** The field of a DescriptionBlock that DescriptionBlock.Unpack unpacks a
    block of the dynamic type of [dib] into, and the DescriptionBlock with
    that field set to [dib]. *)
Definition DescriptionBlock_field (di : DescriptionBlock) (dib : DIB) : DIB :=
  match dib with
  | DIB_DeviceInfo _ => DIB_DeviceInfo (DeviceHardware di)
  | DIB_SupportedServices _ => DIB_SupportedServices (SupportedServices di)
  | DIB_IPConfig _ => DIB_IPConfig (IPConfig di)
  | DIB_IPCurrentConfig _ => DIB_IPCurrentConfig (IPCurrentConfig di)
  | DIB_KNXAddrs _ => DIB_KNXAddrs (KNXAddrs di)
  | DIB_SecuredServices _ => DIB_SecuredServices (SecuredServices di)
  | DIB_TunnellingInfo _ => DIB_TunnellingInfo (TunnellingInfo di)
  | DIB_ExtendedDeviceInfo _ => DIB_ExtendedDeviceInfo (ExtendedDeviceInfo di)
  | DIB_ManufacturerData _ => DIB_ManufacturerData (ManufacturerData di)
  end.

Definition DescriptionBlock_with (di : DescriptionBlock) (dib : DIB)
  : DescriptionBlock :=
  match di with
  | mkDescriptionBlock dev ss ipc ipcc ka sec ti ed md unk =>
      match dib with
      | DIB_DeviceInfo d =>
          mkDescriptionBlock d ss ipc ipcc ka sec ti ed md unk
      | DIB_SupportedServices d =>
          mkDescriptionBlock dev d ipc ipcc ka sec ti ed md unk
      | DIB_IPConfig d =>
          mkDescriptionBlock dev ss d ipcc ka sec ti ed md unk
      | DIB_IPCurrentConfig d =>
          mkDescriptionBlock dev ss ipc d ka sec ti ed md unk
      | DIB_KNXAddrs d =>
          mkDescriptionBlock dev ss ipc ipcc d sec ti ed md unk
      | DIB_SecuredServices d =>
          mkDescriptionBlock dev ss ipc ipcc ka d ti ed md unk
      | DIB_TunnellingInfo d =>
          mkDescriptionBlock dev ss ipc ipcc ka sec d ed md unk
      | DIB_ExtendedDeviceInfo d =>
          mkDescriptionBlock dev ss ipc ipcc ka sec ti d md unk
      | DIB_ManufacturerData d =>
          mkDescriptionBlock dev ss ipc ipcc ka sec ti ed d unk
      end
  end.

(** A block a device sends: its fields fit the wire format and its type
    field holds the description type of its kind. *)
Definition DIB_sendable (dib : DIB) : Prop :=
  DIB_ok dib /\ DIB_Type dib = DIB_code dib.

(** A parameter whose fixed-size array has its size: the six bytes of the
    hardware address of SelectMACAddr. *)
Definition SRP_ok (param : SRPBlock) : Prop :=
  match param with
  | SRP_SelectMACAddr p => length (smac_HardwareAddr p) = 6%nat
  | _ => True
  end.

Section SearchExt.

(** HostInfo with its Size, Pack and Unpack lives in a file that is not
    among the sources; the search messages are stated over any of them. *)
Variable HostInfo : Type.
Variable HostInfo_Size : HostInfo -> Z.
Variable HostInfo_Pack : HostInfo -> list Z -> list Z.
Variable HostInfo_Unpack : list Z -> outcome (HostInfo * nat).

Definition SearchResExt_Size (res : SearchResExt HostInfo) : Z :=
  foldl (fun size dib => size + DIB_Size dib)
        (HostInfo_Size (Control res)) (DIBs res).

(** The loop [for _, dib := range res.DIBs { dib.Pack(buffer[offset:]);
    offset += dib.Size() }]. *)
Fixpoint pack_dibs (dibs : list DIB) (offset : nat) (buffer : list Z)
  : outcome (list Z) :=
  match dibs with
  | [] => Ok buffer
  | dib :: dibs' =>
      sub ← slice_from buffer offset;
      sub ← DIB_Pack dib sub;
      pack_dibs dibs' (offset + Z.to_nat (DIB_Size dib))%nat
                (take offset buffer ++ sub)
  end.

Definition SearchResExt_Pack (res : SearchResExt HostInfo) (buffer : list Z)
  : outcome (list Z) :=
  let offset := Z.to_nat (HostInfo_Size (Control res)) in
  head ← slice buffer 0 offset;
  let buffer := HostInfo_Pack (Control res) head
                ++ drop offset buffer in
  pack_dibs (DIBs res) offset buffer.

Record SearchReqExt : Type := mkSearchReqExt {
  req_Control : HostInfo;
  Parameters : list SRPBlock
}.

Definition SearchReqExt_Size (req : SearchReqExt) : Z :=
  foldl (fun size param => size + SRP_Size param)
        (HostInfo_Size (req_Control req)) (Parameters req).

(** The loop [for _, param := range req.Parameters {
    param.Pack(buffer[offset:]); offset += uint(param.Size()) }]. *)
Fixpoint pack_params (params : list SRPBlock) (offset : nat)
    (buffer : list Z) : outcome (list Z) :=
  match params with
  | [] => Ok buffer
  | param :: params' =>
      sub ← slice_from buffer offset;
      pack_params params' (offset + Z.to_nat (SRP_Size param))%nat
                  (take offset buffer ++ SRP_Pack param sub)
  end.

Definition SearchReqExt_Pack (req : SearchReqExt) (buffer : list Z)
  : outcome (list Z) :=
  let buffer := HostInfo_Pack (req_Control req) buffer in
  let offset := Z.to_nat (HostInfo_Size (req_Control req)) in
  pack_params (Parameters req) offset buffer.

(** The loop [for n < uint(length)] of SearchReqExt.Unpack; the header of
    a parameter is read and stepped over before the switch, whose default
    case is [continue]. [data] is the payload handed in and [spare] what
    its underlying array holds after it: the block
    [data[n : n+uint(paramLength)]] is bounded by the capacity, not by the
    length, and keeps what is left of the capacity. *)
Fixpoint SearchReqExt_loop (fuel : nat) (params : list SRPBlock)
    (data spare : list Z) (length : Z) (n : nat)
  : outcome (list SRPBlock * nat) :=
  if Z.of_nat n <? length then
    match fuel with
    | O => NoFuel
    | S fuel' =>
        sub ← slice_from data n;
        '(paramLength, k) ← unpack_u8 sub 0;
        '(ty, k) ← unpack_u8 sub k;
        let n := (n + k)%nat in
        match SRP_new ty with
        | None => SearchReqExt_loop fuel' params data spare length n
        | Some param =>
            let high := (n + Z.to_nat paramLength)%nat in
            blk ← slice_cap data spare n high;
            '(param, nn) ← SRP_Unpack_cap param blk
                             (spare_after data spare high);
            SearchReqExt_loop fuel' (params ++ [param]) data spare length
                              (n + nn)%nat
        end
    end
  else Ok (params, n).

Definition SearchReqExt_Unpack (fuel : nat) (data spare : list Z)
  : outcome (SearchReqExt * nat) :=
  '(length, n) ← unpack_u8 data 0;
  sub ← slice_from data n;
  '(control, nn) ← HostInfo_Unpack sub;
  let n := (n + nn)%nat in
  if length <? 6 then Err ErrInvalidLength
  else
    '(params, _) ← SearchReqExt_loop fuel [] data spare length n;
    Ok (mkSearchReqExt control params, Z.to_nat length).

End SearchExt.

Arguments mkSearchReqExt {HostInfo} _ _.
Arguments req_Control {HostInfo} _.
Arguments Parameters {HostInfo} _.
Arguments SearchResExt_Size {HostInfo} _ _.
Arguments SearchResExt_Pack {HostInfo} _ _ _ _.
Arguments SearchReqExt_Size {HostInfo} _ _.
Arguments SearchReqExt_Pack {HostInfo} _ _ _ _.
Arguments SearchReqExt_Unpack {HostInfo} _ _ _ _.

End Knxnet.

(** ** knx: point-to-point connections and their registry *)

Module Knx.
Import Cemi.

(** *** The tunnel *)

(** Modelled from the spec: what a reader of the tunnel's inbound channel
    meets (section 6: a receive channel of cEMI messages, closed on
    shutdown). *)
Inductive TunnelEvent : Type :=
  | Delivered (msg : Message)
  | ChannelClosed.

(** Modelled from the spec: the Tunnel type is declared in a file that is
    not among the sources. Section 6 gives its contract: send a message,
    an inbound channel, the local source address, the configured response
    timeout. Its behaviour is scripted: the results the coming calls of
    Send will give, what the inbound channel delivers to a reader before
    the reader's timer fires, and the frames sent so far. *)
Record Tunnel : Type := mkTunnel {
  tun_SourceAddr : Z;
  tun_ResponseTimeout : Z;
  tun_send_results : list (option error);
  tun_inbound : list TunnelEvent;
  tun_sent : list Message
}.

(** *** Sessions, the registry and the state they live in *)

Record P2PConnection : Type := mkP2PConnection {
  targetAddr : Z;
  seqNumber : Z;             (* uint8 *)
  rateLimit : Z;             (* uint *)
  lastSend : Z;              (* time.Time, in nanoseconds *)
  connected : bool;
  done_closed : bool;        (* whether close(conn.done) has happened *)
  serving : bool             (* whether the serve goroutine is running *)
}.

Record Management : Type := mkManagement {
  connections : gmap Z nat;  (* map[IndividualAddr]*P2PConnection *)
  mgmt_done_closed : bool
}.

(** Sessions are reached through pointers: the registry and its callers
    share them. [st_heap] is the store of sessions, a pointer is a key of
    it. The scheduler is scripted like the tunnel: [st_oversleep] holds, for
    the coming calls of time.Sleep, by how much each one overruns the
    duration it was asked for. *)
Record State : Type := mkState {
  st_tunnel : Tunnel;
  st_now : Z;                (* the clock, in nanoseconds *)
  st_heap : gmap nat P2PConnection;
  st_next : nat;             (* the next pointer to hand out *)
  st_mgmt : Management;
  st_oversleep : list N      (* nanoseconds *)
}.

Definition set_tunnel (t : Tunnel) (st : State) : State :=
  mkState t (st_now st) (st_heap st) (st_next st) (st_mgmt st)
          (st_oversleep st).
Definition set_now (now : Z) (st : State) : State :=
  mkState (st_tunnel st) now (st_heap st) (st_next st) (st_mgmt st)
          (st_oversleep st).
Definition set_heap (h : gmap nat P2PConnection) (st : State) : State :=
  mkState (st_tunnel st) (st_now st) h (st_next st) (st_mgmt st)
          (st_oversleep st).
Definition set_mgmt (m : Management) (st : State) : State :=
  mkState (st_tunnel st) (st_now st) (st_heap st) (st_next st) m
          (st_oversleep st).
Definition set_oversleep (l : list N) (st : State) : State :=
  mkState (st_tunnel st) (st_now st) (st_heap st) (st_next st) (st_mgmt st)
          l.

(** *** A state monad over [outcome] *)

Definition M (A : Type) : Type := State -> outcome A * State.

Definition ret {A} (a : A) : M A := fun st => (Ok a, st).

Definition bind {A B} (m : M A) (k : A -> M B) : M B := fun st =>
  match m st with
  | (Ok a, st') => k a st'
  | (Err e, st') => (Err e, st')
  | (Panic, st') => (Panic, st')
  | (NoFuel, st') => (NoFuel, st')
  end.

Definition fail {A} (e : error) : M A := fun st => (Err e, st).
Definition panic {A} : M A := fun st => (Panic, st).
Definition get : M State := fun st => (Ok st, st).
Definition modify (f : State -> State) : M unit := fun st => (Ok tt, f st).

Declare Scope knx_scope.
Delimit Scope knx_scope with knx.
Notation "x <- m ;; k" := (bind m (fun x => k))
  (at level 100, m at next level, right associativity) : knx_scope.
Notation "m ;;; k" := (bind m (fun _ => k))
  (at level 100, right associativity) : knx_scope.
Local Open Scope knx_scope.

(** [*conn] and [*conn = c]; a pointer outside the store is a nil
    dereference. *)
Definition load (conn : nat) : M P2PConnection := fun st =>
  match st_heap st !! conn with
  | Some c => (Ok c, st)
  | None => (Panic, st)
  end.

Definition store (conn : nat) (c : P2PConnection) : M unit :=
  modify (fun st => set_heap (<[conn := c]> (st_heap st)) st).

Definition alloc (c : P2PConnection) : M nat := fun st =>
  (Ok (st_next st),
   mkState (st_tunnel st) (st_now st) (<[st_next st := c]> (st_heap st))
           (S (st_next st)) (st_mgmt st) (st_oversleep st)).

Definition set_seqNumber (v : Z) (c : P2PConnection) : P2PConnection :=
  mkP2PConnection (targetAddr c) v (rateLimit c) (lastSend c) (connected c)
                  (done_closed c) (serving c).
Definition set_lastSend (v : Z) (c : P2PConnection) : P2PConnection :=
  mkP2PConnection (targetAddr c) (seqNumber c) (rateLimit c) v (connected c)
                  (done_closed c) (serving c).
Definition set_connected (v : bool) (c : P2PConnection) : P2PConnection :=
  mkP2PConnection (targetAddr c) (seqNumber c) (rateLimit c) (lastSend c) v
                  (done_closed c) (serving c).
Definition set_done_closed (v : bool) (c : P2PConnection) : P2PConnection :=
  mkP2PConnection (targetAddr c) (seqNumber c) (rateLimit c) (lastSend c)
                  (connected c) v (serving c).
Definition set_serving (v : bool) (c : P2PConnection) : P2PConnection :=
  mkP2PConnection (targetAddr c) (seqNumber c) (rateLimit c) (lastSend c)
                  (connected c) (done_closed c) v.

(** *** Tunnel operations *)

(** Modelled from the spec: [tunnel.Send(req)]; the frame is recorded, the
    scripted result is handed back as the Go error value ([None] is nil). *)
Definition Tunnel_Send (req : Message) : M (option error) := fun st =>
  let t := st_tunnel st in
  match tun_send_results t with
  | [] =>
      (Ok None,
       set_tunnel (mkTunnel (tun_SourceAddr t) (tun_ResponseTimeout t) []
                            (tun_inbound t) (tun_sent t ++ [req])) st)
  | r :: rs =>
      (Ok r,
       set_tunnel (mkTunnel (tun_SourceAddr t) (tun_ResponseTimeout t) rs
                            (tun_inbound t) (tun_sent t ++ [req])) st)
  end.

(** Modelled from the spec: [tunnel.SourceAddr()]. *)
Definition Tunnel_SourceAddr : M Z := fun st =>
  (Ok (tun_SourceAddr (st_tunnel st)), st).

Definition second : Z := 1000000000.

Definition time_Now : M Z := fun st => (Ok (st_now st), st).

(** [time.Sleep(d)] pauses for at least [d] and returns at once when [d]
    is zero or negative. By how much a pause overruns is up to the
    scheduler: it is the next entry of [st_oversleep], and nothing once the
    script is used up. *)
Definition time_Sleep (d : Z) : M unit := fun st =>
  if d <=? 0 then (Ok tt, st)
  else
    match st_oversleep st with
    | [] => (Ok tt, set_now (st_now st + d) st)
    | over :: rest =>
        (Ok tt,
         set_oversleep rest (set_now (st_now st + d + Z.of_N over) st))
    end.

(** *** P2PConnection *)

(** The demultiplexing goroutine [serve] is not run by this model. The
    operations below need one thing of it: it exits once [done] is closed,
    which is what Disconnect's [conn.wait.Wait()] waits for. *)

(** nextSeqNum: [conn.seqNumber = (conn.seqNumber + 1) % 16]. *)
Definition nextSeqNum (conn : nat) : M Z :=
  c <- load conn ;;
  let seq := byte (seqNumber c + 1) mod 16 in
  store conn (set_seqNumber seq c) ;;;
  ret seq.

(** applyRateLimit: sleep until [time.Second / rateLimit] has passed since
    the last send, then stamp the time of this one. *)
Definition applyRateLimit (conn : nat) : M unit :=
  c <- load conn ;;
  if rateLimit c =? 0 then panic      (* integer division by zero *)
  else
    let interval := second / rateLimit c in
    now <- time_Now ;;
    let elapsed := now - lastSend c in
    (if elapsed <? interval then time_Sleep (interval - elapsed) else ret tt) ;;;
    c <- load conn ;;
    now <- time_Now ;;
    store conn (set_lastSend now c).

(** The select loop of requestConn over what the tunnel delivers before
    the response timeout: a closed channel ends it, an L_Data.con carrying
    a T_CONNECT ends it with success, anything else is passed over; when
    nothing is left the timer fires. *)
Fixpoint await_conn (events : list TunnelEvent)
  : outcome unit * list TunnelEvent :=
  match events with
  | [] => (Err ErrResponseTimeout, [])
  | ChannelClosed :: rest => (Err ErrTunnelClosed, ChannelClosed :: rest)
  | Delivered msg :: rest =>
      match msg with
      | LDataCon ldata =>
          match ld_Data ldata with
          | UControlConn _ => (Ok tt, rest)
          | _ => await_conn rest
          end
      | _ => await_conn rest
      end
  end.

Definition Tunnel_await_conn : M unit := fun st =>
  let t := st_tunnel st in
  let '(r, rest) := await_conn (tun_inbound t) in
  (r, set_tunnel (mkTunnel (tun_SourceAddr t) (tun_ResponseTimeout t)
                           (tun_send_results t) rest (tun_sent t)) st).

Definition requestConn (conn : nat) : M unit :=
  c <- load conn ;;
  if connected c then fail ErrAlreadyConnected
  else
    src <- Tunnel_SourceAddr ;;
    let req := NewConnReq src (targetAddr c) in
    err <- Tunnel_Send req ;;
    match err with
    | Some e => fail e
    | None =>
        Tunnel_await_conn ;;;
        c <- load conn ;;
        store conn (set_connected true c)
    end.

Definition NewP2PConnection (addr : Z) : M nat :=
  now <- time_Now ;;
  conn <- alloc (mkP2PConnection addr 15 20 (now - second) false false false) ;;
  requestConn conn ;;;
  (* conn.wait.Add(1); go conn.serve() *)
  c <- load conn ;;
  store conn (set_serving true c) ;;;
  ret conn.

Definition P2PConnection_Disconnect (conn : nat) : M unit :=
  c <- load conn ;;
  if negb (connected c) then ret tt
  else
    applyRateLimit conn ;;;
    src <- Tunnel_SourceAddr ;;
    let req := NewDiscReq src (targetAddr c) in
    err <- Tunnel_Send req ;;
    (* Mark as disconnected regardless of the send success. *)
    c <- load conn ;;
    store conn (set_connected false c) ;;;
    c <- load conn ;;
    (if done_closed c then ret tt else store conn (set_done_closed true c)) ;;;
    (* conn.wait.Wait(): the serve goroutine has returned *)
    c <- load conn ;;
    store conn (set_serving false c) ;;;
    match err with
    | Some e => fail e
    | None => ret tt
    end.

(** *** Management *)

Definition NewManagement : Management := mkManagement ∅ false.

Definition set_connections (f : gmap Z nat -> gmap Z nat) : M unit :=
  modify (fun st =>
    set_mgmt (mkManagement (f (connections (st_mgmt st)))
                           (mgmt_done_closed (st_mgmt st))) st).

Definition Management_Connect (addr : Z) : M nat :=
  st <- get ;;
  existing <-
    match connections (st_mgmt st) !! addr with
    | Some conn =>
        c <- load conn ;;
        if negb (connected c) then
          set_connections (delete addr) ;;; ret None
        else ret (Some conn)
    | None => ret None
    end ;;
  match existing with
  | Some conn => ret conn
  | None =>
      conn <- NewP2PConnection addr ;;
      set_connections (<[addr := conn]>) ;;;
      ret conn
  end.

Definition Management_Disconnect (addr : Z) : M unit :=
  st <- get ;;
  match connections (st_mgmt st) !! addr with
  | None => fail ErrNotFound
  | Some conn =>
      P2PConnection_Disconnect conn ;;;
      set_connections (delete addr)
  end.

Definition Management_GetConnection (addr : Z) : M (option nat) :=
  st <- get ;;
  ret (connections (st_mgmt st) !! addr).

(** [n] calls of [m] in a row, with the values they return. *)
Fixpoint repeatM {A} (n : nat) (m : M A) : M (list A) :=
  match n with
  | O => ret []
  | S k => a <- m ;; rest <- repeatM k m ;; ret (a :: rest)
  end.

(** The state Management.Connect creates the new session in: the registry
    without an entry for the address. *)
Definition without_entry (addr : Z) (st : State) : State :=
  set_mgmt (mkManagement (delete addr (connections (st_mgmt st)))
                         (mgmt_done_closed (st_mgmt st))) st.

Definition with_entry (addr : Z) (conn : nat) (st : State) : State :=
  set_mgmt (mkManagement (<[addr := conn]> (connections (st_mgmt st)))
                         (mgmt_done_closed (st_mgmt st))) st.

(** What the send of the T_DISCONNECT request will return. *)
Definition next_send_result (st : State) : option error :=
  match tun_send_results (st_tunnel st) with
  | [] => None
  | r :: _ => r
  end.

(** The values nextSeqNum gives on a fresh session. *)
Definition sequence_0_to_15_then_0 : list Z :=
  [0; 1; 2; 3; 4; 5; 6; 7; 8; 9; 10; 11; 12; 13; 14; 15; 0].

(** A tunnel whose peer confirms the connection after one unrelated
    message, with the given results for the coming sends; and a state around
    it with an empty registry. *)
Definition example_tunnel (results : list (option error)) : Tunnel :=
  mkTunnel 4353 3000000000 results
    [Delivered OtherMessage;
     Delivered (LDataCon
                  (mkLData [Control1StdFrame] 6 4353 4354
                                TConnect))]
    [].

Definition example_state (results : list (option error)) : State :=
  mkState (example_tunnel results) 5000000000 ∅ 0 NewManagement [300000%N].

(** The registry after a successful Connect, with every send succeeding
    and with the second send (the T_DISCONNECT request) failing. *)
Definition live_state : State :=
  snd (Management_Connect 4354 (example_state [])).

Definition failing_state : State :=
  snd (Management_Connect 4354 (example_state [None; Some ErrSend])).

(** What requestConn makes of one event on the tunnel's inbound channel:
    the confirmation it waits for, and the messages it passes over. *)
Definition is_conn_confirmation (ev : TunnelEvent) : bool :=
  match ev with
  | Delivered (LDataCon ldata) =>
      match ld_Data ldata with
      | UControlConn _ => true
      | _ => false
      end
  | _ => false
  end.

Definition passed_over (ev : TunnelEvent) : bool :=
  match ev with
  | ChannelClosed => false
  | _ => negb (is_conn_confirmation ev)
  end.

(** *** Send and the waits on the session's queue *)

(** What one turn of a select of Send or awaitAck meets: a message from
    [conn.inbound], the nil that a closed [conn.inbound] yields, or the
    closed [conn.done]; when nothing is left the timer fires. *)
Inductive SessionEvent : Type :=
  | Received (msg : Message)
  | ReceivedNil
  | DoneClosed.

(** The errors Send and its helpers build where they fail. *)
Inductive SendError : Type :=
  | ErrNotConnected                (* "not connected to device" *)
  | ErrExpectedLDataReq            (* "expected LDataReq, got %T" *)
  | ErrExpectedAppData             (* "expected AppData, got %T" *)
  | ErrSendRequest (e : error)     (* "failed to send request: %w" *)
  | ErrAckTimeout                  (* "timed out while waiting for ACK" *)
  | ErrConnectionClosed            (* "connection was closed" *)
  | ErrAckMismatch (got want : Z)  (* "ack sequence number %d must match ..." *)
  | ErrResponseTimedOut            (* "response timed out" *)
  | ErrSendAck (e : error).        (* "failed to send ACK: %w" *)

(** setSeqNum writes through the pointers of the request; the request as
    it is afterwards is handed back. *)
Definition setSeqNum (req : Message) (seq : Z) : Message + SendError :=
  match req with
  | LDataReq ldata =>
      match ld_Data ldata with
      | UAppData app =>
          inl (LDataReq
                 (mkLData (ld_Control1 ldata) (ld_Control2Hops ldata)
                    (ld_Source ldata) (ld_Destination ldata)
                    (UAppData (mkAppData true seq (app_Command app)
                                 (app_Data app)))))
      | _ => inr ErrExpectedAppData
      end
  | _ => inr ErrExpectedLDataReq
  end.

(** The select loop of awaitAck over what the session's queue delivers
    before the response timeout; [seqNumber] is [conn.seqNumber]. *)
Fixpoint awaitAck (seqNumber : Z) (events : list SessionEvent)
  : option SendError * list SessionEvent :=
  match events with
  | [] => (Some ErrAckTimeout, [])
  | DoneClosed :: rest => (Some ErrConnectionClosed, DoneClosed :: rest)
  | ReceivedNil :: rest => awaitAck seqNumber rest
  | Received msg :: rest =>
      match msg with
      | LDataInd ldata =>
          match ld_Data ldata with
          | UControlAck ack =>
              if negb (ctl_SeqNumber ack =? seqNumber) then
                (Some (ErrAckMismatch (ctl_SeqNumber ack) seqNumber), rest)
              else (None, rest)
          | _ => awaitAck seqNumber rest
          end
      | _ => awaitAck seqNumber rest
      end
  end.

(** The select loop at the end of Send: the first L_Data.ind that carries
    an AppData with the expected command, before the caller's timeout. *)
Fixpoint await_response (exp : Z) (events : list SessionEvent)
  : (LData * AppData + SendError) * list SessionEvent :=
  match events with
  | [] => (inr ErrResponseTimedOut, [])
  | DoneClosed :: rest => (inr ErrConnectionClosed, DoneClosed :: rest)
  | ReceivedNil :: rest => await_response exp rest
  | Received msg :: rest =>
      match msg with
      | LDataInd ldata =>
          match ld_Data ldata with
          | UAppData app =>
              if negb (app_Command app =? exp) then await_response exp rest
              else (inl (ldata, app), rest)
          | _ => await_response exp rest
          end
      | _ => await_response exp rest
      end
  end.

(** Send; [inbound] is what the session's queue delivers during the call,
    the part of it that was not read is handed back with the result. The
    timeout [t] is the time by which [inbound] has been delivered. *)
Definition P2PConnection_Send (conn : nat) (req : Message) (exp : Z) (t : Z)
    (inbound : list SessionEvent)
  : M ((Message + SendError) * list SessionEvent) :=
  c <- load conn ;;
  if negb (connected c) then ret (inr ErrNotConnected, inbound)
  else
    seq <- nextSeqNum conn ;;
    match setSeqNum req seq with
    | inr e => ret (inr e, inbound)
    | inl req =>
        applyRateLimit conn ;;;
        err <- Tunnel_Send req ;;
        match err with
        | Some e => ret (inr (ErrSendRequest e), inbound)
        | None =>
            c <- load conn ;;
            match awaitAck (seqNumber c) inbound with
            | (Some e, rest) => ret (inr e, rest)
            | (None, rest) =>
                match await_response exp rest with
                | (inr e, rest) => ret (inr e, rest)
                | (inl (ind, app), rest) =>
                    applyRateLimit conn ;;;
                    src <- Tunnel_SourceAddr ;;
                    let req := NewAck src (ld_Source ind) (app_SeqNumber app) in
                    err <- Tunnel_Send req ;;
                    match err with
                    | Some e => ret (inr (ErrSendAck e), rest)
                    | None => ret (inl (LDataInd ind), rest)
                    end
                end
            end
        end
    end.

(** What awaitAck passes over: everything but the close of [done] and an
    L_Data.ind that carries a T_ACK. *)
Definition not_an_ack (ev : SessionEvent) : bool :=
  match ev with
  | DoneClosed => false
  | Received (LDataInd ldata) =>
      match ld_Data ldata with
      | UControlAck _ => false
      | _ => true
      end
  | _ => true
  end.

(** handleTunnelClosed: mark the session disconnected and close [done]. *)
Definition handleTunnelClosed (conn : nat) : M unit :=
  c <- load conn ;;
  store conn (set_connected false c) ;;;
  c <- load conn ;;
  if done_closed c then ret tt else store conn (set_done_closed true c).

(** *** Management.Close *)

(** A call whose error is dropped by the caller. *)
Definition drop_error (m : M unit) : M unit := fun st =>
  match m st with
  | (Err _, st') => (Ok tt, st')
  | r => r
  end.

(** The loop [for _, conn := range m.connections { conn.Disconnect() }].
    Go leaves the order of a range over a map open: [order] lists the keys
    in the order this run visits them. *)
Fixpoint disconnect_each (order : list Z) : M unit :=
  match order with
  | [] => ret tt
  | addr :: rest =>
      st <- get ;;
      match connections (st_mgmt st) !! addr with
      | Some conn => drop_error (P2PConnection_Disconnect conn)
      | None => ret tt
      end ;;;
      disconnect_each rest
  end.

Definition Management_Close (order : list Z) : M unit :=
  st <- get ;;
  if mgmt_done_closed (st_mgmt st) then panic   (* close of closed channel *)
  else
    modify (fun st =>
      set_mgmt (mkManagement (connections (st_mgmt st)) true) st) ;;;
    disconnect_each order.

(** Every registered pointer leads to a session, and no session has rate
    limit 0 (NewP2PConnection sets 20 and nothing changes it). *)
Definition registry_ok (st : State) : Prop :=
  forall addr conn,
    connections (st_mgmt st) !! addr = Some conn ->
    exists c, st_heap st !! conn = Some c /\ rateLimit c <> 0.

End Knx.

(** * Properties *)

(** ** Slices *)

Lemma copy_length dst src : length (copy dst src) = length dst.
Proof.
  unfold copy. rewrite length_app, length_take, length_drop. lia.
Qed.

Lemma copy_zeros_exact (src : list Z) :
  copy (replicate (length src) 0) src = src.
Proof.
  unfold copy. rewrite length_replicate, firstn_all.
  rewrite drop_ge by (rewrite length_replicate; lia).
  apply app_nil_r.
Qed.

Lemma all_below_spec n P :
  all_below n P = true -> forall z, 0 <= z < Z.of_nat n -> P z = true.
Proof.
  induction n as [|k IH]; simpl; intros H z Hz; [lia|].
  apply andb_true_iff in H as [Hk Hall].
  destruct (Z.eq_dec z (Z.of_nat k)) as [->|Hne]; [exact Hk|].
  apply IH; [exact Hall|lia].
Qed.


Lemma set_idx_0 v x s : set_idx 0 v (x :: s) = Ok (v :: s).
Proof. unfold set_idx. rewrite decide_True by (simpl; lia). reflexivity. Qed.

Lemma set_idx_1 v x y s : set_idx 1 v (x :: y :: s) = Ok (x :: v :: s).
Proof. unfold set_idx. rewrite decide_True by (simpl; lia). reflexivity. Qed.

Lemma set_idx_2 v x y z s :
  set_idx 2 v (x :: y :: z :: s) = Ok (x :: y :: v :: s).
Proof. unfold set_idx. rewrite decide_True by (simpl; lia). reflexivity. Qed.

Lemma or_idx_1 v x y s :
  or_idx 1 v (x :: y :: s) = Ok (x :: Z.lor y v :: s).
Proof. unfold or_idx. simpl. apply set_idx_1. Qed.

Lemma or_idx_2 v x y z s :
  or_idx 2 v (x :: y :: z :: s) = Ok (x :: y :: Z.lor z v :: s).
Proof. unfold or_idx. simpl. apply set_idx_2. Qed.

Lemma and_idx_0 v x s : and_idx 0 v (x :: s) = Ok (Z.land x v :: s).
Proof. unfold and_idx. simpl. apply set_idx_0. Qed.

Lemma and_idx_2 v x y z s :
  and_idx 2 v (x :: y :: z :: s) = Ok (x :: y :: Z.land z v :: s).
Proof. unfold and_idx. simpl. apply set_idx_2. Qed.

Lemma slice_from_le (s : list Z) k :
  (k <= length s)%nat -> slice_from s k = Ok (drop k s).
Proof. intros H. unfold slice_from. rewrite decide_True by exact H. reflexivity. Qed.

Lemma copy_at_2 src x y s :
  copy_at 2 src (x :: y :: s) = Ok (x :: y :: copy s src).
Proof.
  unfold copy_at. rewrite slice_from_le by (simpl; lia). reflexivity.
Qed.

Lemma copy_at_3 src x y z s :
  copy_at 3 src (x :: y :: z :: s) = Ok (x :: y :: z :: copy s src).
Proof.
  unfold copy_at. rewrite slice_from_le by (simpl; lia). reflexivity.
Qed.

Lemma make_nonneg n : 0 <= n -> make n = Ok (replicate (Z.to_nat n) 0).
Proof.
  intros H. unfold make. destruct (Z.ltb_spec n 0); [lia|reflexivity].
Qed.

Lemma land_15_range x : 0 <= Z.land x 15 < 16.
Proof.
  assert (H : Z.land x 15 = x mod 16)
    by (change 15 with (Z.ones 4) at 1; rewrite Z.land_ones by lia; reflexivity).
  rewrite !H. apply Z.mod_pos_bound. reflexivity.
Qed.

Lemma land_3_cases x :
  Z.land x 3 = 0 \/ Z.land x 3 = 1 \/ Z.land x 3 = 2 \/ Z.land x 3 = 3.
Proof.
  assert (H : Z.land x 3 = x mod 4)
    by (change 3 with (Z.ones 2) at 1; rewrite Z.land_ones by lia; reflexivity).
  rewrite !H. pose proof (Z.mod_pos_bound x 4 eq_refl). lia.
Qed.

(** ** APCI predicates *)

(** C6: IsStandardCommand is a total boolean function; it rejects
    UserMemoryRead and accepts every APCI whose low six bits are zero, whose
    four-bit prefix is below 15 and which is not UserMemoryRead. *)
Theorem IsStandardCommand_spec :
  Cemi.IsStandardCommand Cemi.UserMemoryRead = false /\
  (forall a, exists b : bool, Cemi.IsStandardCommand a = b) /\
  (forall a, Z.land a 63 = 0 -> Z.shiftr a 6 < 15 ->
             a <> Cemi.UserMemoryRead -> Cemi.IsStandardCommand a = true).
Proof.
  split; [reflexivity|]. split; [intros a; eexists; reflexivity|].
  intros a Hlow Hpre Hne. unfold Cemi.IsStandardCommand.
  rewrite Hlow. simpl.
  destruct (Z.eqb_spec a Cemi.UserMemoryRead) as [->|_]; [contradiction|].
  destruct (Z.ltb_spec (Z.shiftr a 6) 15); [reflexivity|lia].
Qed.

Lemma IsStandardCommand_spec_witness :
  Cemi.IsStandardCommand Cemi.GroupValueWrite = true.
Proof.
  apply (proj2 (proj2 IsStandardCommand_spec) Cemi.GroupValueWrite).
  - reflexivity.
  - vm_compute. reflexivity.
  - vm_compute. discriminate.
Defined.

(** The fourteen standard constants are exactly the named constants that
    the predicate accepts. *)
Lemma IsStandardCommand_named :
  filter (fun a => Cemi.IsStandardCommand a = true) Cemi.named_APCIs
  = Cemi.standard_APCIs.
Proof. reflexivity. Qed.

(** ** ControlData *)

(** Whatever the input, a control unit that comes out of
    unpackTransportUnit is one of the four named variants in the shape its
    constructor gives it. *)
Lemma unpack_control_wf data u n c :
  Cemi.unpackTransportUnit data = Ok (u, n) ->
  Cemi.control_of u = Some c ->
  Cemi.ControlData_wf c = true.
Proof.
  unfold Cemi.unpackTransportUnit.
  destruct (len data <? 2); [discriminate|].
  destruct (idx data 1) as [d1| | |]; simpl; try discriminate.
  destruct (Z.land d1 (Z.shiftl 1 7) =? Z.shiftl 1 7).
  - intros [= <- <-].
    pose proof (land_15_range (Z.shiftr d1 2)) as Hs.
    destruct (land_3_cases d1) as [E|[E|[E|E]]]; rewrite E; simpl;
      intros [= <-]; unfold Cemi.ControlData_wf; simpl;
      try reflexivity;
      (destruct (Z.leb_spec 0 (Z.land (Z.shiftr d1 2) 15)); [|lia]);
      (destruct (Z.ltb_spec (Z.land (Z.shiftr d1 2) 15) 16); [|lia]);
      reflexivity.
  - destruct (idx data 0) as [d0| | |]; simpl; try discriminate.
    destruct (_ || _); [discriminate|].
    destruct (idx data 2) as [d2| | |]; simpl; try discriminate.
    destruct (_ || _).
    + destruct (make _); simpl; try discriminate.
      destruct (slice_from _ _); simpl; try discriminate.
      intros [= <- <-]. discriminate.
    + destruct (make _); simpl; try discriminate.
      destruct (slice_from _ _); simpl; try discriminate.
      destruct (and_idx _ _ _); simpl; try discriminate.
      intros [= <- <-]. discriminate.
Qed.

Lemma ControlData_wf_cases c :
  Cemi.ControlData_wf c = true ->
  c = Cemi.mkControlData false 0 Cemi.Connect
  \/ c = Cemi.mkControlData false 0 Cemi.Disconnect
  \/ exists s, 0 <= s < 16 /\
       (c = Cemi.mkControlData true s Cemi.Ack
        \/ c = Cemi.mkControlData true s Cemi.Nak).
Proof.
  destruct c as [nb s cmd]. unfold Cemi.ControlData_wf. simpl.
  rewrite orb_true_iff, !andb_true_iff, !orb_true_iff, negb_true_iff.
  rewrite !Z.eqb_eq, Z.leb_le, Z.ltb_lt.
  intros [[[[->| ->] ->] ->]|[[[[->| ->] ->] H0] H1]]; eauto 8.
Qed.

Lemma seq_16_cases s :
  0 <= s < 16 ->
  In s [0; 1; 2; 3; 4; 5; 6; 7; 8; 9; 10; 11; 12; 13; 14; 15].
Proof. simpl. lia. Qed.

(** C5 (amended): a control unit in the shape its constructor builds
    (T_CONNECT/T_DISCONNECT unnumbered with sequence 0, T_ACK/T_NAK numbered
    with a four-bit sequence) packs to two bytes that unpack to the variant
    of its command holding the same ControlData; T_ACK with sequence 5 packs
    to 00 D6 and comes back as the Ack variant with sequence number 5. *)
Theorem ControlData_roundtrip (cd : Cemi.ControlData) :
  Cemi.ControlData_wf cd = true ->
  Cemi.unpack_pack (Cemi.UControlData cd)
  = Ok (if Cemi.ctl_Command cd =? Cemi.Connect then Cemi.UControlConn cd
        else if Cemi.ctl_Command cd =? Cemi.Disconnect
             then Cemi.UControlDisc cd
        else if Cemi.ctl_Command cd =? Cemi.Ack then Cemi.UControlAck cd
        else Cemi.UControlNak cd, 2)
  /\ Cemi.AllocAndPack (Cemi.UControlData (Cemi.mkControlData true 5 Cemi.Ack))
     = Ok [0; 214]
  /\ Cemi.unpackTransportUnit [0; 214]
     = Ok (Cemi.UControlAck (Cemi.mkControlData true 5 Cemi.Ack), 2).
Proof.
  intros Hwf. split; [|split; reflexivity].
  destruct (ControlData_wf_cases cd Hwf) as [->|[->|(s & Hs & Hc)]].
  - reflexivity.
  - reflexivity.
  - apply seq_16_cases in Hs. simpl in Hs.
    destruct Hc as [->| ->];
      repeat (destruct Hs as [<-|Hs]; [reflexivity|]);
      contradiction.
Qed.

Lemma ControlData_roundtrip_witness :
  Cemi.unpack_pack (Cemi.UControlData (Cemi.mkControlData true 9 Cemi.Nak))
  = Ok (Cemi.UControlNak (Cemi.mkControlData true 9 Cemi.Nak), 2).
Proof.
  apply (ControlData_roundtrip (Cemi.mkControlData true 9 Cemi.Nak)).
  reflexivity.
Defined.

(** C5 as stated fails: the unnumbered T_CONNECT holding sequence number 3
    packs to 00 80, since Pack writes the sequence number of a numbered
    unit only, and comes back as the T_CONNECT with sequence number 0. *)
Lemma ControlData_roundtrip_counterexample :
  let cd := Cemi.mkControlData false 3 Cemi.Connect in
  Cemi.AllocAndPack (Cemi.UControlData cd) = Ok [0; 128]
  /\ Cemi.unpackTransportUnit [0; 128]
     = Ok (Cemi.UControlConn (Cemi.mkControlData false 0 Cemi.Connect), 2)
  /\ ~ (exists u n, Cemi.unpack_pack (Cemi.UControlData cd) = Ok (u, n)
                    /\ Cemi.control_of u = Some cd).
Proof.
  split; [reflexivity|]. split; [reflexivity|].
  intros (u & n & Hu & Hc). vm_compute in Hu.
  injection Hu as <- <-. discriminate.
Qed.

(** The shape condition is also necessary: only units in constructor shape
    survive the round trip. *)
Lemma ControlData_roundtrip_only_wf (cd : Cemi.ControlData) u n :
  Cemi.unpack_pack (Cemi.UControlData cd) = Ok (u, n) ->
  Cemi.control_of u = Some cd ->
  Cemi.ControlData_wf cd = true.
Proof.
  unfold Cemi.unpack_pack.
  destruct (Cemi.AllocAndPack _) as [buf| | |]; simpl; try discriminate.
  apply unpack_control_wf.
Qed.

(** ** AppData *)

Lemma clamp_len_id n : 1 <= n <= 255 -> Cemi.clamp_len n = n.
Proof.
  intros H. unfold Cemi.clamp_len.
  destruct (Z.ltb_spec 255 n); [lia|]. destruct (Z.ltb_spec n 1); [lia|].
  reflexivity.
Qed.

Lemma check_control_all nb s a :
  0 <= s < 16 -> 0 <= a < 1024 -> Cemi.check_control nb s a = true.
Proof.
  intros Hs Ha.
  assert (H : all_below 16 (fun s =>
                all_below 1024 (fun a =>
                  Cemi.check_control true s a && Cemi.check_control false s a))
              = true) by (vm_compute; reflexivity).
  pose proof (all_below_spec _ _ (all_below_spec _ _ H s Hs) a Ha) as Hc.
  apply andb_true_iff in Hc as [Ht Hf]. destruct nb; assumption.
Qed.

Lemma check_std_all a d0 :
  0 <= a < 1024 -> is_byte d0 -> Cemi.IsStandardCommand a = true ->
  Cemi.check_std a d0 = true.
Proof.
  intros Ha Hd Hstd.
  assert (H : all_below 1024 (fun a =>
                if Cemi.IsStandardCommand a
                then all_below 256 (fun d0 => Cemi.check_std a d0)
                else true) = true) by (vm_compute; reflexivity).
  pose proof (all_below_spec _ _ H a Ha) as Hc. cbv beta in Hc.
  rewrite Hstd in Hc. exact (all_below_spec _ _ Hc d0 Hd).
Qed.

Lemma check_ext_all a :
  0 <= a < 1024 ->
  Z.shiftr a 6 = Cemi.PrefixUserMessage \/ Z.shiftr a 6 = Cemi.PrefixEscape ->
  Cemi.check_ext a = true.
Proof.
  intros Ha Hp.
  assert (H : all_below 1024 (fun a =>
                if Cemi.is_ext_prefix (Z.shiftr a 6)
                then Cemi.check_ext a else true) = true)
    by (vm_compute; reflexivity).
  pose proof (all_below_spec _ _ H a Ha) as Hc. cbv beta in Hc.
  replace (Cemi.is_ext_prefix (Z.shiftr a 6)) with true in Hc; [exact Hc|].
  unfold Cemi.is_ext_prefix. destruct Hp as [-> | ->]; reflexivity.
Qed.

Lemma ext_prefix_not_standard a :
  Z.shiftr a 6 = Cemi.PrefixUserMessage \/ Z.shiftr a 6 = Cemi.PrefixEscape ->
  0 <= a < 1024 ->
  Cemi.IsStandardCommand a = false.
Proof.
  intros Hp Ha.
  assert (H : all_below 1024 (fun a =>
                if Cemi.is_ext_prefix (Z.shiftr a 6)
                then negb (Cemi.IsStandardCommand a) else true) = true)
    by (vm_compute; reflexivity).
  pose proof (all_below_spec _ _ H a Ha) as Hc. cbv beta in Hc.
  replace (Cemi.is_ext_prefix (Z.shiftr a 6)) with true in Hc.
  - apply negb_true_iff in Hc. exact Hc.
  - unfold Cemi.is_ext_prefix. destruct Hp as [-> | ->]; reflexivity.
Qed.

Lemma AllocAndPack_standard nb s a d0 ds :
  Cemi.IsStandardCommand a = true ->
  len (d0 :: ds) <= 255 ->
  Cemi.AllocAndPack (Cemi.UAppData (Cemi.mkAppData nb s a (d0 :: ds)))
  = Ok (byte (len (d0 :: ds)) :: Cemi.packed_control nb s a
        :: Cemi.packed_std_byte a d0 :: ds).
Proof.
  intros Hstd Hlen.
  unfold Cemi.AllocAndPack, Cemi.Size, Cemi.Pack, Cemi.AppData_Size,
    Cemi.AppData_Pack.
  cbn [Cemi.app_Command Cemi.app_Data Cemi.app_Numbered Cemi.app_SeqNumber].
  rewrite Hstd. cbn [negb].
  rewrite clamp_len_id by (unfold len in *; simpl length in *; lia).
  replace (Z.to_nat (2 + len (d0 :: ds))) with (S (S (S (length ds))))
    by (unfold len; simpl length; lia).
  cbn [replicate]. rewrite set_idx_0. cbn [mbind outcome_bind].
  assert (Hcopy : copy (0 :: replicate (length ds) 0) (d0 :: ds) = d0 :: ds)
    by apply (copy_zeros_exact (d0 :: ds)).
  destruct nb; rewrite ?or_idx_1; cbn [mbind outcome_bind];
    rewrite or_idx_1; cbn [mbind outcome_bind];
    rewrite copy_at_2, Hcopy; cbn [mbind outcome_bind];
    rewrite and_idx_2; cbn [mbind outcome_bind];
    rewrite or_idx_2; reflexivity.
Qed.

Lemma AllocAndPack_extended nb s a d :
  Cemi.IsStandardCommand a = false ->
  1 <= len d <= 255 ->
  Cemi.AllocAndPack (Cemi.UAppData (Cemi.mkAppData nb s a d))
  = Ok (byte (len d + 1) :: Cemi.packed_control nb s a
        :: Cemi.packed_ext_byte a :: d).
Proof.
  intros Hstd Hlen.
  unfold Cemi.AllocAndPack, Cemi.Size, Cemi.Pack, Cemi.AppData_Size,
    Cemi.AppData_Pack.
  cbn [Cemi.app_Command Cemi.app_Data Cemi.app_Numbered Cemi.app_SeqNumber].
  rewrite Hstd. cbn [negb].
  rewrite clamp_len_id by lia.
  replace (Z.to_nat (2 + 1 + len d)) with (S (S (S (length d))))
    by (unfold len; lia).
  cbn [replicate]. rewrite set_idx_0. cbn [mbind outcome_bind].
  destruct nb; rewrite ?or_idx_1; cbn [mbind outcome_bind];
    rewrite or_idx_1; cbn [mbind outcome_bind];
    rewrite set_idx_2; cbn [mbind outcome_bind];
    rewrite copy_at_3, copy_zeros_exact; reflexivity.
Qed.

Lemma check_control_fields nb s a :
  0 <= s < 16 -> 0 <= a < 1024 ->
  let c := Cemi.packed_control nb s a in
  (Z.land c (Z.shiftl 1 7) =? Z.shiftl 1 7) = false
  /\ (Z.land c (Z.shiftl 1 6) =? Z.shiftl 1 6) = nb
  /\ Z.land (Z.shiftr c 2) 15 = (if nb then s else 0)
  /\ Z.land c 3 = Z.shiftr a 8.
Proof.
  intros Hs Ha c. pose proof (check_control_all nb s a Hs Ha) as H.
  unfold Cemi.check_control in H. fold c in H.
  rewrite !andb_true_iff, negb_true_iff, !Z.eqb_eq in H.
  destruct H as [[[H1 H2] H3] H4]. apply eqb_prop in H2. auto.
Qed.

Lemma unpack_app_standard L c d2 rest :
  (Z.land c (Z.shiftl 1 7) =? Z.shiftl 1 7) = false ->
  Cemi.is_ext_prefix (Cemi.prefix_of (Z.land c 3) d2) = false ->
  L = len rest + 1 ->
  Cemi.unpackTransportUnit (L :: c :: d2 :: rest)
  = Ok (Cemi.UAppData
          (Cemi.mkAppData (Z.land c (Z.shiftl 1 6) =? Z.shiftl 1 6)
                          (Z.land (Z.shiftr c 2) 15)
                          (uint16 (Z.shiftl (Cemi.prefix_of (Z.land c 3) d2) 6))
                          (Z.land d2 63 :: rest)),
        L + 2).
Proof.
  intros Hc Hp HL. unfold Cemi.unpackTransportUnit.
  assert (Hlen : len (L :: c :: d2 :: rest) = L + 2)
    by (unfold len in *; simpl length; lia).
  rewrite Hlen.
  destruct (Z.ltb_spec (L + 2) 2); [unfold len in HL; lia|].
  cbn [idx lookup list_lookup mbind outcome_bind]. rewrite Hc.
  destruct (Z.ltb_spec (L + 2) 3); [unfold len in HL; lia|].
  rewrite Z.ltb_irrefl. cbn [orb].
  unfold Cemi.is_ext_prefix, Cemi.prefix_of in Hp. rewrite Hp.
  rewrite make_nonneg by (unfold len in HL; lia).
  cbn [mbind outcome_bind].
  rewrite slice_from_le by (simpl; lia). cbn [mbind outcome_bind drop].
  replace (Z.to_nat L) with (length (d2 :: rest))
    by (unfold len in HL; simpl length; lia).
  rewrite copy_zeros_exact, and_idx_0. reflexivity.
Qed.

Lemma unpack_app_extended L c d2 rest :
  (Z.land c (Z.shiftl 1 7) =? Z.shiftl 1 7) = false ->
  Cemi.is_ext_prefix (Cemi.prefix_of (Z.land c 3) d2) = true ->
  L = len rest + 1 ->
  Cemi.unpackTransportUnit (L :: c :: d2 :: rest)
  = Ok (Cemi.UAppData
          (Cemi.mkAppData (Z.land c (Z.shiftl 1 6) =? Z.shiftl 1 6)
                          (Z.land (Z.shiftr c 2) 15)
                          (Z.lor (uint16 (Z.shiftl
                                    (Cemi.prefix_of (Z.land c 3) d2) 6)) d2)
                          rest),
        L + 2).
Proof.
  intros Hc Hp HL. unfold Cemi.unpackTransportUnit.
  assert (Hlen : len (L :: c :: d2 :: rest) = L + 2)
    by (unfold len in *; simpl length; lia).
  rewrite Hlen.
  destruct (Z.ltb_spec (L + 2) 2); [unfold len in HL; lia|].
  cbn [idx lookup list_lookup mbind outcome_bind]. rewrite Hc.
  destruct (Z.ltb_spec (L + 2) 3); [unfold len in HL; lia|].
  rewrite Z.ltb_irrefl. cbn [orb].
  unfold Cemi.is_ext_prefix, Cemi.prefix_of in Hp. rewrite Hp.
  rewrite make_nonneg by (unfold len in HL; lia).
  cbn [mbind outcome_bind].
  rewrite slice_from_le by (simpl; lia). cbn [mbind outcome_bind drop].
  replace (Z.to_nat (L - 1)) with (length rest) by (unfold len in HL; lia).
  rewrite copy_zeros_exact. reflexivity.
Qed.

Lemma byte_small z : 0 <= z < 256 -> byte z = z.
Proof. intros H. unfold byte. apply Z.mod_small. exact H. Qed.

(** C1 (amended): for a four-bit sequence number, a payload of 1 to 255
    bytes and a command that is standard or lies under the UserMessage or
    Escape prefix (with at most 254 payload bytes in the latter case),
    packing and unpacking gives back the same command and payload, the two
    high bits of the first payload byte cleared for standard commands; the
    numbered flag comes back as given, and the sequence number comes back
    as given when the unit is numbered and as 0 when it is not. *)
Theorem AppData_roundtrip nb s a d :
  0 <= s < 16 -> 0 <= a < 1024 -> is_bytes d -> 1 <= len d <= 255 ->
  Cemi.IsStandardCommand a = true
  \/ ((Z.shiftr a 6 = Cemi.PrefixUserMessage
       \/ Z.shiftr a 6 = Cemi.PrefixEscape) /\ len d <= 254) ->
  let app := Cemi.mkAppData nb s a d in
  Cemi.unpack_pack (Cemi.UAppData app)
  = Ok (Cemi.UAppData
          (Cemi.mkAppData nb (if nb then s else 0) a (Cemi.masked_data a d)),
        Cemi.AppData_Size app).
Proof.
  intros Hs Ha Hd Hlen Hcase app. unfold Cemi.unpack_pack, app.
  destruct (check_control_fields nb s a Hs Ha) as (C1 & C2 & C3 & C4).
  destruct Hcase as [Hstd|[Hpre Hlen']].
  - destruct d as [|d0 ds]; [unfold len in Hlen; simpl in Hlen; lia|].
    rewrite AllocAndPack_standard by (assumption || lia).
    cbn [mbind outcome_bind].
    assert (Hd0 : is_byte d0) by (inversion Hd; assumption).
    pose proof (check_std_all a d0 Ha Hd0 Hstd) as Hck.
    unfold Cemi.check_std in Hck.
    rewrite !andb_true_iff, negb_true_iff, !Z.eqb_eq in Hck.
    destruct Hck as [[K1 K2] K3].
    rewrite byte_small by (unfold len in *; lia).
    rewrite unpack_app_standard;
      [ | exact C1 | rewrite C4; exact K1
        | unfold len in *; simpl length in *; lia ].
    rewrite C2, C3, C4, K2, K3.
    unfold Cemi.masked_data, Cemi.AppData_Size.
    cbn [Cemi.app_Command Cemi.app_Data]. rewrite Hstd. cbn [negb].
    rewrite clamp_len_id by lia. do 2 f_equal. lia.
  - pose proof (ext_prefix_not_standard a Hpre Ha) as Hstd.
    rewrite AllocAndPack_extended by (assumption || lia).
    cbn [mbind outcome_bind].
    pose proof (check_ext_all a Ha Hpre) as Hck.
    unfold Cemi.check_ext in Hck.
    rewrite andb_true_iff, Z.eqb_eq in Hck. destruct Hck as [K1 K2].
    rewrite byte_small by (unfold len in *; lia).
    rewrite unpack_app_extended;
      [ | exact C1 | rewrite C4; exact K1 | lia ].
    rewrite C2, C3, C4, K2.
    unfold Cemi.masked_data, Cemi.AppData_Size.
    cbn [Cemi.app_Command Cemi.app_Data]. rewrite Hstd. cbn [negb].
    rewrite clamp_len_id by lia. do 2 f_equal. lia.
Qed.

Lemma AppData_roundtrip_witness :
  Cemi.unpack_pack
    (Cemi.UAppData (Cemi.mkAppData true 7 Cemi.PropertyValueRead [1; 200; 3]))
  = Ok (Cemi.UAppData (Cemi.mkAppData true 7 Cemi.PropertyValueRead [1; 200; 3]),
        6).
Proof.
  apply (AppData_roundtrip true 7 Cemi.PropertyValueRead [1; 200; 3]).
  - lia.
  - vm_compute. split; [discriminate|reflexivity].
  - repeat constructor; unfold is_byte; lia.
  - vm_compute. split; discriminate.
  - right. split; [right; reflexivity|vm_compute; discriminate].
Defined.

(** C1 as stated fails: an unnumbered GroupValueWrite whose SeqNumber field
    holds 5 packs to 01 00 81, and comes back with sequence number 0. *)
Lemma AppData_roundtrip_counterexample :
  let app := Cemi.mkAppData false 5 Cemi.GroupValueWrite [1] in
  Cemi.AllocAndPack (Cemi.UAppData app) = Ok [1; 0; 129]
  /\ Cemi.unpack_pack (Cemi.UAppData app)
     = Ok (Cemi.UAppData (Cemi.mkAppData false 0 Cemi.GroupValueWrite [1]), 3)
  /\ Cemi.unpack_pack (Cemi.UAppData app)
     <> Ok (Cemi.UAppData
              (Cemi.mkAppData false 5 Cemi.GroupValueWrite
                 (Cemi.masked_data Cemi.GroupValueWrite [1])),
            Cemi.AppData_Size app).
Proof.
  split; [reflexivity|]. split; [reflexivity|].
  vm_compute. intros H. discriminate H.
Qed.

(** Which named constants the amended round trip covers: all but the
    eighteen extended ones under prefix 0b0111. *)
Lemma decodable_named :
  filter (fun a => Cemi.decodable a = false) Cemi.named_APCIs
  = Cemi.extended_APCIs.
Proof. reflexivity. Qed.

Lemma decodable_cases a :
  Cemi.decodable a = true ->
  Cemi.IsStandardCommand a = true
  \/ Z.shiftr a 6 = Cemi.PrefixUserMessage
  \/ Z.shiftr a 6 = Cemi.PrefixEscape.
Proof.
  unfold Cemi.decodable. rewrite !orb_true_iff, !Z.eqb_eq. tauto.
Qed.

(** Outside the amended claim: what the code does with an extended command
    under prefix 0b0111, and with 255 payload bytes after an extended
    command. MemoryExtendedRead packs to 03 01 FD AA BB, which unpacks as
    AdcResponse with three payload bytes; with 255 payload bytes the length
    byte wraps to 0 and the packed unit is refused. *)
Example MemoryExtendedRead_pack :
  Cemi.AllocAndPack
    (Cemi.UAppData (Cemi.mkAppData false 0 Cemi.MemoryExtendedRead [170; 187]))
  = Ok [3; 1; 253; 170; 187].
Proof. reflexivity. Qed.

Example MemoryExtendedRead_unpack :
  Cemi.unpackTransportUnit [3; 1; 253; 170; 187]
  = Ok (Cemi.UAppData (Cemi.mkAppData false 0 Cemi.AdcResponse [61; 170; 187]),
        5).
Proof. reflexivity. Qed.

Example extended_255_bytes :
  Cemi.unpack_pack
    (Cemi.UAppData (Cemi.mkAppData false 0 Cemi.PropertyValueRead
                      (replicate 255 7)))
  = Err ErrUnexpectedEOF.
Proof. vm_compute. reflexivity. Qed.

(** Scenario 1 of the specification. *)
Example GroupValueWrite_pack :
  Cemi.AllocAndPack
    (Cemi.UAppData (Cemi.mkAppData false 0 Cemi.GroupValueWrite [1]))
  = Ok [1; 0; 129].
Proof. reflexivity. Qed.

(** ** The truncation guard of unpackTransportUnit *)

(** On the AppData path with at least three bytes of input, the guard
    [dataLength+2 < len(data)] refuses exactly the inputs that are longer
    than the declared unit, and lets every shorter input through. *)
Lemma unpack_guard L c d2 rest :
  (Z.land c (Z.shiftl 1 7) =? Z.shiftl 1 7) = false ->
  let data := L :: c :: d2 :: rest in
  (L + 2 < len data -> Cemi.unpackTransportUnit data = Err ErrUnexpectedEOF)
  /\ (len data <= L + 2 -> is_ok (Cemi.unpackTransportUnit data) = true).
Proof.
  intros Hc data.
  assert (Hlen : len data = len rest + 3)
    by (unfold data, len; simpl length; lia).
  assert (Hr : 0 <= len rest) by (unfold len; lia).
  assert (Hhead : Cemi.unpackTransportUnit data
    = if L + 2 <? len data then Err ErrUnexpectedEOF
      else
        if Cemi.is_ext_prefix (Cemi.prefix_of (Z.land c 3) d2) then
          appData ← make (L - 1);
          Ok (Cemi.UAppData
                (Cemi.mkAppData (Z.land c (Z.shiftl 1 6) =? Z.shiftl 1 6)
                   (Z.land (Z.shiftr c 2) 15)
                   (Z.lor (uint16 (Z.shiftl
                             (Cemi.prefix_of (Z.land c 3) d2) 6)) d2)
                   (copy appData rest)), L + 2)
        else
          appData ← make L;
          appData ← and_idx 0 63 (copy appData (d2 :: rest));
          Ok (Cemi.UAppData
                (Cemi.mkAppData (Z.land c (Z.shiftl 1 6) =? Z.shiftl 1 6)
                   (Z.land (Z.shiftr c 2) 15)
                   (uint16 (Z.shiftl (Cemi.prefix_of (Z.land c 3) d2) 6))
                   appData), L + 2)).
  { unfold Cemi.unpackTransportUnit.
    destruct (Z.ltb_spec (len data) 2); [lia|].
    destruct (Z.ltb_spec (len data) 3); [lia|]. cbn [orb].
    change (idx data 0) with (Ok L). change (idx data 1) with (Ok c).
    change (idx data 2) with (Ok d2).
    cbn [mbind outcome_bind]. rewrite Hc.
    destruct (L + 2 <? len data); [reflexivity|].
    unfold data. rewrite !slice_from_le by (simpl; lia).
    unfold Cemi.is_ext_prefix, Cemi.prefix_of.
    destruct (_ || _); destruct (make _); reflexivity. }
  rewrite Hhead. split; intros HL.
  - destruct (Z.ltb_spec (L + 2) (len data)); [reflexivity|lia].
  - destruct (Z.ltb_spec (L + 2) (len data)); [lia|].
    destruct (Cemi.is_ext_prefix _).
    + rewrite make_nonneg by lia. reflexivity.
    + rewrite make_nonneg by lia. cbn [mbind outcome_bind].
      destruct (copy (replicate (Z.to_nat L) 0) (d2 :: rest)) as [|x xs] eqn:E.
      * apply (f_equal length) in E. rewrite copy_length in E.
        rewrite length_replicate in E. simpl in E. lia.
      * rewrite and_idx_0. reflexivity.
Qed.

Lemma unpack_guard_witness :
  Cemi.unpackTransportUnit [1; 0; 129; 255] = Err ErrUnexpectedEOF.
Proof.
  apply (proj1 (unpack_guard 1 0 129 [255] eq_refl)). vm_compute. reflexivity.
Defined.

(** C2 (the code at the failing inputs): three bytes that declare a
    five-byte payload are accepted, the missing bytes read as zero and seven
    bytes reported consumed; a complete unit followed by one more byte is
    refused as short input. *)
Theorem unpack_truncation_guard_inverted :
  Cemi.unpackTransportUnit [5; 0; 128]
  = Ok (Cemi.UAppData
          (Cemi.mkAppData false 0 Cemi.GroupValueWrite [0; 0; 0; 0; 0]), 7)
  /\ Cemi.unpackTransportUnit [1; 0; 129; 255] = Err ErrUnexpectedEOF
  /\ Cemi.unpackTransportUnit [1; 0; 129]
     = Ok (Cemi.UAppData (Cemi.mkAppData false 0 Cemi.GroupValueWrite [1]), 3).
Proof. repeat split; reflexivity. Qed.

(** X2: unpackTransportUnit has no panic in it: on every input it returns a
    unit or the short-input error. *)
Lemma unpackTransportUnit_total data :
  (exists r, Cemi.unpackTransportUnit data = Ok r)
  \/ Cemi.unpackTransportUnit data = Err ErrUnexpectedEOF.
Proof.
  destruct data as [|L [|c [|d2 rest]]]; try (right; reflexivity).
  - unfold Cemi.unpackTransportUnit.
    change (len [L; c] <? 2) with false. cbn [idx lookup list_lookup mbind
                                              outcome_bind].
    destruct (Z.land c (Z.shiftl 1 7) =? Z.shiftl 1 7);
      [left; eexists; reflexivity|right; reflexivity].
  - destruct (Z.land c (Z.shiftl 1 7) =? Z.shiftl 1 7) eqn:Hc.
    + left. unfold Cemi.unpackTransportUnit.
      destruct (Z.ltb_spec (len (L :: c :: d2 :: rest)) 2) as [Hl|_];
        [unfold len in Hl; cbn [length] in Hl; lia|].
      cbn [idx lookup list_lookup mbind outcome_bind]. rewrite Hc.
      eexists. reflexivity.
    + destruct (unpack_guard L c d2 rest Hc) as [Hlong Hshort].
      destruct (Z.lt_ge_cases (L + 2) (len (L :: c :: d2 :: rest)))
        as [Hlt|Hge].
      * right. exact (Hlong Hlt).
      * left. specialize (Hshort Hge).
        destruct (Cemi.unpackTransportUnit (L :: c :: d2 :: rest));
          try discriminate Hshort.
        eexists. reflexivity.
Qed.

(** X5: AppData.Pack does not run out of the buffer Size asks for: whatever
    the fields hold (an empty payload, one of more than 255 bytes, any
    command), packing into a fresh buffer of Size bytes does not panic. *)
Lemma AppData_AllocAndPack_ok app :
  exists buffer, Cemi.AllocAndPack (Cemi.UAppData app) = Ok buffer.
Proof.
  destruct app as [nb s a d].
  unfold Cemi.AllocAndPack, Cemi.Size, Cemi.Pack, Cemi.AppData_Size,
    Cemi.AppData_Pack.
  cbn [Cemi.app_Command Cemi.app_Data Cemi.app_Numbered Cemi.app_SeqNumber].
  assert (Hc : 1 <= Cemi.clamp_len (len d) <= 255).
  { unfold Cemi.clamp_len. destruct (Z.ltb_spec 255 (len d)); [lia|].
    destruct (Z.ltb_spec (len d) 1); lia. }
  destruct (Cemi.IsStandardCommand a); cbn [negb].
  - destruct (Z.to_nat (2 + Cemi.clamp_len (len d))) as [|[|[|k]]] eqn:E;
      try lia.
    cbn [replicate]. rewrite set_idx_0. cbn [mbind outcome_bind].
    destruct (copy (0 :: replicate k 0) d) as [|z cp] eqn:Ecp;
      [apply (f_equal length) in Ecp; rewrite copy_length in Ecp;
       discriminate Ecp|].
    destruct nb; rewrite ?or_idx_1; cbn [mbind outcome_bind];
      rewrite or_idx_1; cbn [mbind outcome_bind];
      rewrite copy_at_2, Ecp; cbn [mbind outcome_bind];
      rewrite and_idx_2; cbn [mbind outcome_bind];
      rewrite or_idx_2; eexists; reflexivity.
  - destruct (Z.to_nat (2 + 1 + Cemi.clamp_len (len d))) as [|[|[|k]]] eqn:E;
      try lia.
    cbn [replicate]. rewrite set_idx_0. cbn [mbind outcome_bind].
    destruct nb; rewrite ?or_idx_1; cbn [mbind outcome_bind];
      rewrite or_idx_1; cbn [mbind outcome_bind];
      rewrite set_idx_2; cbn [mbind outcome_bind];
      rewrite copy_at_3; eexists; reflexivity.
Qed.

(** ** Wire primitives *)

Lemma write_app pre post l :
  (length l <= length post)%nat ->
  Util.write l (Util.mkWriter (pre ++ post) (length pre) false)
  = Util.mkWriter ((pre ++ l) ++ drop (length l) post)
                  (length (pre ++ l)) false.
Proof.
  intros H. unfold Util.write. cbn [Util.w_failed Util.w_off Util.w_buf].
  rewrite decide_True by (rewrite length_app; lia).
  rewrite take_app_length, drop_app_add, length_app, <- app_assoc.
  reflexivity.
Qed.

Lemma PackSome_from items : forall pre post,
  (length (Util.encode_all items) <= length post)%nat ->
  foldl (fun w i => Util.write (Util.encode i) w)
        (Util.mkWriter (pre ++ post) (length pre) false) items
  = Util.mkWriter
      ((pre ++ Util.encode_all items)
       ++ drop (length (Util.encode_all items)) post)
      (length (pre ++ Util.encode_all items)) false.
Proof.
  induction items as [|i items IH]; intros pre post H.
  - cbn. rewrite app_nil_r, drop_0. reflexivity.
  - change (Util.encode_all (i :: items))
      with (Util.encode i ++ Util.encode_all items) in *.
    rewrite length_app in H. cbn [foldl].
    rewrite write_app by lia.
    rewrite IH by (rewrite length_drop; lia).
    rewrite drop_drop, (length_app (Util.encode i)), <- !app_assoc.
    reflexivity.
Qed.

(** Packing into a buffer that is large enough overwrites its first bytes
    with the encoded items and leaves the rest alone. *)
Lemma PackSome_prefix items buffer :
  (length (Util.encode_all items) <= length buffer)%nat ->
  Util.PackSome_ buffer items
  = Util.encode_all items ++ drop (length (Util.encode_all items)) buffer.
Proof.
  intros H. unfold Util.PackSome_, Util.PackSome.
  pose proof (PackSome_from items [] buffer H) as E.
  cbn [app length] in E. rewrite E. reflexivity.
Qed.

Lemma u16_split v :
  Z.lor (Z.shiftl (Z.shiftr v 8) 8) (Z.land v 255) = v.
Proof.
  apply Z.bits_inj'. intros n Hn.
  rewrite Z.lor_spec, Z.land_spec, Z.shiftl_spec by lia.
  destruct (Z.lt_ge_cases n 8) as [Hlt|Hge].
  - rewrite Z.testbit_neg_r by lia.
    change 255 with (Z.ones 8). rewrite Z.ones_spec_low by lia.
    rewrite andb_true_r. reflexivity.
  - rewrite Z.shiftr_spec by lia.
    change 255 with (Z.ones 8). rewrite Z.ones_spec_high by lia.
    rewrite andb_false_r, orb_false_r. f_equal. lia.
Qed.

Lemma unpack_u8_cons v rest :
  Util.unpack_u8 (v :: rest) 0 = Ok (v, 1%nat).
Proof. reflexivity. Qed.

Lemma unpack_u16_encode v rest :
  Util.unpack_u16 (Util.encode (Util.U16 v) ++ rest) 0 = Ok (v, 2%nat).
Proof. cbn. rewrite u16_split. reflexivity. Qed.

Lemma unpack_bytes_ok k data n :
  (n + k <= length data)%nat ->
  Util.unpack_bytes k data n = Ok (take k (drop n data), (n + k)%nat).
Proof.
  intros H. unfold Util.unpack_bytes. rewrite decide_True by exact H.
  reflexivity.
Qed.

Lemma slice_ok (s : list Z) a b :
  (a <= b)%nat -> (b <= length s)%nat ->
  slice s a b = Ok (take (b - a) (drop a s)).
Proof.
  intros H1 H2. unfold slice. rewrite !decide_True by assumption.
  reflexivity.
Qed.

Lemma pack_each_spec {A} (pack : A -> list Z -> list Z) (enc : A -> list Z)
    (size : nat) (xs : list A) :
  (forall x sub, (size <= length sub)%nat ->
                 pack x sub = enc x ++ drop size sub) ->
  (forall x, length (enc x) = size) ->
  forall pre post,
    (size * length xs <= length post)%nat ->
    Knxnet.pack_each pack size xs (length pre) (pre ++ post)
    = Ok ((pre ++ concat (map enc xs)) ++ drop (size * length xs) post).
Proof.
  intros Hpack Hsize.
  induction xs as [|x xs IH]; intros pre post H.
  - cbn. rewrite Nat.mul_0_r, drop_0, app_nil_r. reflexivity.
  - cbn [Knxnet.pack_each length] in *.
    rewrite slice_from_le by (rewrite length_app; lia).
    cbn [mbind outcome_bind].
    rewrite drop_app_length, take_app_length.
    rewrite Hpack by lia.
    replace (length pre + size)%nat with (length (pre ++ enc x))
      by (rewrite length_app, Hsize; reflexivity).
    rewrite app_assoc.
    rewrite IH by (rewrite length_drop; lia).
    rewrite drop_drop. cbn [map concat].
    rewrite <- !app_assoc.
    replace (size * S (length xs))%nat with (size + size * length xs)%nat
      by lia.
    reflexivity.
Qed.

(** ** Description information blocks: round trips *)

Lemma length_4_inv {A} (l : list A) :
  length l = 4%nat -> exists a b c d, l = [a; b; c; d].
Proof.
  destruct l as [|a [|b [|c [|d [|e l]]]]]; try discriminate. eauto.
Qed.

Lemma length_6_inv {A} (l : list A) :
  length l = 6%nat -> exists a b c d e f, l = [a; b; c; d; e; f].
Proof.
  destruct l as [|a [|b [|c [|d [|e [|f [|g l]]]]]]]; try discriminate.
  eauto 7.
Qed.

Ltac explode_arrays :=
  repeat match goal with
  | H : length ?l = 4%nat |- _ =>
      apply length_4_inv in H; destruct H as (? & ? & ? & ? & ->)
  | H : length ?l = 6%nat |- _ =>
      apply length_6_inv in H; destruct H as (? & ? & ? & ? & ? & ? & ->)
  end.

Ltac wire_simpl :=
  cbn [Util.encode_all Util.encode map concat app length replicate drop take
       mbind outcome_bind Util.unpack_u8 Util.unpack_u16 lookup list_lookup
       Nat.add Nat.sub];
  rewrite ?take_0, ?drop_0.

Lemma ExtendedDeviceInfoDIB_roundtrip d :
  Knxnet.DIB_unpack_pack (Knxnet.DIB_ExtendedDeviceInfo d)
  = Ok (Knxnet.DIB_ExtendedDeviceInfo d, 8%nat).
Proof.
  destruct d as [ty ms rs apdu dd].
  unfold Knxnet.DIB_unpack_pack, Knxnet.DIB_AllocAndPack, Knxnet.DIB_Pack,
    Knxnet.DIB_Size, Knxnet.ExtendedDeviceInfoDIB_Pack.
  rewrite PackSome_prefix by (vm_compute; lia).
  cbn [Knxnet.ed_Type Knxnet.ed_MediumStatus Knxnet.ed_Reserved
       Knxnet.ed_APDUSize Knxnet.ed_DeviceDescriptor].
  change (Z.to_nat Knxnet.ExtendedDeviceInfoDIB_Size) with 8%nat.
  change (byte Knxnet.ExtendedDeviceInfoDIB_Size) with 8.
  wire_simpl.
  unfold Knxnet.DIB_zero_like, Knxnet.DIB_Unpack,
    Knxnet.ExtendedDeviceInfoDIB_Unpack.
  wire_simpl.
  change (byte Knxnet.ExtendedDeviceInfoDIB_Size) with 8.
  rewrite !u16_split. reflexivity.
Qed.

Lemma IPConfigDIB_roundtrip d :
  Knxnet.DIB_ok (Knxnet.DIB_IPConfig d) ->
  Knxnet.DIB_unpack_pack (Knxnet.DIB_IPConfig d)
  = Ok (Knxnet.DIB_IPConfig d, 16%nat).
Proof.
  destruct d as [ty ip mask gw cap asg].
  unfold Knxnet.DIB_ok.
  cbn [Knxnet.ipc_Type Knxnet.ipc_IP Knxnet.ipc_Mask Knxnet.ipc_Gateway
       Knxnet.ipc_IPCapabilities Knxnet.ipc_IPAssignment].
  intros (Hty & Hip & Hmask & Hgw & Hcap & Hasg). explode_arrays.
  vm_compute. reflexivity.
Qed.

Lemma IPCurrentConfigDIB_roundtrip d :
  Knxnet.DIB_ok (Knxnet.DIB_IPCurrentConfig d) ->
  Knxnet.DIB_unpack_pack (Knxnet.DIB_IPCurrentConfig d)
  = Ok (Knxnet.DIB_IPCurrentConfig d, 20%nat).
Proof.
  destruct d as [ty ip mask gw dhcp asg rs].
  unfold Knxnet.DIB_ok.
  cbn [Knxnet.ipcc_Type Knxnet.ipcc_IP Knxnet.ipcc_Mask Knxnet.ipcc_Gateway
       Knxnet.ipcc_DHCPServer Knxnet.ipcc_IPAssignment Knxnet.ipcc_Reserved].
  intros (Hty & Hip & Hmask & Hgw & Hdhcp & Hasg & Hrs). explode_arrays.
  vm_compute. reflexivity.
Qed.

Lemma trim_zeros_replicate k : Util.trim_zeros (replicate k 0) = [].
Proof. induction k as [|k IH]; [reflexivity|]. cbn. rewrite IH. reflexivity. Qed.

Lemma trim_zeros_app l r :
  Util.trim_zeros r = [] -> Util.trim_zeros (l ++ r) = Util.trim_zeros l.
Proof.
  intros Hr. induction l as [|x l IH]; [exact Hr|].
  cbn. rewrite IH. reflexivity.
Qed.

Lemma PackString_fits name :
  (length name <= Knxnet.friendlyNameMaxLen)%nat ->
  Util.PackString (replicate Knxnet.friendlyNameMaxLen 0)
                  Knxnet.friendlyNameMaxLen name
  = name ++ replicate (Knxnet.friendlyNameMaxLen - length name) 0.
Proof.
  intros H. unfold Util.PackString. rewrite decide_True by exact H.
  rewrite PackSome_prefix;
    cbn [Util.encode_all Util.encode map concat]; rewrite app_nil_r.
  - rewrite drop_ge; [apply app_nil_r|].
    rewrite length_app, !length_replicate. lia.
  - rewrite length_app, !length_replicate. lia.
Qed.

Lemma DeviceInformationBlock_roundtrip d :
  Knxnet.DIB_ok (Knxnet.DIB_DeviceInfo d) ->
  Knxnet.DIB_unpack_pack (Knxnet.DIB_DeviceInfo d)
  = Ok (Knxnet.DIB_DeviceInfo d, 54%nat).
Proof.
  destruct d as [ty med st src proj serial mc hw name].
  unfold Knxnet.DIB_ok.
  cbn [Knxnet.dev_Type Knxnet.dev_Medium Knxnet.dev_Status Knxnet.dev_Source
       Knxnet.dev_ProjectIdentifier Knxnet.dev_SerialNumber
       Knxnet.dev_RoutingMulticastAddress Knxnet.dev_HardwareAddr
       Knxnet.dev_FriendlyName].
  intros (_ & _ & _ & _ & _ & Hserial & Hmc & Hhw & Hname & Htrim).
  explode_arrays.
  unfold Knxnet.DIB_unpack_pack, Knxnet.DIB_AllocAndPack, Knxnet.DIB_Pack,
    Knxnet.DIB_Size, Knxnet.DeviceInformationBlock_Pack.
  cbn [Knxnet.dev_Type Knxnet.dev_Medium Knxnet.dev_Status Knxnet.dev_Source
       Knxnet.dev_ProjectIdentifier Knxnet.dev_SerialNumber
       Knxnet.dev_RoutingMulticastAddress Knxnet.dev_HardwareAddr
       Knxnet.dev_FriendlyName].
  rewrite PackString_fits by exact Hname.
  change (Z.to_nat Knxnet.DeviceInformationBlock_Size) with 54%nat.
  change (byte Knxnet.DeviceInformationBlock_Size) with 54.
  assert (Hpad : length (name ++ replicate (Knxnet.friendlyNameMaxLen - length name) 0) = 30%nat)
    by (rewrite length_app, length_replicate; unfold Knxnet.friendlyNameMaxLen in *; lia).
  remember (name ++ replicate (Knxnet.friendlyNameMaxLen - length name) 0)
    as field eqn:Efield.
  rewrite PackSome_prefix
    by (cbn [Util.encode_all Util.encode map concat app length];
        rewrite app_nil_r, Hpad, length_replicate; lia).
  cbn [Util.encode_all Util.encode map concat app length].
  rewrite app_nil_r, Hpad.
  rewrite (drop_ge (replicate 54 0)) by (rewrite length_replicate; lia).
  rewrite app_nil_r.
  cbn [mbind outcome_bind].
  unfold Knxnet.DIB_zero_like, Knxnet.DIB_Unpack,
    Knxnet.DeviceInformationBlock_Unpack.
  wire_simpl.
  repeat (rewrite unpack_bytes_ok by (cbn [length]; lia); wire_simpl).
  rewrite slice_from_le by (cbn [length]; lia).
  wire_simpl.
  unfold Util.UnpackString.
  rewrite unpack_bytes_ok by (rewrite Hpad; unfold Knxnet.friendlyNameMaxLen; lia).
  wire_simpl.
  change (byte Knxnet.DeviceInformationBlock_Size) with 54.
  rewrite take_ge by (rewrite Hpad; unfold Knxnet.friendlyNameMaxLen; lia).
  rewrite Efield at 1. rewrite trim_zeros_app by apply trim_zeros_replicate.
  rewrite Htrim, !u16_split.
  change (54 =? 54) with true. cbn [negb mbind outcome_bind].
  reflexivity.
Qed.
Lemma families_Size_eq fams :
  Knxnet.families_Size fams = 2 + 2 * len fams.
Proof.
  unfold Knxnet.families_Size.
  assert (H : forall acc, foldl (fun size (_ : Knxnet.ServiceFamily) =>
                                   size + Z.of_nat Knxnet.ServiceFamily_Size)
                                acc fams = acc + 2 * len fams).
  { induction fams as [|f fams IH]; intros acc.
    - unfold len. cbn. lia.
    - cbn [foldl]. rewrite IH. unfold len, Knxnet.ServiceFamily_Size.
      cbn [length]. lia. }
  apply H.
Qed.

Lemma ServiceFamily_Pack_wire f sub :
  (2 <= length sub)%nat ->
  Knxnet.ServiceFamily_Pack f sub = Knxnet.ServiceFamily_wire f ++ drop 2 sub.
Proof.
  intros H. unfold Knxnet.ServiceFamily_Pack.
  rewrite PackSome_prefix by exact H. reflexivity.
Qed.

Lemma TunnellingSlot_Pack_wire s sub :
  (4 <= length sub)%nat ->
  Knxnet.TunnellingSlot_Pack s sub = Knxnet.TunnellingSlot_wire s ++ drop 4 sub.
Proof.
  intros H. unfold Knxnet.TunnellingSlot_Pack.
  rewrite PackSome_prefix by exact H. reflexivity.
Qed.

Lemma addr_Pack_wire addr sub :
  (2 <= length sub)%nat ->
  Util.PackSome_ sub [Util.U16 addr] = Knxnet.addr_wire addr ++ drop 2 sub.
Proof.
  intros H. rewrite PackSome_prefix by exact H. reflexivity.
Qed.

Lemma length_concat_const {A} (enc : A -> list Z) (size : nat) xs :
  (forall x, length (enc x) = size) ->
  length (concat (map enc xs)) = (size * length xs)%nat.
Proof.
  intros H. induction xs as [|x xs IH]; [cbn; lia|].
  cbn [map concat length]. rewrite length_app, H, IH. lia.
Qed.

(** The loops read back what pack_each wrote, element by element. *)
Lemma unpack_families_wire fams : forall pre acc fuel,
  (length fams <= fuel)%nat ->
  Knxnet.unpack_families fuel
    (pre ++ concat (map Knxnet.ServiceFamily_wire fams))
    (Z.of_nat (length pre + 2 * length fams)) (length pre) acc
  = Ok (acc ++ fams, (length pre + 2 * length fams)%nat).
Proof.
  induction fams as [|[ty ver] fams IH]; intros pre acc fuel Hfuel.
  - cbn [length Knxnet.unpack_families map concat].
    destruct fuel; cbn [Knxnet.unpack_families];
      (destruct (Z.ltb_spec (Z.of_nat (length pre))
                   (Z.of_nat (length pre + 2 * 0))); [lia|]);
      rewrite app_nil_r; do 2 f_equal; lia.
  - destruct fuel as [|fuel]; [cbn in Hfuel; lia|].
    cbn [Knxnet.unpack_families length].
    destruct (Z.ltb_spec (Z.of_nat (length pre))
                (Z.of_nat (length pre + 2 * S (length fams)))); [|lia].
    rewrite slice_from_le by (rewrite length_app; lia).
    cbn [mbind outcome_bind]. rewrite drop_app_length.
    cbn [map concat Knxnet.ServiceFamily_wire Util.encode_all Util.encode
         Knxnet.sf_Type Knxnet.sf_Version app].
    unfold Knxnet.ServiceFamily_Unpack.
    cbn [Util.unpack_u8 lookup list_lookup mbind outcome_bind].
    replace (length pre + 2)%nat with (length (pre ++ [ty; ver]))
      by (rewrite length_app; reflexivity).
    replace (pre ++ ty :: ver :: concat (map Knxnet.ServiceFamily_wire fams))
      with ((pre ++ [ty; ver]) ++ concat (map Knxnet.ServiceFamily_wire fams))
      by (rewrite <- app_assoc; reflexivity).
    replace (length pre + 2 * S (length fams))%nat
      with (length (pre ++ [ty; ver]) + 2 * length fams)%nat
      by (rewrite length_app; cbn [length]; lia).
    rewrite IH by (cbn in Hfuel; lia).
    rewrite <- app_assoc. reflexivity.
Qed.

Lemma unpack_addrs_wire addrs : forall pre acc fuel,
  (length addrs <= fuel)%nat ->
  Knxnet.unpack_addrs fuel
    (pre ++ concat (map Knxnet.addr_wire addrs))
    (Z.of_nat (length pre + 2 * length addrs)) (length pre) acc
  = Ok (acc ++ addrs, (length pre + 2 * length addrs)%nat).
Proof.
  induction addrs as [|a addrs IH]; intros pre acc fuel Hfuel.
  - cbn [length Knxnet.unpack_addrs map concat].
    destruct fuel; cbn [Knxnet.unpack_addrs];
      (destruct (Z.ltb_spec (Z.of_nat (length pre))
                   (Z.of_nat (length pre + 2 * 0))); [lia|]);
      rewrite app_nil_r; do 2 f_equal; lia.
  - destruct fuel as [|fuel]; [cbn in Hfuel; lia|].
    cbn [Knxnet.unpack_addrs length].
    destruct (Z.ltb_spec (Z.of_nat (length pre))
                (Z.of_nat (length pre + 2 * S (length addrs)))); [|lia].
    rewrite slice_from_le by (rewrite length_app; lia).
    cbn [mbind outcome_bind]. rewrite drop_app_length.
    cbn [map concat]. unfold Knxnet.addr_wire at 1.
    rewrite unpack_u16_encode.
    replace (length pre + 2)%nat
      with (length (pre ++ Util.encode (Util.U16 a)))
      by (rewrite length_app; reflexivity).
    rewrite (app_assoc pre).
    replace (length pre + 2 * S (length addrs))%nat
      with (length (pre ++ Util.encode (Util.U16 a)) + 2 * length addrs)%nat
      by (rewrite length_app; cbn [length Util.encode]; lia).
    rewrite IH by (cbn in Hfuel; lia).
    rewrite <- app_assoc. reflexivity.
Qed.

Lemma lor_shiftl8_zero hi lo :
  0 <= hi -> 0 <= lo -> Z.lor (Z.shiftl hi 8) lo = 0 -> hi = 0 /\ lo = 0.
Proof.
  intros Hhi Hlo H. apply Z.lor_eq_0_iff in H as [H1 H2].
  split; [|exact H2]. apply Z.shiftl_eq_0_iff in H1; [exact H1|lia].
Qed.

Lemma TunnellingSlot_Unpack_wire s rest :
  Knxnet.ts_Addr s <> 0 ->
  Knxnet.TunnellingSlot_Unpack (Knxnet.TunnellingSlot_wire s ++ rest)
  = Ok (s, 4%nat).
Proof.
  destruct s as [addr status]. cbn [Knxnet.ts_Addr]. intros Hne.
  unfold Knxnet.TunnellingSlot_Unpack, Knxnet.TunnellingSlot_wire.
  cbn [Util.encode_all Util.encode map concat app Knxnet.ts_Addr
       Knxnet.ts_Status].
  destruct (Z.ltb_spec
              (len (addr ≫ 8 :: Z.land addr 255 :: status ≫ 8
                    :: Z.land status 255 :: rest)) 4) as [Hl|_];
    [unfold len in Hl; cbn [length] in Hl; lia|].
  cbn [Util.unpack_u16 lookup list_lookup mbind outcome_bind].
  rewrite !u16_split. cbn [Knxnet.ts_Addr].
  destruct (Z.eqb_spec addr 0); [contradiction|reflexivity].
Qed.

Lemma unpack_slots_wire slots : forall pre acc fuel,
  Forall Knxnet.TunnellingSlot_ok slots ->
  (length slots <= fuel)%nat ->
  Knxnet.unpack_slots fuel
    (pre ++ concat (map Knxnet.TunnellingSlot_wire slots))
    (Z.of_nat (length pre + 4 * length slots)) (length pre) acc
  = Ok (acc ++ slots, (length pre + 4 * length slots)%nat).
Proof.
  induction slots as [|s slots IH]; intros pre acc fuel Hok Hfuel.
  - cbn [length Knxnet.unpack_slots map concat].
    destruct fuel; cbn [Knxnet.unpack_slots];
      (destruct (Z.ltb_spec (Z.of_nat (length pre))
                   (Z.of_nat (length pre + 4 * 0))); [lia|]);
      rewrite app_nil_r; do 2 f_equal; lia.
  - destruct fuel as [|fuel]; [cbn in Hfuel; lia|].
    inversion Hok as [|? ? (Ha & Hne & Hs) Hok']; subst.
    cbn [Knxnet.unpack_slots length].
    destruct (Z.ltb_spec (Z.of_nat (length pre))
                (Z.of_nat (length pre + 4 * S (length slots)))); [|lia].
    rewrite slice_from_le by (rewrite length_app; lia).
    cbn [mbind outcome_bind]. rewrite drop_app_length.
    cbn [map concat].
    rewrite TunnellingSlot_Unpack_wire by exact Hne.
    destruct (Z.eqb_spec (Knxnet.ts_Addr s) 0); [contradiction|].
    assert (Hlen : length (Knxnet.TunnellingSlot_wire s) = 4%nat)
      by reflexivity.
    replace (length pre + 4)%nat
      with (length (pre ++ Knxnet.TunnellingSlot_wire s))
      by (rewrite length_app, Hlen; reflexivity).
    rewrite (app_assoc pre).
    replace (length pre + 4 * S (length slots))%nat
      with (length (pre ++ Knxnet.TunnellingSlot_wire s)
            + 4 * length slots)%nat
      by (rewrite length_app, Hlen; lia).
    rewrite IH by (assumption || (cbn in Hfuel; lia)).
    rewrite <- app_assoc. reflexivity.
Qed.
Lemma families_pack ty fams :
  2 + 2 * len fams <= 255 ->
  Knxnet.pack_each Knxnet.ServiceFamily_Pack Knxnet.ServiceFamily_Size fams 2
    (Util.PackSome_ (replicate (Z.to_nat (2 + 2 * len fams)) 0)
       [Util.U8 (byte (2 + 2 * len fams)); Util.U8 ty])
  = Ok ((2 + 2 * len fams) :: ty
        :: concat (map Knxnet.ServiceFamily_wire fams)).
Proof.
  intros Hsize.
  replace (Z.to_nat (2 + 2 * len fams)) with (2 + 2 * length fams)%nat
    by (unfold len; lia).
  rewrite PackSome_prefix by (rewrite length_replicate; cbn; lia).
  rewrite byte_small by (unfold len in *; lia).
  cbn [Util.encode_all Util.encode map concat app length].
  change (2 + 2 * length fams)%nat with (S (S (2 * length fams))).
  cbn [replicate drop]. rewrite ?drop_0.
  pose proof (pack_each_spec Knxnet.ServiceFamily_Pack
                Knxnet.ServiceFamily_wire 2 fams
                ServiceFamily_Pack_wire (fun _ => eq_refl)
                [2 + 2 * len fams; ty] (replicate (2 * length fams) 0)) as H.
  cbn [length app] in H. unfold Knxnet.ServiceFamily_Size. rewrite H.
  - rewrite drop_ge by (rewrite length_replicate; lia).
    rewrite app_nil_r. reflexivity.
  - rewrite length_replicate. lia.
Qed.

Lemma families_unpack ty fams acc :
  2 + 2 * len fams <= 255 ->
  let data := (2 + 2 * len fams) :: ty
              :: concat (map Knxnet.ServiceFamily_wire fams) in
  Knxnet.unpack_families (length data) data (2 + 2 * len fams) 2 acc
  = Ok (acc ++ fams, Z.to_nat (2 + 2 * len fams)).
Proof.
  intros Hsize data.
  pose proof (unpack_families_wire fams [2 + 2 * len fams; ty] acc
                (length data)) as H.
  cbn [length app] in H. fold data in H.
  replace (Z.of_nat (2 + 2 * length fams)) with (2 + 2 * len fams) in H
    by (unfold len; lia).
  rewrite H.
  - do 2 f_equal. unfold len. lia.
  - unfold data. cbn [length].
    rewrite (length_concat_const Knxnet.ServiceFamily_wire 2)
      by (intros; reflexivity).
    lia.
Qed.

Lemma SupportedServicesDIB_roundtrip d :
  Knxnet.DIB_ok (Knxnet.DIB_SupportedServices d) ->
  Knxnet.DIB_unpack_pack (Knxnet.DIB_SupportedServices d)
  = Ok (Knxnet.DIB_SupportedServices d,
        Z.to_nat (Knxnet.SupportedServicesDIB_Size d)).
Proof.
  destruct d as [ty fams]. unfold Knxnet.DIB_ok.
  cbn [Knxnet.ss_Type Knxnet.ss_Families].
  unfold Knxnet.SupportedServicesDIB_Size. cbn [Knxnet.ss_Families].
  rewrite families_Size_eq. intros (_ & _ & Hsize).
  unfold Knxnet.DIB_unpack_pack, Knxnet.DIB_AllocAndPack, Knxnet.DIB_Pack,
    Knxnet.DIB_Size, Knxnet.SupportedServicesDIB_Pack,
    Knxnet.SupportedServicesDIB_Size.
  cbn [Knxnet.ss_Type Knxnet.ss_Families].
  rewrite families_Size_eq, families_pack by exact Hsize.
  cbn [mbind outcome_bind].
  unfold Knxnet.DIB_zero_like, Knxnet.DIB_Unpack,
    Knxnet.SupportedServicesDIB_Unpack.
  cbn [Util.unpack_u8 lookup list_lookup mbind outcome_bind
       Knxnet.ss_Families].
  rewrite families_unpack by exact Hsize.
  cbn [mbind outcome_bind app].
  unfold Knxnet.SupportedServicesDIB_Size. cbn [Knxnet.ss_Families].
  rewrite families_Size_eq, byte_small by (unfold len in *; lia).
  rewrite Z.eqb_refl. reflexivity.
Qed.

Lemma SecuredServicesDIB_roundtrip d :
  Knxnet.DIB_ok (Knxnet.DIB_SecuredServices d) ->
  Knxnet.DIB_unpack_pack (Knxnet.DIB_SecuredServices d)
  = Ok (Knxnet.DIB_SecuredServices d,
        Z.to_nat (Knxnet.SecuredServicesDIB_Size d)).
Proof.
  destruct d as [ty fams]. unfold Knxnet.DIB_ok.
  cbn [Knxnet.sec_Type Knxnet.sec_Families].
  unfold Knxnet.SecuredServicesDIB_Size. cbn [Knxnet.sec_Families].
  rewrite families_Size_eq. intros (_ & _ & Hsize).
  unfold Knxnet.DIB_unpack_pack, Knxnet.DIB_AllocAndPack, Knxnet.DIB_Pack,
    Knxnet.DIB_Size, Knxnet.SecuredServicesDIB_Pack,
    Knxnet.SecuredServicesDIB_Size.
  cbn [Knxnet.sec_Type Knxnet.sec_Families].
  rewrite families_Size_eq, families_pack by exact Hsize.
  cbn [mbind outcome_bind].
  unfold Knxnet.DIB_zero_like, Knxnet.DIB_Unpack,
    Knxnet.SecuredServicesDIB_Unpack.
  cbn [Util.unpack_u8 lookup list_lookup mbind outcome_bind
       Knxnet.sec_Families].
  rewrite families_unpack by exact Hsize.
  cbn [mbind outcome_bind app].
  unfold Knxnet.SecuredServicesDIB_Size. cbn [Knxnet.sec_Families].
  rewrite families_Size_eq, byte_small by (unfold len in *; lia).
  rewrite Z.eqb_refl. reflexivity.
Qed.
Lemma KNXAddrsDIB_roundtrip d :
  Knxnet.DIB_ok (Knxnet.DIB_KNXAddrs d) ->
  Knxnet.DIB_unpack_pack (Knxnet.DIB_KNXAddrs d)
  = Ok (Knxnet.DIB_KNXAddrs d, Z.to_nat (Knxnet.KNXAddrsDIB_Size d)).
Proof.
  destruct d as [ty addrs]. unfold Knxnet.DIB_ok.
  cbn [Knxnet.ka_Type Knxnet.ka_KNXAddrs].
  unfold Knxnet.KNXAddrsDIB_Size. cbn [Knxnet.ka_KNXAddrs].
  intros (_ & _ & Hsize).
  unfold Knxnet.DIB_unpack_pack, Knxnet.DIB_AllocAndPack, Knxnet.DIB_Pack,
    Knxnet.DIB_Size, Knxnet.KNXAddrsDIB_Pack, Knxnet.KNXAddrsDIB_Size.
  cbn [Knxnet.ka_Type Knxnet.ka_KNXAddrs].
  replace (Z.to_nat (2 + len addrs * 2)) with (2 + 2 * length addrs)%nat
    by (unfold len; lia).
  rewrite PackSome_prefix by (rewrite length_replicate; cbn; lia).
  rewrite byte_small by (unfold len in *; lia).
  cbn [Util.encode_all Util.encode map concat app length].
  change (2 + 2 * length addrs)%nat with (S (S (2 * length addrs))).
  cbn [replicate drop]. rewrite ?drop_0.
  pose proof (pack_each_spec (fun addr sub => Util.PackSome_ sub [Util.U16 addr])
                Knxnet.addr_wire 2 addrs
                addr_Pack_wire (fun _ => eq_refl)
                [2 + len addrs * 2; ty] (replicate (2 * length addrs) 0)) as H.
  cbn [length app] in H. rewrite H by (rewrite length_replicate; lia).
  rewrite drop_ge by (rewrite length_replicate; lia).
  rewrite app_nil_r. cbn [mbind outcome_bind].
  unfold Knxnet.DIB_zero_like, Knxnet.DIB_Unpack, Knxnet.KNXAddrsDIB_Unpack.
  cbn [Util.unpack_u8 lookup list_lookup mbind outcome_bind
       Knxnet.ka_KNXAddrs].
  pose proof (unpack_addrs_wire addrs [2 + len addrs * 2; ty] []) as U.
  cbn [length app] in U.
  replace (Z.of_nat (2 + 2 * length addrs)) with (2 + len addrs * 2) in U
    by (unfold len; lia).
  rewrite U.
  - cbn [mbind outcome_bind app].
    unfold Knxnet.KNXAddrsDIB_Size. cbn [Knxnet.ka_KNXAddrs].
    rewrite byte_small by (unfold len in *; lia).
    rewrite Z.eqb_refl. reflexivity.
  - cbn [length].
    rewrite (length_concat_const Knxnet.addr_wire 2)
      by (intros; reflexivity).
    lia.
Qed.

Lemma TunnellingInfoDIB_wire_unpack ty apdu slots :
  Forall Knxnet.TunnellingSlot_ok slots ->
  4 + len slots * 4 <= 255 ->
  Knxnet.TunnellingInfoDIB_Unpack Knxnet.TunnellingInfoDIB_zero
    ((4 + len slots * 4) :: ty :: Util.encode (Util.U16 apdu)
     ++ concat (map Knxnet.TunnellingSlot_wire slots))
  = Ok (Knxnet.mkTunnellingInfoDIB ty apdu slots,
        (4 + 4 * length slots)%nat).
Proof.
  intros Hok Hsize.
  unfold Knxnet.TunnellingInfoDIB_Unpack, Knxnet.TunnellingInfoDIB_zero.
  cbn [Util.encode app Util.unpack_u8 Util.unpack_u16 lookup list_lookup
       mbind outcome_bind Knxnet.ti_Slots].
  pose proof (unpack_slots_wire slots
                [4 + len slots * 4; ty; apdu ≫ 8; Z.land apdu 255] [])
    as U.
  cbn [length app] in U.
  replace (Z.of_nat (4 + 4 * length slots)) with (4 + len slots * 4) in U
    by (unfold len; lia).
  rewrite U.
  - cbn [mbind outcome_bind app].
    unfold Knxnet.TunnellingInfoDIB_Size. cbn [Knxnet.ti_Slots].
    rewrite byte_small by (unfold len in *; lia).
    rewrite Z.eqb_refl, u16_split. reflexivity.
  - exact Hok.
  - cbn [length].
    rewrite (length_concat_const Knxnet.TunnellingSlot_wire 4)
      by (intros; reflexivity).
    lia.
Qed.

Lemma TunnellingInfoDIB_pack ty apdu slots :
  4 + len slots * 4 <= 255 ->
  Knxnet.DIB_AllocAndPack
    (Knxnet.DIB_TunnellingInfo (Knxnet.mkTunnellingInfoDIB ty apdu slots))
  = Ok ((4 + len slots * 4) :: ty :: Util.encode (Util.U16 apdu)
        ++ concat (map Knxnet.TunnellingSlot_wire slots)).
Proof.
  intros Hsize.
  unfold Knxnet.DIB_AllocAndPack, Knxnet.DIB_Pack,
    Knxnet.DIB_Size, Knxnet.TunnellingInfoDIB_Pack,
    Knxnet.TunnellingInfoDIB_Size.
  cbn [Knxnet.ti_Type Knxnet.ti_APDUSize Knxnet.ti_Slots].
  replace (Z.to_nat (4 + len slots * 4)) with (4 + 4 * length slots)%nat
    by (unfold len; lia).
  rewrite PackSome_prefix by (rewrite length_replicate; cbn; lia).
  rewrite byte_small by (unfold len in *; lia).
  cbn [Util.encode_all Util.encode map concat app length].
  change (4 + 4 * length slots)%nat with (S (S (S (S (4 * length slots))))).
  cbn [replicate drop]. rewrite ?drop_0.
  pose proof (pack_each_spec Knxnet.TunnellingSlot_Pack
                Knxnet.TunnellingSlot_wire 4 slots
                TunnellingSlot_Pack_wire (fun _ => eq_refl)
                [4 + len slots * 4; ty; apdu ≫ 8; Z.land apdu 255]
                (replicate (4 * length slots) 0)) as H.
  cbn [length app] in H. unfold Knxnet.TunnellingSlot_Size.
  rewrite H by (rewrite length_replicate; lia).
  rewrite drop_ge by (rewrite length_replicate; lia).
  rewrite app_nil_r. reflexivity.
Qed.

Lemma TunnellingInfoDIB_roundtrip d :
  Knxnet.DIB_ok (Knxnet.DIB_TunnellingInfo d) ->
  Knxnet.DIB_unpack_pack (Knxnet.DIB_TunnellingInfo d)
  = Ok (Knxnet.DIB_TunnellingInfo d,
        Z.to_nat (Knxnet.TunnellingInfoDIB_Size d)).
Proof.
  destruct d as [ty apdu slots]. unfold Knxnet.DIB_ok.
  cbn [Knxnet.ti_Type Knxnet.ti_APDUSize Knxnet.ti_Slots].
  unfold Knxnet.TunnellingInfoDIB_Size. cbn [Knxnet.ti_Slots].
  intros (_ & _ & Hok & Hsize).
  unfold Knxnet.DIB_unpack_pack.
  rewrite TunnellingInfoDIB_pack by exact Hsize.
  cbn [mbind outcome_bind Knxnet.DIB_zero_like Knxnet.DIB_Unpack].
  rewrite TunnellingInfoDIB_wire_unpack by assumption.
  cbn [mbind outcome_bind]. do 2 f_equal. unfold len. lia.
Qed.

Lemma ManufacturerDataDIB_roundtrip d :
  Knxnet.DIB_ok (Knxnet.DIB_ManufacturerData d) ->
  Knxnet.DIB_unpack_pack (Knxnet.DIB_ManufacturerData d)
  = Ok (Knxnet.DIB_ManufacturerData d, 4%nat).
Proof.
  destruct d as [ty id data]. unfold Knxnet.DIB_ok.
  cbn [Knxnet.md_Type Knxnet.md_ID].
  unfold Knxnet.ManufacturerDataDIB_Size. cbn [Knxnet.md_Data].
  intros (_ & _ & Hsize).
  unfold Knxnet.DIB_unpack_pack, Knxnet.DIB_AllocAndPack, Knxnet.DIB_Pack,
    Knxnet.DIB_Size, Knxnet.ManufacturerDataDIB_Pack,
    Knxnet.ManufacturerDataDIB_Size.
  cbn [Knxnet.md_Type Knxnet.md_ID Knxnet.md_Data].
  replace (Z.to_nat (4 + len data)) with (4 + length data)%nat
    by (unfold len; lia).
  rewrite PackSome_prefix
    by (rewrite length_replicate; cbn [Util.encode_all Util.encode map concat
                                       app length];
        rewrite app_nil_r; lia).
  rewrite byte_small by (unfold len in *; lia).
  cbn [Util.encode_all Util.encode map concat app length].
  rewrite app_nil_r.
  rewrite drop_ge by (rewrite length_replicate; lia).
  rewrite app_nil_r. cbn [mbind outcome_bind].
  unfold Knxnet.DIB_zero_like, Knxnet.DIB_Unpack,
    Knxnet.ManufacturerDataDIB_Unpack.
  cbn [Util.unpack_u8 Util.unpack_u16 lookup list_lookup mbind outcome_bind].
  rewrite slice_from_le by (cbn [length]; lia).
  cbn [mbind outcome_bind drop]. rewrite drop_0.
  unfold Knxnet.ManufacturerDataDIB_Size. cbn [Knxnet.md_Data].
  rewrite byte_small by (unfold len in *; lia).
  rewrite Z.eqb_refl, u16_split. reflexivity.
Qed.
(** ** Search request parameters *)

(** The byte that holds the mandatory flag and the parameter type: the
    type keeps its low seven bits, and its eighth bit reads as the flag. *)
Lemma srp_pld_fields mandatory ty :
  is_byte ty ->
  Knxnet.pld_Mandatory (Knxnet.srp_pld mandatory ty)
  = mandatory || (128 <=? ty)
  /\ Knxnet.pld_Type (Knxnet.srp_pld mandatory ty) = Z.land ty 127.
Proof.
  intros Hty.
  assert (H : all_below 256 (fun ty =>
     Bool.eqb (Knxnet.pld_Mandatory (Knxnet.srp_pld true ty)) true
     && (Knxnet.pld_Type (Knxnet.srp_pld true ty) =? Z.land ty 127)
     && Bool.eqb (Knxnet.pld_Mandatory (Knxnet.srp_pld false ty))
                 (128 <=? ty)
     && (Knxnet.pld_Type (Knxnet.srp_pld false ty) =? Z.land ty 127)) = true)
    by (vm_compute; reflexivity).
  pose proof (all_below_spec _ _ H ty Hty) as Hc. cbv beta in Hc.
  rewrite !andb_true_iff, !Z.eqb_eq in Hc.
  destruct Hc as [[[H1 H2] H3] H4].
  apply eqb_prop in H1, H3. destruct mandatory; auto.
Qed.

Lemma land_127_small ty : 0 <= ty < 128 -> Z.land ty 127 = ty.
Proof.
  intros H. change 127 with (Z.ones 7). rewrite Z.land_ones by lia.
  apply Z.mod_small. lia.
Qed.

Lemma map_byte_id l : is_bytes l -> map byte l = l.
Proof.
  induction 1 as [|x l Hx _ IH]; [reflexivity|].
  cbn [map]. rewrite IH, byte_small by exact Hx. reflexivity.
Qed.

Lemma padded_length l :
  len (Knxnet.padded l) mod 2 = 0
  /\ len l <= len (Knxnet.padded l) <= len l + 1.
Proof.
  unfold Knxnet.padded.
  destruct (Z.eqb_spec (len l mod 2) 0) as [E|E]; cbn [negb].
  - split; [exact E|lia].
  - unfold len in *. rewrite length_app. cbn [length].
    split; [|lia].
    replace (Z.of_nat (length l + 1)) with (Z.of_nat (length l) + 1) by lia.
    revert E. generalize (Z.of_nat (length l)). intros z E.
    Z.div_mod_to_equations. lia.
Qed.

Lemma RequestDIBs_Size_padded mandatory ty l :
  Knxnet.RequestDIBs_Size (Knxnet.mkRequestDIBs mandatory ty l)
  = 2 + len (Knxnet.padded l).
Proof.
  unfold Knxnet.RequestDIBs_Size, Knxnet.padded. cbn [Knxnet.rd_DescTypes].
  destruct (negb (len l mod 2 =? 0)); [|reflexivity].
  unfold len. rewrite length_app. cbn [length]. lia.
Qed.

Lemma padded_idem l : Knxnet.padded (Knxnet.padded l) = Knxnet.padded l.
Proof.
  destruct (padded_length l) as [E _].
  unfold Knxnet.padded at 1. rewrite E. reflexivity.
Qed.

(** RequestDIBs comes back with its description types as they went on the
    wire: padded with one 0x00 when their number is odd. *)
Lemma RequestDIBs_roundtrip p :
  Knxnet.RequestDIBs_ok p ->
  Knxnet.SRP_unpack_pack (Knxnet.SRP_RequestDIBs p)
  = Ok (Knxnet.SRP_RequestDIBs
          (Knxnet.mkRequestDIBs
             (Knxnet.rd_Mandatory p || (128 <=? Knxnet.rd_Type p))
             (Z.land (Knxnet.rd_Type p) 127)
             (Knxnet.padded (Knxnet.rd_DescTypes p))),
        Z.to_nat (Knxnet.RequestDIBs_Size p)).
Proof.
  destruct p as [mandatory ty l]. unfold Knxnet.RequestDIBs_ok.
  cbn [Knxnet.rd_Mandatory Knxnet.rd_Type Knxnet.rd_DescTypes].
  rewrite RequestDIBs_Size_padded. intros (Hty & Hl & Hsize).
  destruct (srp_pld_fields mandatory ty Hty) as [Hm Ht].
  destruct (padded_length l) as [Heven Hbound].
  unfold Knxnet.SRP_unpack_pack, Knxnet.SRP_AllocAndPack, Knxnet.SRP_Pack,
    Knxnet.SRP_Size, Knxnet.RequestDIBs_Pack.
  cbn [Knxnet.rd_Mandatory Knxnet.rd_Type Knxnet.rd_DescTypes].
  rewrite RequestDIBs_Size_padded, map_byte_id by exact Hl.
  replace (Z.to_nat (2 + len (Knxnet.padded l)))
    with (2 + length (Knxnet.padded l))%nat by (unfold len; lia).
  rewrite PackSome_prefix
    by (rewrite length_replicate;
        cbn [Util.encode_all Util.encode map concat app length];
        rewrite app_nil_r; lia).
  rewrite byte_small by (unfold len in *; lia).
  cbn [Util.encode_all Util.encode map concat app length].
  rewrite app_nil_r.
  rewrite drop_ge by (rewrite length_replicate; lia).
  rewrite app_nil_r.
  unfold Knxnet.SRP_zero_like, Knxnet.SRP_Unpack, Knxnet.SRP_Unpack_cap,
    Knxnet.RequestDIBs_Unpack_cap, slice_cap.
  rewrite app_nil_r.
  cbn [Util.unpack_u8 lookup list_lookup mbind outcome_bind].
  replace (Z.to_nat (2 + len (Knxnet.padded l)))
    with (2 + length (Knxnet.padded l))%nat by (unfold len; lia).
  rewrite slice_ok by (cbn [length]; lia).
  cbn [mbind outcome_bind drop].
  replace (2 + length (Knxnet.padded l) - 2)%nat
    with (length (Knxnet.padded l)) by lia.
  rewrite drop_0, firstn_all.
  rewrite RequestDIBs_Size_padded, padded_idem.
  rewrite byte_small by (unfold len in *; lia).
  rewrite Z.eqb_refl, Hm, Ht. reflexivity.
Qed.

(** The three Select* parameters do not survive: Pack writes no length
    byte, Unpack reads one, and the packed bytes are one byte short. *)
Lemma SelectProgMode_unpack_pack p :
  Knxnet.SRP_unpack_pack (Knxnet.SRP_SelectProgMode p) = Err ErrUnexpectedEOF.
Proof. reflexivity. Qed.

Lemma SelectSrvSRP_unpack_pack p :
  Knxnet.SRP_unpack_pack (Knxnet.SRP_SelectSrvSRP p) = Err ErrUnexpectedEOF.
Proof. reflexivity. Qed.

Lemma SelectMACAddr_unpack_pack p :
  length (Knxnet.smac_HardwareAddr p) = 6%nat ->
  Knxnet.SRP_unpack_pack (Knxnet.SRP_SelectMACAddr p) = Err ErrUnexpectedEOF.
Proof.
  destruct p as [mandatory ty hw]. cbn [Knxnet.smac_HardwareAddr].
  intros H. explode_arrays. reflexivity.
Qed.

Example SelectProgMode_wire :
  Knxnet.SRP_AllocAndPack (Knxnet.SRP_SelectProgMode
                             (Knxnet.NewSelectProgMode true)) = [129].
Proof. reflexivity. Qed.

Example RequestDIBs_odd :
  Knxnet.SRP_unpack_pack
    (Knxnet.SRP_RequestDIBs (Knxnet.NewRequestDIBs false [1; 2; 8]))
  = Ok (Knxnet.SRP_RequestDIBs
          (Knxnet.mkRequestDIBs false 4 [1; 2; 8; 0]), 6%nat).
Proof. reflexivity. Qed.
Example RequestDIBs_type_bit_7 :
  Knxnet.SRP_AllocAndPack
    (Knxnet.SRP_RequestDIBs (Knxnet.mkRequestDIBs false 132 [1; 2]))
  = [4; 132; 1; 2]
  /\ Knxnet.SRP_unpack_pack
       (Knxnet.SRP_RequestDIBs (Knxnet.mkRequestDIBs false 132 [1; 2]))
     = Ok (Knxnet.SRP_RequestDIBs (Knxnet.mkRequestDIBs true 4 [1; 2]),
           4%nat).
Proof. split; reflexivity. Qed.

(** C4 (amended): every description block whose fields fit the wire format
    (field widths as typed, packed size at most 255, six-byte hardware
    address, friendly name of at most thirty bytes with no trailing zero
    byte, no tunnelling slot with address 0) unpacks from its packed bytes
    to itself; a RequestDIBs parameter whose packed size is at most 255
    unpacks to itself with its description types padded by one 0x00 when
    their number is odd, its type reduced to its low seven bits and its
    mandatory flag set also when the type has its eighth bit set; with a
    type below 0x80 it so keeps its flag and its type. *)
Theorem DIB_SRP_roundtrip :
  (forall dib, Knxnet.DIB_ok dib ->
     exists n, Knxnet.DIB_unpack_pack dib = Ok (dib, n))
  /\ (forall p, Knxnet.RequestDIBs_ok p ->
        Knxnet.SRP_unpack_pack (Knxnet.SRP_RequestDIBs p)
        = Ok (Knxnet.SRP_RequestDIBs
                (Knxnet.mkRequestDIBs
                   (Knxnet.rd_Mandatory p || (128 <=? Knxnet.rd_Type p))
                   (Z.land (Knxnet.rd_Type p) 127)
                   (Knxnet.padded (Knxnet.rd_DescTypes p))),
              Z.to_nat (Knxnet.RequestDIBs_Size p)))
  /\ (forall p, Knxnet.RequestDIBs_ok p -> Knxnet.rd_Type p < 128 ->
        Knxnet.SRP_unpack_pack (Knxnet.SRP_RequestDIBs p)
        = Ok (Knxnet.SRP_RequestDIBs
                (Knxnet.mkRequestDIBs (Knxnet.rd_Mandatory p)
                   (Knxnet.rd_Type p)
                   (Knxnet.padded (Knxnet.rd_DescTypes p))),
              Z.to_nat (Knxnet.RequestDIBs_Size p))).
Proof.
  split; [|split; [exact RequestDIBs_roundtrip|]].
  - intros [d|d|d|d|d|d|d|d|d] Hok; eexists.
    + apply DeviceInformationBlock_roundtrip, Hok.
    + apply SupportedServicesDIB_roundtrip, Hok.
    + apply IPConfigDIB_roundtrip, Hok.
    + apply IPCurrentConfigDIB_roundtrip, Hok.
    + apply KNXAddrsDIB_roundtrip, Hok.
    + apply SecuredServicesDIB_roundtrip, Hok.
    + apply TunnellingInfoDIB_roundtrip, Hok.
    + apply ExtendedDeviceInfoDIB_roundtrip.
    + apply ManufacturerDataDIB_roundtrip, Hok.
  - intros p Hok Hty. rewrite (RequestDIBs_roundtrip p Hok).
    destruct Hok as [[Hty0 _] _].
    rewrite land_127_small by lia.
    destruct (Z.leb_spec 128 (Knxnet.rd_Type p)); [lia|].
    rewrite orb_false_r. reflexivity.
Qed.

Lemma DIB_SRP_roundtrip_witness :
  (exists n,
     Knxnet.DIB_unpack_pack
       (Knxnet.DIB_TunnellingInfo
          (Knxnet.mkTunnellingInfoDIB 7 254
             [Knxnet.mkTunnellingSlot 4353 65534;
              Knxnet.mkTunnellingSlot 4354 65535]))
     = Ok (Knxnet.DIB_TunnellingInfo
             (Knxnet.mkTunnellingInfoDIB 7 254
                [Knxnet.mkTunnellingSlot 4353 65534;
                 Knxnet.mkTunnellingSlot 4354 65535]), n))
  /\ Knxnet.SRP_unpack_pack
       (Knxnet.SRP_RequestDIBs (Knxnet.mkRequestDIBs false 132 [1; 2; 8]))
     = Ok (Knxnet.SRP_RequestDIBs
             (Knxnet.mkRequestDIBs true 4 [1; 2; 8; 0]), 6%nat)
  /\ Knxnet.SRP_unpack_pack
       (Knxnet.SRP_RequestDIBs (Knxnet.NewRequestDIBs true [1; 2; 8]))
     = Ok (Knxnet.SRP_RequestDIBs
             (Knxnet.mkRequestDIBs true 4 [1; 2; 8; 0]), 6%nat).
Proof.
  split; [|split].
  - apply (proj1 DIB_SRP_roundtrip). cbn.
    split; [unfold is_byte; lia|]. split; [unfold Knxnet.is_u16; lia|].
    split; [|vm_compute; discriminate].
    repeat (constructor;
            [unfold Knxnet.TunnellingSlot_ok, Knxnet.is_u16; cbn;
             repeat split; lia|]).
    constructor.
  - apply (proj1 (proj2 DIB_SRP_roundtrip)
             (Knxnet.mkRequestDIBs false 132 [1; 2; 8])).
    unfold Knxnet.RequestDIBs_ok.
    split; [vm_compute; split; [discriminate|reflexivity]|].
    split; [|vm_compute; discriminate].
    repeat (constructor; [unfold is_byte; lia|]). constructor.
  - apply (proj2 (proj2 DIB_SRP_roundtrip)
             (Knxnet.NewRequestDIBs true [1; 2; 8])).
    + unfold Knxnet.RequestDIBs_ok.
      split; [vm_compute; split; [discriminate|reflexivity]|].
      split; [|vm_compute; discriminate].
      repeat (constructor; [unfold is_byte; lia|]). constructor.
    + vm_compute. reflexivity.
Defined.

(** C4 as stated fails: a TunnellingInfoDIB holding a slot with address 0
    packs to 08 07 00 FE 00 00 FF FE and is refused by Unpack. *)
Lemma DIB_SRP_roundtrip_counterexample :
  let x := Knxnet.DIB_TunnellingInfo
             (Knxnet.mkTunnellingInfoDIB 7 254
                [Knxnet.mkTunnellingSlot 0 65534]) in
  Knxnet.DIB_AllocAndPack x = Ok [8; 7; 0; 254; 0; 0; 255; 254]
  /\ Knxnet.DIB_unpack_pack x = Err ErrUnpackSlot
  /\ ~ (exists n, Knxnet.DIB_unpack_pack x = Ok (x, n)).
Proof.
  split; [reflexivity|]. split; [reflexivity|].
  intros [n H]. vm_compute in H. discriminate H.
Qed.
(** ** TunnellingInfoDIB.Unpack on raw input *)

Lemma TunnellingSlot_Unpack_cases sub :
  (exists e, Knxnet.TunnellingSlot_Unpack sub = Err e)
  \/ (exists b0 b1 b2 b3 rest,
        sub = b0 :: b1 :: b2 :: b3 :: rest
        /\ Z.lor (Z.shiftl b0 8) b1 <> 0
        /\ Knxnet.TunnellingSlot_Unpack sub
           = Ok (Knxnet.mkTunnellingSlot (Z.lor (Z.shiftl b0 8) b1)
                                         (Z.lor (Z.shiftl b2 8) b3), 4%nat)).
Proof.
  destruct sub as [|b0 [|b1 [|b2 [|b3 rest]]]];
    try (left; eexists; reflexivity).
  unfold Knxnet.TunnellingSlot_Unpack.
  destruct (Z.ltb_spec (len (b0 :: b1 :: b2 :: b3 :: rest)) 4) as [Hl|_];
    [unfold len in Hl; cbn [length] in Hl; lia|].
  cbn [Util.unpack_u16 lookup list_lookup mbind outcome_bind Knxnet.ts_Addr].
  destruct (Z.eqb_spec (Z.lor (Z.shiftl b0 8) b1) 0) as [E|E].
  - left. eexists. reflexivity.
  - right. exists b0, b1, b2, b3, rest. auto.
Qed.

Lemma unpack_slots_zero_addr data L k : forall d j fuel acc,
  (j + d = k)%nat -> (d < fuel)%nat ->
  Z.of_nat (4 + 4 * k) < L ->
  data !! (4 + 4 * k)%nat = Some 0 ->
  data !! (5 + 4 * k)%nat = Some 0 ->
  exists e, Knxnet.unpack_slots fuel data L (4 + 4 * j) acc = Err e.
Proof.
  induction d as [|d IH]; intros j fuel acc Hj Hfuel HL H0 H1;
    (destruct fuel as [|fuel]; [lia|]);
    cbn [Knxnet.unpack_slots];
    (destruct (Z.ltb_spec (Z.of_nat (4 + 4 * j)) L); [|lia]);
    assert (Hlen : (5 + 4 * k < length data)%nat)
      by (apply lookup_lt_is_Some; eauto);
    rewrite slice_from_le by lia; cbn [mbind outcome_bind];
    destruct (TunnellingSlot_Unpack_cases (drop (4 + 4 * j) data))
      as [[e He]|(b0 & b1 & b2 & b3 & rest & Hsub & Hne & Hu)];
    try (rewrite He; eexists; reflexivity).
  - (* the slot with address 0 is the one being read *)
    exfalso. apply Hne.
    assert (j = k) by lia. subst j.
    pose proof (lookup_drop data (4 + 4 * k) 0) as D0.
    pose proof (lookup_drop data (4 + 4 * k) 1) as D1.
    rewrite Hsub in D0, D1. cbn [lookup list_lookup] in D0, D1.
    replace (4 + 4 * k + 0)%nat with (4 + 4 * k)%nat in D0 by lia.
    replace (4 + 4 * k + 1)%nat with (5 + 4 * k)%nat in D1 by lia.
    rewrite H0 in D0. rewrite H1 in D1.
    injection D0 as ->. injection D1 as ->. reflexivity.
  - rewrite Hu. cbn [Knxnet.ts_Addr].
    destruct (Z.eqb_spec (Z.lor (Z.shiftl b0 8) b1) 0); [contradiction|].
    replace (4 + 4 * j + 4)%nat with (4 + 4 * S j)%nat by lia.
    apply (IH (S j)); (lia || assumption).
Qed.

Lemma unpack_slots_total data m :
  is_bytes data ->
  length data = (4 + 4 * m)%nat ->
  (forall k, (k < m)%nat ->
     ~ (data !! (4 + 4 * k)%nat = Some 0
        /\ data !! (5 + 4 * k)%nat = Some 0)) ->
  forall r j fuel acc,
    (j + r = m)%nat -> (r <= fuel)%nat ->
    exists slots,
      Knxnet.unpack_slots fuel data (Z.of_nat (4 + 4 * m)) (4 + 4 * j) acc
      = Ok (acc ++ slots, (4 + 4 * m)%nat)
      /\ length slots = r.
Proof.
  intros Hbytes Hlen Hnz.
  induction r as [|r IH]; intros j fuel acc Hj Hfuel.
  - exists []. assert (j = m) by lia. subst j.
    split; [|reflexivity]. rewrite app_nil_r.
    destruct fuel; cbn [Knxnet.unpack_slots];
      rewrite Z.ltb_irrefl; reflexivity.
  - destruct fuel as [|fuel]; [lia|].
    cbn [Knxnet.unpack_slots].
    destruct (Z.ltb_spec (Z.of_nat (4 + 4 * j)) (Z.of_nat (4 + 4 * m)));
      [|lia].
    rewrite slice_from_le by lia. cbn [mbind outcome_bind].
    destruct (drop (4 + 4 * j) data) as [|b0 [|b1 [|b2 [|b3 rest]]]] eqn:Hsub;
      try (apply (f_equal length) in Hsub; rewrite length_drop in Hsub;
           cbn [length] in Hsub; lia).
    assert (D0 : data !! (4 + 4 * j)%nat = Some b0).
    { replace (4 + 4 * j)%nat with (4 + 4 * j + 0)%nat by lia.
      rewrite <- lookup_drop, Hsub. reflexivity. }
    assert (D1 : data !! (5 + 4 * j)%nat = Some b1).
    { replace (5 + 4 * j)%nat with (4 + 4 * j + 1)%nat by lia.
      rewrite <- lookup_drop, Hsub. reflexivity. }
    assert (Hb0 : is_byte b0)
      by (eapply Forall_lookup_1; [exact Hbytes|exact D0]).
    assert (Hb1 : is_byte b1)
      by (eapply Forall_lookup_1; [exact Hbytes|exact D1]).
    assert (Hne : Z.lor (Z.shiftl b0 8) b1 <> 0).
    { intros E. unfold is_byte in *.
      apply lor_shiftl8_zero in E as [-> ->]; [|lia|lia].
      apply (Hnz j); [lia|]. auto. }
    destruct (TunnellingSlot_Unpack_cases (b0 :: b1 :: b2 :: b3 :: rest))
      as [[e He]|(c0 & c1 & c2 & c3 & rest' & Hc & _ & Hu)].
    + exfalso. revert He. unfold Knxnet.TunnellingSlot_Unpack.
      destruct (Z.ltb_spec (len (b0 :: b1 :: b2 :: b3 :: rest)) 4) as [Hl|_];
        [unfold len in Hl; cbn [length] in Hl; lia|].
      cbn [Util.unpack_u16 lookup list_lookup mbind outcome_bind
           Knxnet.ts_Addr].
      destruct (Z.eqb_spec (Z.lor (Z.shiftl b0 8) b1) 0);
        [contradiction|discriminate].
    + injection Hc as <- <- <- <- <-. rewrite Hu. cbn [Knxnet.ts_Addr].
      destruct (Z.eqb_spec (Z.lor (Z.shiftl b0 8) b1) 0); [contradiction|].
      replace (4 + 4 * j + 4)%nat with (4 + 4 * S j)%nat by lia.
      destruct (IH (S j) fuel
                  (acc ++ [Knxnet.mkTunnellingSlot (Z.lor (Z.shiftl b0 8) b1)
                                                   (Z.lor (Z.shiftl b2 8) b3)]))
        as (slots & Hs & Hl); [lia|lia|].
      eexists (_ :: slots). rewrite Hs, <- app_assoc.
      split; [reflexivity|cbn [length]; lia].
Qed.

(** C10: TunnellingInfoDIB.Unpack returns an error whenever a slot that
    starts inside the declared length has address 0; and it succeeds on an
    input of 4 + 4m bytes (at most 255) whose length byte says 4 + 4m and
    whose m slots all have a non-zero address. *)
Theorem TunnellingInfoDIB_Unpack_slots (data : list Z) :
  (forall tdib L k,
     data !! 0%nat = Some L ->
     Z.of_nat (4 + 4 * k) < L ->
     data !! (4 + 4 * k)%nat = Some 0 ->
     data !! (5 + 4 * k)%nat = Some 0 ->
     exists e, Knxnet.TunnellingInfoDIB_Unpack tdib data = Err e)
  /\ (forall m,
        is_bytes data ->
        length data = (4 + 4 * m)%nat ->
        data !! 0%nat = Some (Z.of_nat (4 + 4 * m)) ->
        Z.of_nat (4 + 4 * m) <= 255 ->
        (forall k, (k < m)%nat ->
           ~ (data !! (4 + 4 * k)%nat = Some 0
              /\ data !! (5 + 4 * k)%nat = Some 0)) ->
        exists tdib,
          Knxnet.TunnellingInfoDIB_Unpack Knxnet.TunnellingInfoDIB_zero data
          = Ok (tdib, length data)
          /\ length (Knxnet.ti_Slots tdib) = m).
Proof.
  split.
  - intros tdib L k HL Hk H0 H1.
    assert (Hlen : (5 + 4 * k < length data)%nat)
      by (apply lookup_lt_is_Some; eauto).
    destruct data as [|d0 [|d1 [|d2 [|d3 rest]]]];
      try (cbn [length] in Hlen; lia).
    injection HL as ->.
    unfold Knxnet.TunnellingInfoDIB_Unpack.
    cbn [Util.unpack_u8 Util.unpack_u16 lookup list_lookup mbind
         outcome_bind].
    destruct (unpack_slots_zero_addr (L :: d1 :: d2 :: d3 :: rest) L k
                k 0%nat (length (L :: d1 :: d2 :: d3 :: rest))
                (Knxnet.ti_Slots tdib))
      as [e He]; try assumption; try lia.
    change (4 + 4 * 0)%nat with 4%nat in He. rewrite He.
    eexists. reflexivity.
  - intros m Hbytes Hlen HL Hsize Hnz.
    destruct (unpack_slots_total data m Hbytes Hlen Hnz m 0%nat
                (length data) []) as (slots & Hs & Hl); [lia|lia|].
    remember (Z.of_nat (4 + 4 * m)) as L eqn:EL.
    destruct data as [|d0 [|d1 [|d2 [|d3 rest]]]];
      try (cbn [length] in Hlen; lia).
    injection HL as ->.
    unfold Knxnet.TunnellingInfoDIB_Unpack, Knxnet.TunnellingInfoDIB_zero.
    cbn [Util.unpack_u8 Util.unpack_u16 lookup list_lookup mbind
         outcome_bind Knxnet.ti_Slots].
    change (4 + 4 * 0)%nat with 4%nat in Hs. rewrite Hs.
    cbn [mbind outcome_bind app].
    unfold Knxnet.TunnellingInfoDIB_Size. cbn [Knxnet.ti_Slots].
    unfold len. rewrite Hl.
    replace (4 + Z.of_nat m * 4) with L by lia.
    rewrite byte_small by lia.
    rewrite Z.eqb_refl. cbn [negb].
    eexists. rewrite Hlen. split; [reflexivity|exact Hl].
Qed.
Lemma TunnellingInfoDIB_Unpack_slots_witness :
  (exists e,
     Knxnet.TunnellingInfoDIB_Unpack Knxnet.TunnellingInfoDIB_zero
       [8; 7; 0; 254; 0; 0; 255; 254] = Err e)
  /\ (exists tdib,
        Knxnet.TunnellingInfoDIB_Unpack Knxnet.TunnellingInfoDIB_zero
          [12; 7; 0; 254; 17; 1; 0; 0; 17; 2; 0; 1]
        = Ok (tdib, 12%nat)
        /\ length (Knxnet.ti_Slots tdib) = 2%nat).
Proof.
  split.
  - apply (proj1 (TunnellingInfoDIB_Unpack_slots
                    [8; 7; 0; 254; 0; 0; 255; 254])
             Knxnet.TunnellingInfoDIB_zero 8 0%nat).
    + reflexivity.
    + cbn. lia.
    + reflexivity.
    + reflexivity.
  - apply (proj2 (TunnellingInfoDIB_Unpack_slots
                    [12; 7; 0; 254; 17; 1; 0; 0; 17; 2; 0; 1]) 2%nat).
    + repeat (constructor; [unfold is_byte; lia|]). constructor.
    + reflexivity.
    + reflexivity.
    + cbn. lia.
    + intros k Hk [H0 H1].
      destruct k as [|[|k]]; [discriminate H0|discriminate H0|lia].
Defined.

Example TunnellingInfoDIB_Unpack_example :
  Knxnet.TunnellingInfoDIB_Unpack Knxnet.TunnellingInfoDIB_zero
    [12; 7; 0; 254; 17; 1; 0; 0; 17; 2; 0; 1]
  = Ok (Knxnet.mkTunnellingInfoDIB 7 254
          [Knxnet.mkTunnellingSlot 4353 0; Knxnet.mkTunnellingSlot 4354 1],
        12%nat).
Proof. reflexivity. Qed.

(** ** The heterogeneous parsers *)

Lemma dispatch_unknown di ty blk :
  Knxnet.DIB_new ty = None ->
  Knxnet.DescriptionBlock_dispatch di ty blk = None.
Proof.
  unfold Knxnet.DIB_new, Knxnet.DescriptionBlock_dispatch.
  destruct di.
  repeat (destruct (ty =? _); [discriminate|]). reflexivity.
Qed.

(** DescriptionBlock.Unpack steps over a block of unknown type by its
    declared length. *)
Lemma DescriptionBlock_skips_unknown fuel di data n L ty rest :
  drop n data = L :: ty :: rest ->
  Knxnet.DIB_new ty = None ->
  Knxnet.DescriptionBlock_loop (S fuel) di data n
  = Knxnet.DescriptionBlock_loop fuel di data (n + Z.to_nat L).
Proof.
  intros Hdrop Hty.
  assert (Hn : (n < length data)%nat).
  { apply (f_equal length) in Hdrop. rewrite length_drop in Hdrop.
    cbn [length] in Hdrop. lia. }
  cbn [Knxnet.DescriptionBlock_loop].
  destruct (Nat.ltb_spec n (length data)); [|lia].
  rewrite slice_from_le by lia. rewrite Hdrop.
  cbn [mbind outcome_bind Util.unpack_u8 lookup list_lookup].
  rewrite dispatch_unknown by exact Hty. reflexivity.
Qed.

(** When the loop of SearchResExt.Unpack meets a block of unknown type it
    reads the same block again and again: no budget of iterations is enough
    for it to come back. *)
Lemma SearchResExt_loop_unknown fuel dibs data n L ty rest :
  drop n data = L :: ty :: rest ->
  Knxnet.DIB_new ty = None ->
  Knxnet.SearchResExt_loop fuel dibs data n = NoFuel.
Proof.
  intros Hdrop Hty.
  assert (Hn : (n < length data)%nat).
  { apply (f_equal length) in Hdrop. rewrite length_drop in Hdrop.
    cbn [length] in Hdrop. lia. }
  induction fuel as [|fuel IH]; cbn [Knxnet.SearchResExt_loop];
    (destruct (Nat.ltb_spec n (length data)); [|lia]); [reflexivity|].
  rewrite slice_from_le by lia. rewrite Hdrop.
  cbn [mbind outcome_bind Util.unpack_u8 lookup list_lookup].
  rewrite Hty. exact IH.
Qed.

(** C3 (the code at the failing input): SearchResExt.Unpack does not
    return on a payload whose host information is followed by a block of
    unknown type; whatever the budget of iterations, its loop is still
    reading that block. Stated for any HostInfo unpacker that consumes the
    bytes of the host information. *)
Theorem SearchResExt_Unpack_unknown_DIB (HostInfo : Type)
    (HostInfo_Unpack : list Z -> outcome (HostInfo * nat)) (h : HostInfo)
    (hostinfo : list Z) fuel res L ty rest :
  HostInfo_Unpack (hostinfo ++ L :: ty :: rest) = Ok (h, length hostinfo) ->
  Knxnet.DIB_new ty = None ->
  Knxnet.SearchResExt_Unpack HostInfo_Unpack fuel res
    (hostinfo ++ L :: ty :: rest) = NoFuel.
Proof.
  intros Hh Hty. unfold Knxnet.SearchResExt_Unpack. rewrite Hh.
  cbn [mbind outcome_bind].
  rewrite (SearchResExt_loop_unknown fuel _ _ _ L ty rest);
    [reflexivity| |exact Hty].
  apply drop_app_length.
Qed.

Lemma SearchResExt_Unpack_unknown_DIB_witness :
  Knxnet.SearchResExt_Unpack Knxnet.take_HostInfo 1000
    (Knxnet.mkSearchResExt [] [])
    ([8; 1; 192; 168; 1; 10; 14; 87] ++ [2; 255]) = NoFuel.
Proof.
  apply (SearchResExt_Unpack_unknown_DIB (list Z) Knxnet.take_HostInfo
           [8; 1; 192; 168; 1; 10; 14; 87]
           [8; 1; 192; 168; 1; 10; 14; 87] 1000
           (Knxnet.mkSearchResExt [] []) 2 255 []).
  - reflexivity.
  - reflexivity.
Defined.

(** The sibling parser on the same bytes: the unknown block is skipped,
    the blocks around it are unpacked. *)
Example DescriptionBlock_Unpack_unknown_between :
  Knxnet.DescriptionBlock_Unpack 10 Knxnet.DescriptionBlock_zero
    ([4; 2; 2; 1] ++ [3; 255; 9] ++ [8; 8; 1; 0; 0; 254; 7; 176])
  = Ok (match Knxnet.DescriptionBlock_zero with
        | Knxnet.mkDescriptionBlock dev _ ipc ipcc ka sec ti _ md unk =>
            Knxnet.mkDescriptionBlock dev
              (Knxnet.mkSupportedServicesDIB 2 [Knxnet.mkServiceFamily 2 1])
              ipc ipcc ka sec ti
              (Knxnet.mkExtendedDeviceInfoDIB 8 1 0 254 1968) md unk
        end, 15%nat).
Proof. vm_compute. reflexivity. Qed.

(** DescriptionBlock.Unpack itself does not return when an unknown block
    declares length 0. *)
Lemma DescriptionBlock_zero_length_unknown fuel di :
  Knxnet.DescriptionBlock_Unpack fuel di [0; 255] = NoFuel.
Proof.
  unfold Knxnet.DescriptionBlock_Unpack.
  induction fuel as [|fuel IH]; [reflexivity|].
  rewrite (DescriptionBlock_skips_unknown fuel di [0; 255] 0 0 255 [])
    by reflexivity.
  exact IH.
Qed.

(** ** Termination of DescriptionBlock.Unpack *)

Lemma returns_bind {A B} (m : outcome A) (k : A -> outcome B) :
  returns m -> (forall a, m = Ok a -> returns (k a)) -> returns (m ≫= k).
Proof.
  unfold returns. destruct m; cbn; intros Hm Hk; auto; discriminate.
Qed.

Lemma returns_unpack_u8 data n : returns (Util.unpack_u8 data n).
Proof. unfold returns, Util.unpack_u8. destruct (data !! n); discriminate. Qed.

Lemma returns_unpack_u16 data n : returns (Util.unpack_u16 data n).
Proof.
  unfold returns, Util.unpack_u16.
  destruct (data !! n), (data !! S n); discriminate.
Qed.

Lemma returns_unpack_bytes k data n : returns (Util.unpack_bytes k data n).
Proof. unfold returns, Util.unpack_bytes. destruct (decide _); discriminate. Qed.

Lemma returns_slice_from (s : list Z) k : returns (slice_from s k).
Proof. unfold returns, slice_from. destruct (decide _); discriminate. Qed.

Lemma returns_slice (s : list Z) a b : returns (slice s a b).
Proof.
  unfold returns, slice. destruct (decide _); [|discriminate].
  destruct (decide _); discriminate.
Qed.

Lemma returns_if {A} (b : bool) (x y : outcome A) :
  returns x -> returns y -> returns (if b then x else y).
Proof. destruct b; auto. Qed.

Lemma returns_Ok {A} (a : A) : returns (Ok a).
Proof. discriminate. Qed.

Lemma returns_Err {A} e : returns (@Err A e).
Proof. discriminate. Qed.

Create HintDb returns.
#[local] Hint Resolve returns_unpack_u8 returns_unpack_u16
  returns_unpack_bytes returns_slice_from returns_slice returns_Ok
  returns_Err : returns.


Lemma unpack_u8_advance data n v n' :
  Util.unpack_u8 data n = Ok (v, n') ->
  n' = S n /\ (n < length data)%nat.
Proof.
  unfold Util.unpack_u8. destruct (data !! n) eqn:E; [|discriminate].
  intros [= <- <-]. split; [reflexivity|].
  apply lookup_lt_is_Some. eauto.
Qed.


Ltac absurd_NoFuel E :=
  exfalso;
  first [ exact (returns_unpack_u8 _ _ E)
        | exact (returns_unpack_u16 _ _ E)
        | exact (returns_unpack_bytes _ _ _ E) ].




















(** ** Transport units: what unpack returns, and payloads of any length *)

Lemma unpack_app_head L c d2 rest :
  (Z.land c (Z.shiftl 1 7) =? Z.shiftl 1 7) = false ->
  Cemi.unpackTransportUnit (L :: c :: d2 :: rest)
  = if L + 2 <? len (L :: c :: d2 :: rest) then Err ErrUnexpectedEOF
    else
      if Cemi.is_ext_prefix (Cemi.prefix_of (Z.land c 3) d2) then
        appData ← make (L - 1);
        Ok (Cemi.UAppData
              (Cemi.mkAppData (Z.land c (Z.shiftl 1 6) =? Z.shiftl 1 6)
                 (Z.land (Z.shiftr c 2) 15)
                 (Z.lor (uint16 (Z.shiftl
                           (Cemi.prefix_of (Z.land c 3) d2) 6)) d2)
                 (copy appData rest)), L + 2)
      else
        appData ← make L;
        appData ← and_idx 0 63 (copy appData (d2 :: rest));
        Ok (Cemi.UAppData
              (Cemi.mkAppData (Z.land c (Z.shiftl 1 6) =? Z.shiftl 1 6)
                 (Z.land (Z.shiftr c 2) 15)
                 (uint16 (Z.shiftl (Cemi.prefix_of (Z.land c 3) d2) 6))
                 appData), L + 2).
Proof.
  intros Hc. unfold Cemi.unpackTransportUnit.
  assert (Hlen : len (L :: c :: d2 :: rest) = len rest + 3)
    by (unfold len; simpl length; lia).
  assert (Hr : 0 <= len rest) by (unfold len; lia).
  destruct (Z.ltb_spec (len (L :: c :: d2 :: rest)) 2); [lia|].
  destruct (Z.ltb_spec (len (L :: c :: d2 :: rest)) 3); [lia|]. cbn [orb].
  cbn [idx lookup list_lookup mbind outcome_bind]. rewrite Hc.
  destruct (L + 2 <? len (L :: c :: d2 :: rest)); [reflexivity|].
  rewrite !slice_from_le by (simpl; lia).
  unfold Cemi.is_ext_prefix, Cemi.prefix_of.
  destruct (_ || _); destruct (make _); reflexivity.
Qed.

Lemma is_bytes_copy dst src :
  is_bytes dst -> is_bytes src -> is_bytes (copy dst src).
Proof.
  intros Hd Hs. unfold copy, is_bytes in *. apply Forall_app. split.
  - apply Forall_take. exact Hs.
  - apply Forall_drop. exact Hd.
Qed.

Lemma is_bytes_zeros k : is_bytes (replicate k 0).
Proof. apply Forall_replicate. unfold is_byte. lia. Qed.

Lemma land_63_byte x : is_byte (Z.land x 63).
Proof.
  assert (H : Z.land x 63 = x mod 64)
    by (change 63 with (Z.ones 6) at 1; rewrite Z.land_ones by lia; reflexivity).
  unfold is_byte. rewrite H. pose proof (Z.mod_pos_bound x 64 eq_refl). lia.
Qed.

Lemma unpack_command_decodable hi d2 :
  0 <= hi < 4 -> is_byte d2 ->
  let p := Cemi.prefix_of hi d2 in
  let std := uint16 (Z.shiftl p 6) in
  let ext := Z.lor (uint16 (Z.shiftl p 6)) d2 in
  if Cemi.is_ext_prefix p
  then 0 <= ext < 1024 /\ Cemi.decodable ext = true
       /\ Cemi.IsStandardCommand ext = false
  else 0 <= std < 1024 /\ Cemi.IsStandardCommand std = true.
Proof.
  intros Hhi Hd.
  assert (H : all_below 4 (fun hi =>
                all_below 256 (fun d2 =>
                  let p := Cemi.prefix_of hi d2 in
                  let std := uint16 (Z.shiftl p 6) in
                  let ext := Z.lor (uint16 (Z.shiftl p 6)) d2 in
                  if Cemi.is_ext_prefix p
                  then (0 <=? ext) && (ext <? 1024) && Cemi.decodable ext
                       && negb (Cemi.IsStandardCommand ext)
                  else (0 <=? std) && (std <? 1024)
                       && Cemi.IsStandardCommand std)) = true)
    by (vm_compute; reflexivity).
  pose proof (all_below_spec _ _ (all_below_spec _ _ H hi Hhi) d2 Hd) as Hc.
  cbv beta zeta in Hc |- *.
  destruct (Cemi.is_ext_prefix (Cemi.prefix_of hi d2)).
  - rewrite !andb_true_iff, negb_true_iff, Z.leb_le, Z.ltb_lt in Hc. tauto.
  - rewrite !andb_true_iff, Z.leb_le, Z.ltb_lt in Hc. tauto.
Qed.

Lemma land_3_range x : 0 <= Z.land x 3 < 4.
Proof. destruct (land_3_cases x) as [E|[E|[E|E]]]; rewrite E; lia. Qed.

(** X4: whatever bytes come in, an AppData that unpackTransportUnit returns
    has a four-bit sequence number, a ten-bit command that Pack encodes the
    way it was read (standard, or under the UserMessage or Escape prefix),
    a payload of bytes whose length is the length byte (less one after a
    non-standard command), and the count of bytes reported is the length
    byte plus two. *)
Theorem unpack_AppData_invariants data app n :
  is_bytes data ->
  Cemi.unpackTransportUnit data = Ok (Cemi.UAppData app, n) ->
  0 <= Cemi.app_SeqNumber app < 16
  /\ 0 <= Cemi.app_Command app < 1024
  /\ Cemi.decodable (Cemi.app_Command app) = true
  /\ is_bytes (Cemi.app_Data app)
  /\ exists L, data !! 0%nat = Some L /\ 1 <= L /\ n = L + 2
       /\ len (Cemi.app_Data app)
          = if Cemi.IsStandardCommand (Cemi.app_Command app) then L
            else L - 1.
Proof.
  intros Hb Hu.
  destruct data as [|L [|c [|d2 rest]]]; try discriminate Hu.
  - unfold Cemi.unpackTransportUnit in Hu.
    change (len [L; c] <? 2) with false in Hu.
    cbn [idx lookup list_lookup mbind outcome_bind] in Hu.
    destruct (Z.land c (Z.shiftl 1 7) =? Z.shiftl 1 7); [|discriminate Hu].
    injection Hu as Hu _. revert Hu.
    destruct (land_3_cases c) as [E|[E|[E|E]]]; rewrite E; discriminate.
  - destruct (Z.land c (Z.shiftl 1 7) =? Z.shiftl 1 7) eqn:Hc.
    + unfold Cemi.unpackTransportUnit in Hu.
      replace (len (L :: c :: d2 :: rest) <? 2) with false in Hu
        by (symmetry; apply Z.ltb_ge; unfold len; simpl length; lia).
      cbn [idx lookup list_lookup mbind outcome_bind] in Hu. rewrite Hc in Hu.
      injection Hu as Hu _. revert Hu.
      destruct (land_3_cases c) as [E|[E|[E|E]]]; rewrite E; discriminate.
    + rewrite (unpack_app_head L c d2 rest Hc) in Hu.
      assert (Hlen : len (L :: c :: d2 :: rest) = len rest + 3)
        by (unfold len; simpl length; lia).
      assert (Hr : 0 <= len rest) by (unfold len; lia).
      destruct (Z.ltb_spec (L + 2) (len (L :: c :: d2 :: rest))) as [|HL];
        [discriminate Hu|].
      assert (HL1 : 1 <= L) by lia.
      inversion Hb as [|? ? HbL Hb1]; subst.
      inversion Hb1 as [|? ? Hbc Hb2]; subst.
      inversion Hb2 as [|? ? Hbd Hbr]; subst.
      pose proof (unpack_command_decodable (Z.land c 3) d2 (land_3_range c) Hbd)
        as Hcmd. cbv zeta in Hcmd.
      destruct (Cemi.is_ext_prefix (Cemi.prefix_of (Z.land c 3) d2)).
      * rewrite make_nonneg in Hu by lia. cbn [mbind outcome_bind] in Hu.
        injection Hu as <- <-.
        cbn [Cemi.app_SeqNumber Cemi.app_Command Cemi.app_Data].
        destruct Hcmd as (Hrange & Hdec & Hstd). rewrite Hstd.
        split; [apply land_15_range|]. split; [exact Hrange|].
        split; [exact Hdec|].
        split; [apply is_bytes_copy; [apply is_bytes_zeros|exact Hbr]|].
        exists L. split; [reflexivity|]. split; [exact HL1|].
        split; [reflexivity|].
        unfold len. rewrite copy_length, length_replicate. lia.
      * rewrite make_nonneg in Hu by lia. cbn [mbind outcome_bind] in Hu.
        destruct (copy (replicate (Z.to_nat L) 0) (d2 :: rest))
          as [|x xs] eqn:E.
        { apply (f_equal length) in E. rewrite copy_length in E.
          rewrite length_replicate in E. simpl in E. lia. }
        rewrite and_idx_0 in Hu. cbn [mbind outcome_bind] in Hu.
        injection Hu as <- <-.
        cbn [Cemi.app_SeqNumber Cemi.app_Command Cemi.app_Data].
        destruct Hcmd as (Hrange & Hstd). rewrite Hstd.
        split; [apply land_15_range|]. split; [exact Hrange|].
        split; [unfold Cemi.decodable; rewrite Hstd; reflexivity|].
        assert (Hcp : is_bytes (x :: xs)).
        { rewrite <- E. apply is_bytes_copy; [apply is_bytes_zeros|].
          constructor; assumption. }
        split.
        { inversion Hcp; subst. constructor; [apply land_63_byte|assumption]. }
        exists L. split; [reflexivity|]. split; [exact HL1|].
        split; [reflexivity|].
        apply (f_equal length) in E. rewrite copy_length in E.
        rewrite length_replicate in E. unfold len. simpl length in *. lia.
Qed.

Lemma unpack_AppData_invariants_witness :
  0 <= 7 < 16
  /\ 0 <= Cemi.PropertyValueRead < 1024
  /\ Cemi.decodable Cemi.PropertyValueRead = true
  /\ is_bytes [1; 200; 3]
  /\ exists L, [4; 95; 213; 1; 200; 3] !! 0%nat = Some L /\ 1 <= L
       /\ 6 = L + 2
       /\ len [1; 200; 3]
          = if Cemi.IsStandardCommand Cemi.PropertyValueRead then L
            else L - 1.
Proof.
  apply (unpack_AppData_invariants [4; 95; 213; 1; 200; 3]
           (Cemi.mkAppData true 7 Cemi.PropertyValueRead [1; 200; 3]) 6).
  - repeat constructor; unfold is_byte; lia.
  - reflexivity.
Defined.

(** X3: a control unit never comes out of unpackTransportUnit as a plain
    ControlData: the two command bits select one of the four named
    variants, so the default case of the switch is never taken; two bytes
    are reported consumed, and Connect and Disconnect come back unnumbered
    with sequence number 0 whatever the numbered and sequence bits of the
    input say. *)
Theorem unpack_control_variant data u n c :
  Cemi.unpackTransportUnit data = Ok (u, n) ->
  Cemi.control_of u = Some c ->
  n = 2
  /\ (exists d1, data !! 1%nat = Some d1
        /\ Cemi.ctl_Command c = Z.land d1 3
        /\ u = (if Cemi.ctl_Command c =? Cemi.Connect then Cemi.TConnect
                else if Cemi.ctl_Command c =? Cemi.Disconnect
                     then Cemi.TDisconnect
                else if Cemi.ctl_Command c =? Cemi.Ack
                     then Cemi.TAck (Z.land (Z.shiftr d1 2) 15)
                else Cemi.TNak (Z.land (Z.shiftr d1 2) 15)))
  /\ (forall c', u <> Cemi.UControlData c').
Proof.
  unfold Cemi.unpackTransportUnit.
  destruct (len data <? 2); [discriminate|].
  destruct data as [|d0 [|d1 rest]];
    cbn [idx lookup list_lookup mbind outcome_bind]; try discriminate.
  destruct (Z.land d1 (Z.shiftl 1 7) =? Z.shiftl 1 7).
  - intros [= <- <-].
    destruct (land_3_cases d1) as [E|[E|[E|E]]]; rewrite E;
      cbn [Z.eqb Pos.eqb Cemi.Connect Cemi.Disconnect Cemi.Ack Cemi.Nak];
      intros [= <-]; (split; [reflexivity|]);
      (split; [exists d1; rewrite E; repeat split; reflexivity
              |intros c'; discriminate]).
  - destruct (_ || _); [discriminate|].
    destruct rest as [|d2 rest];
      cbn [idx lookup list_lookup mbind outcome_bind]; try discriminate.
    destruct (_ || _).
    + destruct (make _); cbn [mbind outcome_bind]; try discriminate.
      destruct (slice_from _ _); cbn [mbind outcome_bind]; try discriminate.
      intros [= <- <-]. discriminate.
    + destruct (make _); cbn [mbind outcome_bind]; try discriminate.
      destruct (slice_from _ _); cbn [mbind outcome_bind]; try discriminate.
      destruct (and_idx _ _ _); cbn [mbind outcome_bind]; try discriminate.
      intros [= <- <-]. discriminate.
Qed.

Lemma unpack_control_variant_witness :
  2 = 2
  /\ (exists d1, [0; 204] !! 1%nat = Some d1
        /\ Cemi.ctl_Command (Cemi.mkControlData false 0 Cemi.Connect)
           = Z.land d1 3
        /\ Cemi.TConnect
           = (if Cemi.ctl_Command (Cemi.mkControlData false 0 Cemi.Connect)
                 =? Cemi.Connect then Cemi.TConnect
              else if Cemi.ctl_Command (Cemi.mkControlData false 0 Cemi.Connect)
                      =? Cemi.Disconnect
                   then Cemi.TDisconnect
              else if Cemi.ctl_Command (Cemi.mkControlData false 0 Cemi.Connect)
                      =? Cemi.Ack
                   then Cemi.TAck (Z.land (Z.shiftr d1 2) 15)
              else Cemi.TNak (Z.land (Z.shiftr d1 2) 15)))
  /\ (forall c', Cemi.TConnect <> Cemi.UControlData c').
Proof.
  apply (unpack_control_variant [0; 204] Cemi.TConnect 2
           (Cemi.mkControlData false 0 Cemi.Connect)); reflexivity.
Defined.

(** X7: T_ACK and T_NAK carry the low four bits of the sequence number they
    are built with: for every uint8 value the packed unit unpacks to the
    same variant with the sequence number taken modulo 16. *)
Theorem TAck_TNak_roundtrip_mod_16 s :
  is_byte s ->
  Cemi.unpack_pack (Cemi.TAck s) = Ok (Cemi.TAck (s mod 16), 2)
  /\ Cemi.unpack_pack (Cemi.TNak s) = Ok (Cemi.TNak (s mod 16), 2).
Proof.
  intros Hs.
  pose (same := fun (c : Cemi.ControlData) (n cmd s : Z) =>
          Cemi.ctl_Numbered c && (Cemi.ctl_SeqNumber c =? s mod 16)
          && (Cemi.ctl_Command c =? cmd) && (n =? 2)).
  assert (Hsame : forall c n cmd s, same c n cmd s = true ->
            c = Cemi.mkControlData true (s mod 16) cmd /\ n = 2).
  { intros [nb a cmd'] n cmd s'. unfold same. simpl.
    rewrite !andb_true_iff, !Z.eqb_eq. intros [[[-> ->] ->] ->]. auto. }
  assert (H : all_below 256 (fun s =>
                match Cemi.unpack_pack (Cemi.TAck s),
                      Cemi.unpack_pack (Cemi.TNak s) with
                | Ok (Cemi.UControlAck a, n), Ok (Cemi.UControlNak b, m) =>
                    same a n Cemi.Ack s && same b m Cemi.Nak s
                | _, _ => false
                end) = true) by (vm_compute; reflexivity).
  pose proof (all_below_spec _ _ H s Hs) as Hc. cbv beta in Hc.
  destruct (Cemi.unpack_pack (Cemi.TAck s)) as [[[| | | |a|] n]| | |];
    try discriminate Hc.
  destruct (Cemi.unpack_pack (Cemi.TNak s)) as [[[| | | | |b] m]| | |];
    try discriminate Hc.
  apply andb_true_iff in Hc as [Ha Hb].
  apply Hsame in Ha as [-> ->]. apply Hsame in Hb as [-> ->].
  split; reflexivity.
Qed.

Lemma TAck_TNak_roundtrip_mod_16_witness :
  Cemi.unpack_pack (Cemi.TAck 21) = Ok (Cemi.TAck (21 mod 16), 2)
  /\ Cemi.unpack_pack (Cemi.TNak 21) = Ok (Cemi.TNak (21 mod 16), 2).
Proof. apply (TAck_TNak_roundtrip_mod_16 21). unfold is_byte. lia. Defined.

Lemma copy_take_dst dst (src : list Z) :
  copy dst src = copy dst (take (length dst) src).
Proof.
  unfold copy. rewrite take_take, Nat.min_id, length_take.
  destruct (Nat.le_gt_cases (length dst) (length src)) as [H|H].
  - rewrite Nat.min_l by exact H. rewrite !drop_ge by lia. reflexivity.
  - rewrite Nat.min_r by lia. reflexivity.
Qed.

Lemma clamp_data_len d : len (Cemi.clamp_data d) = Cemi.clamp_len (len d).
Proof.
  unfold Cemi.clamp_data, Cemi.clamp_len, len.
  destruct d as [|x d]; [reflexivity|].
  rewrite length_take. simpl length.
  destruct (Z.ltb_spec 255 (Z.of_nat (S (length d)))).
  - rewrite Nat.min_l by lia. reflexivity.
  - rewrite Nat.min_r by lia.
    destruct (Z.ltb_spec (Z.of_nat (S (length d))) 1); [lia|reflexivity].
Qed.

Lemma clamp_len_range n : 1 <= Cemi.clamp_len n <= 255.
Proof.
  unfold Cemi.clamp_len. destruct (Z.ltb_spec 255 n); [lia|].
  destruct (Z.ltb_spec n 1); lia.
Qed.

Lemma copy_clamp_data d :
  copy (replicate (Z.to_nat (Cemi.clamp_len (len d))) 0) d = Cemi.clamp_data d.
Proof.
  pose proof (clamp_data_len d) as Hl. pose proof (clamp_len_range (len d)) as Hr.
  destruct d as [|x d].
  - reflexivity.
  - rewrite copy_take_dst, length_replicate.
    replace (take (Z.to_nat (Cemi.clamp_len (len (x :: d)))) (x :: d))
      with (Cemi.clamp_data (x :: d)).
    + replace (Z.to_nat (Cemi.clamp_len (len (x :: d))))
        with (length (Cemi.clamp_data (x :: d))) by (unfold len in *; lia).
      apply copy_zeros_exact.
    + unfold Cemi.clamp_data.
      unfold Cemi.clamp_len in *. unfold len in *.
      destruct (Z.ltb_spec 255 (Z.of_nat (length (x :: d)))).
      * reflexivity.
      * destruct (Z.ltb_spec (Z.of_nat (length (x :: d))) 1);
          [simpl length in *; lia|].
        rewrite Nat2Z.id. rewrite !take_ge by (simpl length in *; lia).
        reflexivity.
Qed.

(** The wire image of an AppData depends on its payload only through the
    clamped payload. *)
Lemma AllocAndPack_clamp nb s a d :
  Cemi.AllocAndPack (Cemi.UAppData (Cemi.mkAppData nb s a d))
  = Cemi.AllocAndPack
      (Cemi.UAppData (Cemi.mkAppData nb s a (Cemi.clamp_data d))).
Proof.
  assert (Hcopy : forall d,
    Cemi.AllocAndPack (Cemi.UAppData (Cemi.mkAppData nb s a d))
    = if Cemi.IsStandardCommand a then
        match Cemi.clamp_data d with
        | d0 :: ds =>
            Ok (byte (Cemi.clamp_len (len d)) :: Cemi.packed_control nb s a
                :: Cemi.packed_std_byte a d0 :: ds)
        | [] => Panic
        end
      else
        Ok (byte (Cemi.clamp_len (len d) + 1) :: Cemi.packed_control nb s a
            :: Cemi.packed_ext_byte a :: Cemi.clamp_data d)).
  { clear d. intros d.
    pose proof (clamp_len_range (len d)) as Hr.
    unfold Cemi.AllocAndPack, Cemi.Size, Cemi.Pack, Cemi.AppData_Size,
      Cemi.AppData_Pack.
    cbn [Cemi.app_Command Cemi.app_Data Cemi.app_Numbered Cemi.app_SeqNumber].
    destruct (Cemi.IsStandardCommand a); cbn [negb].
    - replace (Z.to_nat (2 + Cemi.clamp_len (len d)))
        with (S (S (Z.to_nat (Cemi.clamp_len (len d))))) by lia.
      cbn [replicate]. rewrite set_idx_0. cbn [mbind outcome_bind].
      pose proof (copy_clamp_data d) as Hc.
      destruct nb; rewrite ?or_idx_1; cbn [mbind outcome_bind];
        rewrite or_idx_1; cbn [mbind outcome_bind];
        rewrite copy_at_2, Hc; cbn [mbind outcome_bind];
        (destruct (Cemi.clamp_data d) as [|d0 ds] eqn:E;
         [apply (f_equal length) in E; pose proof (clamp_data_len d) as Hl;
          unfold len in Hl, Hr; rewrite E in Hl; simpl in Hl; lia|]);
        rewrite and_idx_2; cbn [mbind outcome_bind];
        rewrite or_idx_2; reflexivity.
    - replace (Z.to_nat (2 + 1 + Cemi.clamp_len (len d)))
        with (S (S (S (Z.to_nat (Cemi.clamp_len (len d)))))) by lia.
      cbn [replicate]. rewrite set_idx_0. cbn [mbind outcome_bind].
      destruct nb; rewrite ?or_idx_1; cbn [mbind outcome_bind];
        rewrite or_idx_1; cbn [mbind outcome_bind];
        rewrite set_idx_2; cbn [mbind outcome_bind];
        rewrite copy_at_3, copy_clamp_data; reflexivity. }
  rewrite (Hcopy d), (Hcopy (Cemi.clamp_data d)).
  assert (Hidem : Cemi.clamp_data (Cemi.clamp_data d) = Cemi.clamp_data d).
  { unfold Cemi.clamp_data. destruct d as [|x d]; [reflexivity|].
    cbn [take]. rewrite take_take. f_equal. }
  rewrite Hidem.
  assert (Hlen : Cemi.clamp_len (len (Cemi.clamp_data d))
                 = Cemi.clamp_len (len d)).
  { rewrite <- !clamp_data_len, Hidem. reflexivity. }
  rewrite Hlen. reflexivity.
Qed.

(** X6: AppData.Pack sends the first 255 bytes of a longer payload and one
    zero byte for an empty one, and that is what comes back: for a command
    that is standard, or under the UserMessage or Escape prefix with at most
    254 payload bytes, unpacking the packed unit gives the command, the
    clamped payload (its first byte masked to six bits for a standard
    command) and Size as the count of bytes. *)
Theorem AppData_roundtrip_clamped nb s a d :
  0 <= s < 16 -> 0 <= a < 1024 -> is_bytes d ->
  Cemi.IsStandardCommand a = true
  \/ ((Z.shiftr a 6 = Cemi.PrefixUserMessage
       \/ Z.shiftr a 6 = Cemi.PrefixEscape) /\ len d <= 254) ->
  Cemi.AllocAndPack (Cemi.UAppData (Cemi.mkAppData nb s a d))
  = Cemi.AllocAndPack
      (Cemi.UAppData (Cemi.mkAppData nb s a (Cemi.clamp_data d)))
  /\ Cemi.unpack_pack (Cemi.UAppData (Cemi.mkAppData nb s a d))
     = Ok (Cemi.UAppData
             (Cemi.mkAppData nb (if nb then s else 0) a
                (Cemi.masked_data a (Cemi.clamp_data d))),
           Cemi.AppData_Size (Cemi.mkAppData nb s a d)).
Proof.
  intros Hs Ha Hd Hcase. split; [apply AllocAndPack_clamp|].
  unfold Cemi.unpack_pack. rewrite AllocAndPack_clamp.
  pose proof (clamp_data_len d) as Hl.
  pose proof (clamp_len_range (len d)) as Hr.
  assert (Hd' : is_bytes (Cemi.clamp_data d)).
  { unfold Cemi.clamp_data. destruct d as [|x d].
    - repeat constructor; unfold is_byte; lia.
    - apply Forall_take. exact Hd. }
  assert (Hsize : forall d', Cemi.AppData_Size (Cemi.mkAppData nb s a d')
                  = (if Cemi.IsStandardCommand a then 2 else 3)
                    + Cemi.clamp_len (len d')).
  { intros d'. unfold Cemi.AppData_Size. cbn [Cemi.app_Command Cemi.app_Data].
    destruct (Cemi.IsStandardCommand a); reflexivity. }
  rewrite Hsize.
  assert (Hl254 : len d <= 254 -> len (Cemi.clamp_data d) <= 254).
  { rewrite Hl. unfold Cemi.clamp_len.
    destruct (Z.ltb_spec 255 (len d)); [lia|].
    destruct (Z.ltb_spec (len d) 1); lia. }
  rewrite <- Hl in Hr |- *. clear Hl.
  remember (Cemi.clamp_data d) as d' eqn:Ed'.
  destruct (check_control_fields nb s a Hs Ha) as (C1 & C2 & C3 & C4).
  destruct Hcase as [Hstd|[Hpre Hlen']].
  - destruct d' as [|d0 ds]; [unfold len in Hr; simpl in Hr; lia|].
    rewrite AllocAndPack_standard by (assumption || lia).
    cbn [mbind outcome_bind].
    assert (Hd0 : is_byte d0) by (inversion Hd'; assumption).
    pose proof (check_std_all a d0 Ha Hd0 Hstd) as Hck.
    unfold Cemi.check_std in Hck.
    rewrite !andb_true_iff, negb_true_iff, !Z.eqb_eq in Hck.
    destruct Hck as [[K1 K2] K3].
    rewrite byte_small by lia.
    rewrite unpack_app_standard;
      [ | exact C1 | rewrite C4; exact K1
        | unfold len in *; simpl length in *; lia ].
    rewrite C2, C3, C4, K2, K3.
    unfold Cemi.masked_data. rewrite Hstd. do 2 f_equal. lia.
  - pose proof (ext_prefix_not_standard a Hpre Ha) as Hstd.
    specialize (Hl254 Hlen').
    rewrite AllocAndPack_extended by (assumption || lia).
    cbn [mbind outcome_bind].
    pose proof (check_ext_all a Ha Hpre) as Hck.
    unfold Cemi.check_ext in Hck.
    rewrite andb_true_iff, Z.eqb_eq in Hck. destruct Hck as [K1 K2].
    rewrite byte_small by lia.
    rewrite unpack_app_extended;
      [ | exact C1 | rewrite C4; exact K1 | lia ].
    rewrite C2, C3, C4, K2.
    unfold Cemi.masked_data. rewrite Hstd. do 2 f_equal. lia.
Qed.

Lemma AppData_roundtrip_clamped_witness :
  Cemi.AllocAndPack
    (Cemi.UAppData (Cemi.mkAppData false 0 Cemi.GroupValueRead []))
  = Cemi.AllocAndPack
      (Cemi.UAppData
         (Cemi.mkAppData false 0 Cemi.GroupValueRead (Cemi.clamp_data [])))
  /\ Cemi.unpack_pack
       (Cemi.UAppData (Cemi.mkAppData false 0 Cemi.GroupValueRead []))
     = Ok (Cemi.UAppData
             (Cemi.mkAppData false 0 Cemi.GroupValueRead
                (Cemi.masked_data Cemi.GroupValueRead (Cemi.clamp_data []))),
           Cemi.AppData_Size (Cemi.mkAppData false 0 Cemi.GroupValueRead [])).
Proof.
  apply (AppData_roundtrip_clamped false 0 Cemi.GroupValueRead []).
  - lia.
  - vm_compute. split; [discriminate|reflexivity].
  - constructor.
  - left. reflexivity.
Defined.

(** X1: IsGroupCommand holds exactly for the APCIs below 0b0011000000, and
    the standard commands it accepts are GroupValueRead, GroupValueResponse
    and GroupValueWrite and no other. *)
Theorem IsGroupCommand_spec a :
  0 <= a < 1024 ->
  Cemi.IsGroupCommand a = (a <? 192)
  /\ (Cemi.IsStandardCommand a = true ->
      (Cemi.IsGroupCommand a = true
       <-> a = Cemi.GroupValueRead \/ a = Cemi.GroupValueResponse
           \/ a = Cemi.GroupValueWrite)).
Proof.
  intros Ha.
  assert (H : all_below 1024 (fun a =>
                Bool.eqb (Cemi.IsGroupCommand a) (a <? 192)
                && (negb (Cemi.IsStandardCommand a)
                    || Bool.eqb (Cemi.IsGroupCommand a)
                         ((a =? Cemi.GroupValueRead)
                          || (a =? Cemi.GroupValueResponse)
                          || (a =? Cemi.GroupValueWrite)))) = true)
    by (vm_compute; reflexivity).
  pose proof (all_below_spec _ _ H a Ha) as Hc. cbv beta in Hc.
  apply andb_true_iff in Hc as [H1 H2]. apply eqb_prop in H1.
  split; [exact H1|]. intros Hstd. rewrite Hstd in H2. cbn [negb orb] in H2.
  apply eqb_prop in H2. rewrite H2, !orb_true_iff, !Z.eqb_eq. tauto.
Qed.

Lemma IsGroupCommand_spec_witness :
  Cemi.IsGroupCommand Cemi.GroupValueWrite = (Cemi.GroupValueWrite <? 192)
  /\ (Cemi.IsStandardCommand Cemi.GroupValueWrite = true ->
      (Cemi.IsGroupCommand Cemi.GroupValueWrite = true
       <-> Cemi.GroupValueWrite = Cemi.GroupValueRead
           \/ Cemi.GroupValueWrite = Cemi.GroupValueResponse
           \/ Cemi.GroupValueWrite = Cemi.GroupValueWrite)).
Proof.
  apply (IsGroupCommand_spec Cemi.GroupValueWrite).
  vm_compute. split; [discriminate|reflexivity].
Defined.

(** ** Description blocks and search messages: edge cases *)

(** X8: ManufacturerDataDIB.Unpack takes everything after the four header
    bytes as the data, whatever the length byte says, and then accepts the
    block exactly when the length byte is the length of the input modulo
    256; it reports four bytes consumed. Less than four bytes is short
    input. *)
Theorem ManufacturerDataDIB_Unpack_spec mdib data :
  Knxnet.ManufacturerDataDIB_Unpack mdib data
  = match data with
    | L :: ty :: hi :: lo :: rest =>
        if L =? byte (len data) then
          Ok (Knxnet.mkManufacturerDataDIB ty (Z.lor (Z.shiftl hi 8) lo) rest,
              4%nat)
        else Err ErrInvalidLength
    | _ => Err ErrUnexpectedEOF
    end.
Proof.
  destruct data as [|L [|ty [|hi [|lo rest]]]]; try reflexivity.
  unfold Knxnet.ManufacturerDataDIB_Unpack.
  cbn [Util.unpack_u8 Util.unpack_u16 lookup list_lookup mbind outcome_bind].
  rewrite slice_from_le by (simpl; lia).
  cbn [mbind outcome_bind drop]. rewrite drop_0.
  unfold Knxnet.ManufacturerDataDIB_Size. cbn [Knxnet.md_Data].
  replace (len (L :: ty :: hi :: lo :: rest)) with (4 + len rest)
    by (unfold len; simpl length; lia).
  destruct (L =? byte (4 + len rest)); reflexivity.
Qed.

(** X10: RequestDIBs.Unpack slices [data[2:length]] before it checks the
    length byte: on at least two bytes of input whose length byte is 0 or 1
    it panics (slice bounds out of range) instead of returning an error. *)
Theorem RequestDIBs_Unpack_panics srp L pld rest :
  0 <= L < 2 ->
  Knxnet.RequestDIBs_Unpack srp (L :: pld :: rest) = Panic.
Proof.
  intros HL. unfold Knxnet.RequestDIBs_Unpack, Knxnet.RequestDIBs_Unpack_cap.
  cbn [Util.unpack_u8 lookup list_lookup mbind outcome_bind].
  unfold slice_cap, slice. rewrite decide_False by lia. reflexivity.
Qed.

Lemma RequestDIBs_Unpack_panics_witness :
  Knxnet.RequestDIBs_Unpack (Knxnet.mkRequestDIBs false 0 []) [1; 132; 1; 2]
  = Panic.
Proof. apply (RequestDIBs_Unpack_panics _ 1 132 [1; 2]). lia. Defined.

Lemma ServiceFamily_Unpack_advance sub f nn :
  Knxnet.ServiceFamily_Unpack sub = Ok (f, nn) -> nn = 2%nat.
Proof.
  unfold Knxnet.ServiceFamily_Unpack.
  destruct (Util.unpack_u8 sub 0) as [[ty n]| | |] eqn:E1; try discriminate.
  apply unpack_u8_advance in E1 as [-> _]. cbn [mbind outcome_bind].
  destruct (Util.unpack_u8 sub 1) as [[v n]| | |] eqn:E2; try discriminate.
  apply unpack_u8_advance in E2 as [-> _]. cbn [mbind outcome_bind].
  intros [= _ <-]. reflexivity.
Qed.

(** What the loop of the family lists has done when it ends well: it has
    appended families to those of the receiver, two bytes each, and stopped
    at the first cursor that is not below the length byte. *)
Lemma unpack_families_shape data L : forall fuel n acc fams n',
  Knxnet.unpack_families fuel data L n acc = Ok (fams, n') ->
  exists new,
    fams = acc ++ new
    /\ n' = (n + 2 * length new)%nat
    /\ L <= Z.of_nat n'
    /\ (new <> [] -> Z.of_nat n' < L + 2).
Proof.
  induction fuel as [|fuel IH]; intros n acc fams n'; cbn [Knxnet.unpack_families];
    destruct (Z.ltb_spec (Z.of_nat n) L) as [Hlt|Hge]; try discriminate.
  - intros [= <- <-]. exists []. rewrite app_nil_r.
    split; [reflexivity|]. split; [cbn [length]; lia|]. split; [cbn [length]; lia|].
    intros H. exfalso. apply H. reflexivity.
  - destruct (slice_from data n) as [sub| | |]; cbn [mbind outcome_bind];
      try discriminate.
    destruct (Knxnet.ServiceFamily_Unpack sub) as [[f nn]| | |] eqn:Ef;
      try discriminate.
    apply ServiceFamily_Unpack_advance in Ef as ->.
    intros H. apply IH in H as (new & -> & -> & Hend & Hlast).
    exists (f :: new). rewrite <- app_assoc. cbn [app length].
    split; [reflexivity|]. split; [lia|]. split; [lia|].
    intros _. destruct new as [|g new].
    + cbn [length] in *. lia.
    + assert (Hne : g :: new <> []) by discriminate.
      specialize (Hlast Hne). cbn [length] in *. lia.
  - intros [= <- <-]. exists []. rewrite app_nil_r.
    split; [reflexivity|]. split; [cbn [length]; lia|]. split; [cbn [length]; lia|].
    intros H. exfalso. apply H. reflexivity.
Qed.

(** X9: SupportedServicesDIB.Unpack appends to the families its receiver
    already holds and then compares the length byte with the size of the
    whole list: on a receiver that holds between 1 and 126 families no
    input is accepted. A DescriptionBlock that has taken one such block
    cannot take a second. *)
Theorem SupportedServicesDIB_Unpack_reused sdib data :
  is_bytes data ->
  0 < len (Knxnet.ss_Families sdib) < 127 ->
  is_ok (Knxnet.SupportedServicesDIB_Unpack sdib data) = false.
Proof.
  intros Hb Hk. unfold Knxnet.SupportedServicesDIB_Unpack.
  destruct (Util.unpack_u8 data 0) as [[L n]| | |] eqn:E1; try reflexivity.
  assert (HL : is_byte L).
  { unfold Util.unpack_u8 in E1. destruct (data !! 0%nat) as [v|] eqn:Ev;
      [|discriminate E1]. injection E1 as <- _.
    exact (proj1 (Forall_lookup _ _) Hb _ _ Ev). }
  apply unpack_u8_advance in E1 as [-> _]. cbn [mbind outcome_bind].
  destruct (Util.unpack_u8 data 1) as [[ty n]| | |] eqn:E2; try reflexivity.
  apply unpack_u8_advance in E2 as [-> _]. cbn [mbind outcome_bind].
  destruct (Knxnet.unpack_families _ _ _ _ _) as [[fams n']| | |] eqn:Ef;
    try reflexivity.
  cbn [mbind outcome_bind].
  apply unpack_families_shape in Ef as (new & -> & -> & Hend & Hlast).
  unfold Knxnet.SupportedServicesDIB_Size. cbn [Knxnet.ss_Families].
  rewrite families_Size_eq.
  assert (Hne : L <> byte (2 + 2 * len (Knxnet.ss_Families sdib ++ new))).
  { unfold len in *. rewrite length_app. unfold byte, is_byte in *.
    set (k := length (Knxnet.ss_Families sdib)) in *.
    set (m := length new) in *.
    destruct new as [|g new'].
    - subst m. cbn [length] in *.
      rewrite Z.mod_small by lia. lia.
    - assert (Hnn : g :: new' <> []) by discriminate.
      specialize (Hlast Hnn). fold m in Hlast, Hend.
      destruct (Z.lt_ge_cases (2 + 2 * Z.of_nat (k + m)) 256) as [Hs|Hs].
      + rewrite Z.mod_small by lia. lia.
      + replace (2 + 2 * Z.of_nat (k + m))
          with ((2 + 2 * Z.of_nat (k + m) - 256) + 1 * 256) by lia.
        rewrite Z.mod_add by lia. rewrite Z.mod_small by lia. lia. }
  destruct (Z.eqb_spec L (byte (2 + 2 * len (Knxnet.ss_Families sdib ++ new))));
    [contradiction|reflexivity].
Qed.

Lemma SupportedServicesDIB_Unpack_reused_witness :
  is_ok (Knxnet.SupportedServicesDIB_Unpack
           (Knxnet.mkSupportedServicesDIB 2 [Knxnet.mkServiceFamily 2 1])
           [4; 2; 4; 2]) = false.
Proof.
  apply (SupportedServicesDIB_Unpack_reused
           (Knxnet.mkSupportedServicesDIB 2 [Knxnet.mkServiceFamily 2 1])
           [4; 2; 4; 2]).
  - repeat constructor; unfold is_byte; lia.
  - vm_compute. split; reflexivity.
Defined.

Lemma returns_SRP_Unpack srp blk spare :
  returns (Knxnet.SRP_Unpack_cap srp blk spare).
Proof.
  destruct srp as [p|p|p|p]; cbn [Knxnet.SRP_Unpack_cap];
    unfold Knxnet.SelectProgMode_Unpack, Knxnet.SelectMACAddr_Unpack,
      Knxnet.SelectSrvSRP_Unpack, Knxnet.RequestDIBs_Unpack_cap, slice_cap;
    repeat (apply returns_bind;
            [first [apply returns_unpack_u8 | apply returns_unpack_bytes
                   | apply returns_slice | idtac]
            |first [intros [? ?] _ | intros ? _]]);
    try (apply returns_if; [apply returns_Err|apply returns_Ok]);
    try apply returns_Ok.
Qed.

Lemma SearchReqExt_loop_returns data spare L : forall fuel params n,
  (length data + 2 <= fuel + n)%nat -> (1 <= fuel)%nat ->
  returns (Knxnet.SearchReqExt_loop fuel params data spare L n).
Proof.
  induction fuel as [|fuel IH]; intros params n Hfuel H1; [lia|].
  cbn [Knxnet.SearchReqExt_loop].
  destruct (Z.of_nat n <? L); try apply returns_Ok.
  apply returns_bind; [apply returns_slice_from|]. intros sub Hsub.
  unfold slice_from in Hsub.
  destruct (decide (n <= length data)%nat) as [Hn|]; [|discriminate Hsub].
  injection Hsub as <-.
  destruct (Util.unpack_u8 (drop n data) 0) as [[pl k]| | |] eqn:E1;
    cbn [mbind outcome_bind]; try discriminate;
    [|absurd_NoFuel E1].
  apply unpack_u8_advance in E1 as [-> _].
  destruct (Util.unpack_u8 (drop n data) 1) as [[ty k]| | |] eqn:E2;
    cbn [mbind outcome_bind]; try discriminate;
    [|absurd_NoFuel E2].
  apply unpack_u8_advance in E2 as [-> H2].
  rewrite length_drop in H2.
  destruct (Knxnet.SRP_new ty) as [param|].
  - cbv zeta. unfold slice_cap.
    apply returns_bind; [apply returns_slice|]. intros blk _.
    apply returns_bind; [apply returns_SRP_Unpack|]. intros [p nn] _.
    apply IH; lia.
  - apply IH; lia.
Qed.

Lemma returns_take_HostInfo sub : returns (Knxnet.take_HostInfo sub).
Proof.
  unfold Knxnet.take_HostInfo.
  apply returns_bind; [apply returns_unpack_bytes|]. intros [raw n] _.
  apply returns_Ok.
Qed.

(** A parameter block is bounded by the capacity of the payload, not by
    its own length byte: here the RequestDIBs header declares a block of two
    bytes, and RequestDIBs.Unpack reads its two description types from the
    bytes after the block. *)
Example SearchReqExt_Unpack_past_block :
  Knxnet.SearchReqExt_Unpack Knxnet.take_HostInfo 16
    [15; 8; 1; 192; 168; 1; 10; 14; 87; 2; 4; 4; 132; 1; 2] []
  = Ok (Knxnet.mkSearchReqExt [8; 1; 192; 168; 1; 10; 14; 87]
          [Knxnet.SRP_RequestDIBs (Knxnet.mkRequestDIBs true 4 [1; 2])],
        15%nat)
  /\ Knxnet.SearchReqExt_Unpack Knxnet.take_HostInfo 14
       [13; 8; 1; 192; 168; 1; 10; 14; 87; 2; 4; 4; 132] [1; 2]
     = Ok (Knxnet.mkSearchReqExt [8; 1; 192; 168; 1; 10; 14; 87]
             [Knxnet.SRP_RequestDIBs (Knxnet.mkRequestDIBs true 4 [1; 2])],
           13%nat)
  /\ Knxnet.SearchReqExt_Unpack Knxnet.take_HostInfo 14
       [13; 8; 1; 192; 168; 1; 10; 14; 87; 2; 4; 4; 132] []
     = Panic.
Proof. repeat split. Qed.

(** X16: SearchReqExt.Unpack comes back on every input, whatever the
    capacity of the slice it is handed and whatever lies in it: each turn
    of its loop steps over the two header bytes of a parameter before the
    switch, so also an unsupported parameter type moves the cursor on
    (unlike the loop of SearchResExt.Unpack). A budget of one turn per
    input byte and one more is never used up. *)
Theorem SearchReqExt_Unpack_returns (HostInfo : Type)
    (HostInfo_Unpack : list Z -> outcome (HostInfo * nat)) data spare :
  (forall sub, returns (HostInfo_Unpack sub)) ->
  returns (Knxnet.SearchReqExt_Unpack HostInfo_Unpack (S (length data))
             data spare).
Proof.
  intros Hhost. unfold Knxnet.SearchReqExt_Unpack.
  apply returns_bind; [apply returns_unpack_u8|]. intros [L n] HL.
  apply returns_bind; [apply returns_slice_from|]. intros sub _.
  apply returns_bind; [apply Hhost|]. intros [control nn] _.
  apply returns_if; [apply returns_Err|].
  apply returns_bind; [|intros [params k] _; apply returns_Ok].
  apply SearchReqExt_loop_returns; [|lia].
  apply unpack_u8_advance in HL as [-> _]. lia.
Qed.

Lemma SearchReqExt_Unpack_returns_witness :
  returns (Knxnet.SearchReqExt_Unpack Knxnet.take_HostInfo
             (S (length [13; 8; 1; 192; 168; 1; 10; 14; 87; 2; 4; 4; 132]))
             [13; 8; 1; 192; 168; 1; 10; 14; 87; 2; 4; 4; 132] [1; 2]).
Proof.
  apply (SearchReqExt_Unpack_returns (list Z) Knxnet.take_HostInfo).
  apply returns_take_HostInfo.
Defined.

(** ** Packing into a larger buffer *)

Lemma write_length l w :
  (Util.w_off w <= length (Util.w_buf w))%nat ->
  length (Util.w_buf (Util.write l w)) = length (Util.w_buf w)
  /\ (Util.w_off (Util.write l w) <= length (Util.w_buf (Util.write l w)))%nat.
Proof.
  intros H. unfold Util.write. destruct (Util.w_failed w); [auto|].
  destruct (decide _) as [Hfit|]; [|auto].
  cbn [Util.w_buf Util.w_off].
  rewrite !length_app, length_take, length_drop. lia.
Qed.

Lemma PackSome_length buffer items :
  length (Util.PackSome_ buffer items) = length buffer.
Proof.
  unfold Util.PackSome_, Util.PackSome.
  assert (H : forall w, (Util.w_off w <= length (Util.w_buf w))%nat ->
            length (Util.w_buf
                      (foldl (fun w i => Util.write (Util.encode i) w) w items))
            = length (Util.w_buf w)).
  { induction items as [|i items IH]; intros w Hw; [reflexivity|].
    cbn [foldl]. destruct (write_length (Util.encode i) w Hw) as [Hl Ho].
    rewrite IH by exact Ho. exact Hl. }
  apply (H (Util.mkWriter buffer 0 false)). cbn. lia.
Qed.

Lemma PackSome_frame buffer extra items :
  (length (Util.encode_all items) <= length buffer)%nat ->
  Util.PackSome_ (buffer ++ extra) items
  = Util.PackSome_ buffer items ++ extra.
Proof.
  intros H. rewrite !PackSome_prefix by (rewrite ?length_app; lia).
  rewrite drop_app_le by exact H. rewrite app_assoc. reflexivity.
Qed.

Lemma pack_each_length {A} (pack : A -> list Z -> list Z) size xs :
  (forall x sub, length (pack x sub) = length sub) ->
  forall off b b',
    Knxnet.pack_each pack size xs off b = Ok b' -> length b' = length b.
Proof.
  intros Hpack. induction xs as [|x xs IH]; intros off b b';
    cbn [Knxnet.pack_each].
  - intros [= <-]. reflexivity.
  - unfold slice_from. destruct (decide (off <= length b)%nat) as [Ho|];
      [|discriminate]. cbn [mbind outcome_bind].
    intros H. apply IH in H. rewrite H, length_app, length_take, Hpack,
      length_drop. lia.
Qed.

Lemma pack_each_frame {A} (pack : A -> list Z -> list Z) size xs extra :
  (forall x sub, length (pack x sub) = length sub) ->
  (forall x sub, (size <= length sub)%nat ->
                 pack x (sub ++ extra) = pack x sub ++ extra) ->
  forall off b,
    (off + size * length xs <= length b)%nat ->
    Knxnet.pack_each pack size xs off (b ++ extra)
    = (b' ← Knxnet.pack_each pack size xs off b; Ok (b' ++ extra)).
Proof.
  intros Hlen Hframe. induction xs as [|x xs IH]; intros off b Hfit;
    cbn [Knxnet.pack_each length] in *; [reflexivity|].
  rewrite !slice_from_le by (rewrite ?length_app; lia).
  cbn [mbind outcome_bind].
  rewrite drop_app_le, take_app_le by lia.
  rewrite Hframe by (rewrite length_drop; lia).
  rewrite app_assoc. apply IH.
  rewrite length_app, length_take, Hlen, length_drop. lia.
Qed.

Lemma DIB_Pack_length dib b b' :
  Knxnet.DIB_Pack dib b = Ok b' -> length b' = length b.
Proof.
  destruct dib as [d|d|d|d|d|d|d|d|d]; cbn [Knxnet.DIB_Pack];
    try (intros [= <-]; apply PackSome_length);
    unfold Knxnet.SupportedServicesDIB_Pack, Knxnet.KNXAddrsDIB_Pack,
      Knxnet.SecuredServicesDIB_Pack, Knxnet.TunnellingInfoDIB_Pack;
    intros H; apply pack_each_length in H;
    try (rewrite H; apply PackSome_length);
    intros; apply PackSome_length.
Qed.

Lemma DIB_roundtrip_ok dib :
  Knxnet.DIB_ok dib -> exists n, Knxnet.DIB_unpack_pack dib = Ok (dib, n).
Proof.
  intros Hok. destruct dib as [d|d|d|d|d|d|d|d|d]; eexists.
  - apply DeviceInformationBlock_roundtrip, Hok.
  - apply SupportedServicesDIB_roundtrip, Hok.
  - apply IPConfigDIB_roundtrip, Hok.
  - apply IPCurrentConfigDIB_roundtrip, Hok.
  - apply KNXAddrsDIB_roundtrip, Hok.
  - apply SecuredServicesDIB_roundtrip, Hok.
  - apply TunnellingInfoDIB_roundtrip, Hok.
  - apply ExtendedDeviceInfoDIB_roundtrip.
  - apply ManufacturerDataDIB_roundtrip, Hok.
Qed.

Lemma DIB_wire_unpack dib :
  Knxnet.DIB_ok dib ->
  Knxnet.DIB_AllocAndPack dib = Ok (Knxnet.DIB_wire dib)
  /\ exists n, Knxnet.DIB_Unpack (Knxnet.DIB_zero_like dib) (Knxnet.DIB_wire dib)
               = Ok (dib, n).
Proof.
  intros Hok. destruct (DIB_roundtrip_ok dib Hok) as [n Hn].
  unfold Knxnet.DIB_unpack_pack, Knxnet.DIB_wire in *.
  destruct (Knxnet.DIB_AllocAndPack dib) as [w| | |]; try discriminate Hn.
  split; [reflexivity|]. exists n. exact Hn.
Qed.

Lemma DIB_Size_range dib :
  Knxnet.DIB_ok dib -> 2 <= Knxnet.DIB_Size dib <= 255.
Proof.
  destruct dib as [d|d|d|d|d|d|d|d|d]; cbn [Knxnet.DIB_ok Knxnet.DIB_Size];
    unfold Knxnet.DeviceInformationBlock_Size, Knxnet.IPConfigDIB_Size,
      Knxnet.IPCurrentConfigDIB_Size, Knxnet.ExtendedDeviceInfoDIB_Size,
      Knxnet.SupportedServicesDIB_Size, Knxnet.SecuredServicesDIB_Size,
      Knxnet.KNXAddrsDIB_Size, Knxnet.TunnellingInfoDIB_Size,
      Knxnet.ManufacturerDataDIB_Size; rewrite ?families_Size_eq;
    unfold len; intros H; try lia.
Qed.

Lemma DIB_wire_length dib :
  Knxnet.DIB_ok dib ->
  length (Knxnet.DIB_wire dib) = Z.to_nat (Knxnet.DIB_Size dib).
Proof.
  intros Hok. destruct (DIB_wire_unpack dib Hok) as [Hp _].
  unfold Knxnet.DIB_AllocAndPack in Hp. apply DIB_Pack_length in Hp.
  rewrite Hp, length_replicate. reflexivity.
Qed.

Ltac encode_fits :=
  unfold Util.encode_all; cbn [map concat Util.encode];
  rewrite ?length_app, ?PackSome_length, ?length_replicate; cbn [length];
  unfold Knxnet.friendlyNameMaxLen, Knxnet.ServiceFamily_Size,
    Knxnet.TunnellingSlot_Size, Knxnet.TunnellingInfoDIB_Size,
    Knxnet.KNXAddrsDIB_Size, len in *; lia.

Lemma PackString_length buffer maxLen input :
  length (Util.PackString buffer maxLen input) = length buffer.
Proof.
  unfold Util.PackString. destruct (decide _); [apply PackSome_length|].
  reflexivity.
Qed.

(** Packing a block into a zeroed buffer with room to spare fills the
    first [Size] bytes and leaves the rest alone. *)
Lemma DIB_Pack_frame dib extra :
  Knxnet.DIB_ok dib ->
  Knxnet.DIB_Pack dib
    (replicate (Z.to_nat (Knxnet.DIB_Size dib)) 0 ++ extra)
  = Ok (Knxnet.DIB_wire dib ++ extra).
Proof.
  intros Hok. destruct (DIB_wire_unpack dib Hok) as [Hp _].
  pose proof (DIB_Size_range dib Hok) as Hsz.
  unfold Knxnet.DIB_AllocAndPack in Hp. revert Hp.
  set (w := Knxnet.DIB_wire dib). clearbody w.
  destruct dib as [d|d|d|d|d|d|d|d|d];
    cbn [Knxnet.DIB_Pack Knxnet.DIB_Size Knxnet.DIB_ok] in *.
  - intros [= <-]. f_equal. unfold Knxnet.DeviceInformationBlock_Pack.
    apply PackSome_frame. destruct Hok as (_ & _ & _ & _ & _ & H6 & H4 & Hh & _).
    unfold Util.encode_all; cbn [map concat Util.encode].
    rewrite !length_app, PackString_length, !length_replicate, H6, H4, Hh.
    cbn. lia.
  - unfold Knxnet.SupportedServicesDIB_Pack.
    rewrite PackSome_frame by encode_fits.
    rewrite (pack_each_frame Knxnet.ServiceFamily_Pack).
    + intros ->. reflexivity.
    + intros; apply PackSome_length.
    + intros x sub Hs. apply PackSome_frame. encode_fits.
    + rewrite PackSome_length, length_replicate.
      unfold Knxnet.SupportedServicesDIB_Size in *.
      rewrite families_Size_eq in *. unfold Knxnet.ServiceFamily_Size, len.
      lia.
  - intros [= <-]. f_equal. unfold Knxnet.IPConfigDIB_Pack.
    apply PackSome_frame. destruct Hok as (_ & H1 & H2 & H3 & _).
    unfold Util.encode_all; cbn [map concat Util.encode].
    rewrite !length_app, ?length_replicate, H1, H2, H3. cbn. lia.
  - intros [= <-]. f_equal. unfold Knxnet.IPCurrentConfigDIB_Pack.
    apply PackSome_frame. destruct Hok as (_ & H1 & H2 & H3 & H4 & _).
    unfold Util.encode_all; cbn [map concat Util.encode].
    rewrite !length_app, ?length_replicate, H1, H2, H3, H4. cbn. lia.
  - unfold Knxnet.KNXAddrsDIB_Pack.
    rewrite PackSome_frame by encode_fits.
    rewrite (pack_each_frame (fun addr sub => Util.PackSome_ sub [Util.U16 addr])).
    + intros ->. reflexivity.
    + intros; apply PackSome_length.
    + intros x sub Hs. apply PackSome_frame. encode_fits.
    + rewrite PackSome_length, length_replicate.
      unfold Knxnet.KNXAddrsDIB_Size, len in *. lia.
  - unfold Knxnet.SecuredServicesDIB_Pack.
    rewrite PackSome_frame by encode_fits.
    rewrite (pack_each_frame Knxnet.ServiceFamily_Pack).
    + intros ->. reflexivity.
    + intros; apply PackSome_length.
    + intros x sub Hs. apply PackSome_frame. encode_fits.
    + rewrite PackSome_length, length_replicate.
      unfold Knxnet.SecuredServicesDIB_Size in *.
      rewrite families_Size_eq in *. unfold Knxnet.ServiceFamily_Size, len.
      lia.
  - unfold Knxnet.TunnellingInfoDIB_Pack.
    rewrite PackSome_frame by encode_fits.
    rewrite (pack_each_frame Knxnet.TunnellingSlot_Pack).
    + intros ->. reflexivity.
    + intros; apply PackSome_length.
    + intros x sub Hs. apply PackSome_frame. encode_fits.
    + rewrite PackSome_length, length_replicate.
      unfold Knxnet.TunnellingInfoDIB_Size, Knxnet.TunnellingSlot_Size, len
        in *. lia.
  - intros [= <-]. f_equal.
  - intros [= <-]. f_equal. unfold Knxnet.ManufacturerDataDIB_Pack.
    apply PackSome_frame.
    unfold Util.encode_all; cbn [map concat Util.encode].
    rewrite !length_app, ?length_replicate.
    unfold Knxnet.ManufacturerDataDIB_Size, len in *. cbn [length]. lia.
Qed.

Ltac step_binds H :=
  repeat match type of H with
  | (?m ≫= _) = _ =>
      let x := fresh "x" in
      destruct m as [x| | |]; cbn [mbind outcome_bind] in H;
      [try (destruct x as [? ?])|discriminate H|discriminate H|discriminate H]
  end.

(** A block that a DIB unpacker accepts starts with its own size and its
    type. *)
Lemma DIB_Unpack_header r w d n :
  Knxnet.DIB_Unpack r w = Ok (d, n) ->
  exists rest, w = byte (Knxnet.DIB_Size d) :: Knxnet.DIB_Type d :: rest.
Proof.
  destruct w as [|L [|ty rest]];
    [destruct r; discriminate|destruct r; discriminate|].
  intros H. exists rest.
  destruct r as [r|r|r|r|r|r|r|r|r]; cbn [Knxnet.DIB_Unpack] in H;
    unfold Knxnet.DeviceInformationBlock_Unpack,
      Knxnet.SupportedServicesDIB_Unpack, Knxnet.IPConfigDIB_Unpack,
      Knxnet.IPCurrentConfigDIB_Unpack, Knxnet.KNXAddrsDIB_Unpack,
      Knxnet.SecuredServicesDIB_Unpack, Knxnet.TunnellingInfoDIB_Unpack,
      Knxnet.ExtendedDeviceInfoDIB_Unpack, Knxnet.ManufacturerDataDIB_Unpack
      in H;
    cbn [Util.unpack_u8 lookup list_lookup mbind outcome_bind] in H;
    match type of H with
    | (?m ≫= _) = _ =>
        let E := fresh "E" in
        destruct m as [[d' n']| | |] eqn:E; cbn [mbind outcome_bind] in H;
        try discriminate H; injection H as <- <-;
        step_binds E;
        match type of E with
        | (if negb (?a =? ?b) then _ else _) = _ =>
            destruct (Z.eqb_spec a b) as [->|]; cbn [negb] in E;
            [injection E as <- <-; reflexivity|discriminate E]
        end
    end.
Qed.

Lemma DIB_wire_header dib :
  Knxnet.DIB_sendable dib ->
  exists rest,
    Knxnet.DIB_wire dib
    = Knxnet.DIB_Size dib :: Knxnet.DIB_code dib :: rest.
Proof.
  intros [Hok Hty]. destruct (DIB_wire_unpack dib Hok) as [_ [n Hn]].
  apply DIB_Unpack_header in Hn as [rest Hw]. exists rest.
  rewrite Hw, Hty, byte_small by (pose proof (DIB_Size_range dib Hok); lia).
  reflexivity.
Qed.

Lemma DIB_new_code dib :
  Knxnet.DIB_new (Knxnet.DIB_code dib) = Some (Knxnet.DIB_zero_like dib).
Proof. destruct dib; reflexivity. Qed.

Lemma pack_dibs_wire dibs :
  Forall Knxnet.DIB_ok dibs ->
  forall pre extra,
    Knxnet.pack_dibs dibs (length pre)
      (pre ++ replicate (length (concat (map Knxnet.DIB_wire dibs))) 0
           ++ extra)
    = Ok (pre ++ concat (map Knxnet.DIB_wire dibs) ++ extra).
Proof.
  induction 1 as [|dib dibs Hok _ IH]; intros pre extra;
    cbn [Knxnet.pack_dibs map concat]; [reflexivity|].
  rewrite slice_from_le by (rewrite length_app; lia).
  cbn [mbind outcome_bind].
  rewrite drop_app_length, take_app_length.
  rewrite length_app, replicate_add, <- app_assoc.
  rewrite (DIB_wire_length dib Hok), (DIB_Pack_frame dib _ Hok).
  cbn [mbind outcome_bind].
  rewrite <- (DIB_wire_length dib Hok), <- length_app.
  rewrite (app_assoc pre), IH, <- !app_assoc. reflexivity.
Qed.

Lemma SearchResExt_loop_wire dibs :
  Forall Knxnet.DIB_sendable dibs ->
  forall pre acc fuel,
    (length dibs <= fuel)%nat ->
    Knxnet.SearchResExt_loop fuel acc
      (pre ++ concat (map Knxnet.DIB_wire dibs)) (length pre)
    = Ok (acc ++ dibs,
          (length pre + length (concat (map Knxnet.DIB_wire dibs)))%nat).
Proof.
  induction 1 as [|dib dibs Hs _ IH]; intros pre acc fuel Hfuel.
  - cbn [map concat length]. rewrite !app_nil_r.
    destruct fuel; cbn [Knxnet.SearchResExt_loop];
      rewrite Nat.ltb_irrefl, Nat.add_0_r; reflexivity.
  - destruct fuel as [|fuel]; [cbn [length] in Hfuel; lia|].
    cbn [length] in Hfuel.
    destruct (DIB_wire_header dib Hs) as [rest Hw].
    destruct Hs as [Hok Hty].
    pose proof (DIB_wire_length dib Hok) as Hlen.
    destruct (DIB_wire_unpack dib Hok) as [_ [k Hk]].
    cbn [map concat Knxnet.SearchResExt_loop].
    remember (Knxnet.DIB_wire dib) as w eqn:Ew.
    remember (concat (map Knxnet.DIB_wire dibs)) as tl eqn:Etl.
    assert (H0 : Util.unpack_u8 (w ++ tl) 0 = Ok (Knxnet.DIB_Size dib, 1%nat))
      by (rewrite Hw; reflexivity).
    assert (H1 : Util.unpack_u8 (w ++ tl) 1 = Ok (Knxnet.DIB_code dib, 2%nat))
      by (rewrite Hw; reflexivity).
    assert (Hlt : (length pre <? length (pre ++ w ++ tl))%nat = true).
    { apply Nat.ltb_lt. rewrite !length_app, Hw. cbn [length]. lia. }
    rewrite Hlt, slice_from_le by (rewrite length_app; lia).
    cbn [mbind outcome_bind]. rewrite drop_app_length, H0.
    cbn [mbind outcome_bind]. rewrite H1. cbn [mbind outcome_bind].
    rewrite DIB_new_code.
    rewrite slice_ok by (rewrite ?length_app; lia).
    replace (length pre + Z.to_nat (Knxnet.DIB_Size dib) - length pre)%nat
      with (length w) by lia.
    rewrite drop_app_length, take_app_length. cbn [mbind outcome_bind].
    rewrite Hk. cbn [mbind outcome_bind].
    rewrite <- Hlen, <- length_app, (app_assoc pre w tl).
    rewrite IH by lia. rewrite <- app_assoc, !length_app.
    f_equal. f_equal. lia.
Qed.

Lemma DIB_sizes_sum dibs :
  Forall Knxnet.DIB_ok dibs ->
  forall a,
    foldl (fun size dib => size + Knxnet.DIB_Size dib) a dibs
    = a + len (concat (map Knxnet.DIB_wire dibs)).
Proof.
  induction 1 as [|dib dibs Hok _ IH]; intros a; cbn [foldl map concat].
  - unfold len. cbn [length]. lia.
  - rewrite IH. unfold len. rewrite length_app, (DIB_wire_length dib Hok).
    pose proof (DIB_Size_range dib Hok). lia.
Qed.

(** X14: a SearchResExt round trip. For blocks that fit the wire format and
    carry the description type of their kind, and a HostInfo whose Pack
    fills its Size bytes with what its Unpack reads back, Size is the
    length of the host information plus the sizes of the blocks, Pack on a
    zeroed buffer of Size bytes writes the host information followed by the
    blocks one after the other, and Unpack of those bytes gives back the
    host information and the same blocks in the same order, with all bytes
    consumed. *)
Theorem SearchResExt_roundtrip (HostInfo : Type)
    (HostInfo_Size : HostInfo -> Z)
    (HostInfo_Pack : HostInfo -> list Z -> list Z)
    (HostInfo_Unpack : list Z -> outcome (HostInfo * nat))
    (h h0 : HostInfo) (hw : list Z) (dibs : list Knxnet.DIB) :
  HostInfo_Size h = len hw ->
  (forall buffer, length buffer = length hw -> HostInfo_Pack h buffer = hw) ->
  (forall rest, HostInfo_Unpack (hw ++ rest) = Ok (h, length hw)) ->
  Forall Knxnet.DIB_sendable dibs ->
  Knxnet.SearchResExt_Size HostInfo_Size (Knxnet.mkSearchResExt h dibs)
  = len (hw ++ concat (map Knxnet.DIB_wire dibs))
  /\ Knxnet.SearchResExt_Pack HostInfo_Size HostInfo_Pack
       (Knxnet.mkSearchResExt h dibs)
       (replicate
          (Z.to_nat (Knxnet.SearchResExt_Size HostInfo_Size
                       (Knxnet.mkSearchResExt h dibs))) 0)
     = Ok (hw ++ concat (map Knxnet.DIB_wire dibs))
  /\ Knxnet.SearchResExt_Unpack HostInfo_Unpack (length dibs)
       (Knxnet.mkSearchResExt h0 [])
       (hw ++ concat (map Knxnet.DIB_wire dibs))
     = Ok (Knxnet.mkSearchResExt h dibs,
           length (hw ++ concat (map Knxnet.DIB_wire dibs))).
Proof.
  intros Hsize Hpack Hunpack Hdibs.
  assert (Hok : Forall Knxnet.DIB_ok dibs)
    by (eapply Forall_impl; [exact Hdibs|intros d [H _]; exact H]).
  assert (Hsz : Knxnet.SearchResExt_Size HostInfo_Size
                  (Knxnet.mkSearchResExt h dibs)
                = len (hw ++ concat (map Knxnet.DIB_wire dibs))).
  { unfold Knxnet.SearchResExt_Size. cbn [Knxnet.Control Knxnet.DIBs].
    rewrite (DIB_sizes_sum dibs Hok), Hsize. unfold len.
    rewrite length_app. lia. }
  split; [exact Hsz|]. split.
  - rewrite Hsz. unfold Knxnet.SearchResExt_Pack.
    cbn [Knxnet.Control Knxnet.DIBs]. rewrite Hsize. unfold len.
    rewrite !Nat2Z.id, length_app, replicate_add.
    rewrite slice_ok by (rewrite ?length_app, ?length_replicate; lia).
    cbn [mbind outcome_bind]. rewrite Nat.sub_0_r, drop_0.
    rewrite take_app_length' by (symmetry; apply length_replicate).
    rewrite drop_app_length' by (symmetry; apply length_replicate).
    rewrite Hpack by apply length_replicate.
    rewrite <- (app_nil_r (replicate (length (concat _)) 0)).
    rewrite (pack_dibs_wire dibs Hok hw []), app_nil_r. reflexivity.
  - unfold Knxnet.SearchResExt_Unpack. rewrite Hunpack.
    cbn [mbind outcome_bind Knxnet.DIBs].
    rewrite (SearchResExt_loop_wire dibs Hdibs hw [] (length dibs))
      by reflexivity.
    cbn [mbind outcome_bind app]. rewrite length_app. reflexivity.
Qed.

Lemma take_HostInfo_wire hw rest :
  length hw = 8%nat -> Knxnet.take_HostInfo (hw ++ rest) = Ok (hw, length hw).
Proof.
  intros H. unfold Knxnet.take_HostInfo.
  rewrite unpack_bytes_ok by (rewrite length_app; lia).
  cbn [mbind outcome_bind]. rewrite drop_0, <- H, take_app_length, H.
  reflexivity.
Qed.

Lemma SearchResExt_roundtrip_witness :
  Knxnet.SearchResExt_Size (fun h => len h)
    (Knxnet.mkSearchResExt [8; 1; 192; 168; 1; 10; 14; 87]
       [Knxnet.DIB_ExtendedDeviceInfo
          (Knxnet.mkExtendedDeviceInfoDIB 8 1 0 254 1968);
        Knxnet.DIB_SupportedServices
          (Knxnet.mkSupportedServicesDIB 2 [Knxnet.mkServiceFamily 2 1])])
  = len ([8; 1; 192; 168; 1; 10; 14; 87]
         ++ concat (map Knxnet.DIB_wire
              [Knxnet.DIB_ExtendedDeviceInfo
                 (Knxnet.mkExtendedDeviceInfoDIB 8 1 0 254 1968);
               Knxnet.DIB_SupportedServices
                 (Knxnet.mkSupportedServicesDIB 2
                    [Knxnet.mkServiceFamily 2 1])]))
  /\ Knxnet.SearchResExt_Pack (fun h => len h) (fun h _ => h)
       (Knxnet.mkSearchResExt [8; 1; 192; 168; 1; 10; 14; 87]
          [Knxnet.DIB_ExtendedDeviceInfo
             (Knxnet.mkExtendedDeviceInfoDIB 8 1 0 254 1968);
           Knxnet.DIB_SupportedServices
             (Knxnet.mkSupportedServicesDIB 2 [Knxnet.mkServiceFamily 2 1])])
       (replicate
          (Z.to_nat
             (Knxnet.SearchResExt_Size (fun h => len h)
                (Knxnet.mkSearchResExt [8; 1; 192; 168; 1; 10; 14; 87]
                   [Knxnet.DIB_ExtendedDeviceInfo
                      (Knxnet.mkExtendedDeviceInfoDIB 8 1 0 254 1968);
                    Knxnet.DIB_SupportedServices
                      (Knxnet.mkSupportedServicesDIB 2
                         [Knxnet.mkServiceFamily 2 1])]))) 0)
     = Ok ([8; 1; 192; 168; 1; 10; 14; 87]
           ++ concat (map Knxnet.DIB_wire
                [Knxnet.DIB_ExtendedDeviceInfo
                   (Knxnet.mkExtendedDeviceInfoDIB 8 1 0 254 1968);
                 Knxnet.DIB_SupportedServices
                   (Knxnet.mkSupportedServicesDIB 2
                      [Knxnet.mkServiceFamily 2 1])]))
  /\ Knxnet.SearchResExt_Unpack Knxnet.take_HostInfo 2
       (Knxnet.mkSearchResExt [] [])
       ([8; 1; 192; 168; 1; 10; 14; 87]
        ++ concat (map Knxnet.DIB_wire
             [Knxnet.DIB_ExtendedDeviceInfo
                (Knxnet.mkExtendedDeviceInfoDIB 8 1 0 254 1968);
              Knxnet.DIB_SupportedServices
                (Knxnet.mkSupportedServicesDIB 2
                   [Knxnet.mkServiceFamily 2 1])]))
     = Ok (Knxnet.mkSearchResExt [8; 1; 192; 168; 1; 10; 14; 87]
             [Knxnet.DIB_ExtendedDeviceInfo
                (Knxnet.mkExtendedDeviceInfoDIB 8 1 0 254 1968);
              Knxnet.DIB_SupportedServices
                (Knxnet.mkSupportedServicesDIB 2
                   [Knxnet.mkServiceFamily 2 1])],
           length ([8; 1; 192; 168; 1; 10; 14; 87]
                   ++ concat (map Knxnet.DIB_wire
                        [Knxnet.DIB_ExtendedDeviceInfo
                           (Knxnet.mkExtendedDeviceInfoDIB 8 1 0 254 1968);
                         Knxnet.DIB_SupportedServices
                           (Knxnet.mkSupportedServicesDIB 2
                              [Knxnet.mkServiceFamily 2 1])]))).
Proof.
  apply (SearchResExt_roundtrip (list Z) (fun h => len h) (fun h _ => h)
           Knxnet.take_HostInfo [8; 1; 192; 168; 1; 10; 14; 87] []
           [8; 1; 192; 168; 1; 10; 14; 87]).
  - reflexivity.
  - reflexivity.
  - intros rest. apply take_HostInfo_wire. reflexivity.
  - repeat (apply Forall_cons; split; [|]); [| |apply Forall_nil_2].
    + split; [|reflexivity]. cbn. unfold is_byte, Knxnet.is_u16. lia.
    + split; [|reflexivity]. cbn. split; [unfold is_byte; lia|].
      split; [|vm_compute; discriminate].
      repeat constructor; cbn; unfold is_byte; lia.
Defined.

(** ** DescriptionBlock.Unpack on blocks in any order *)

Lemma dispatch_field di dib blk :
  Knxnet.DescriptionBlock_dispatch di (Knxnet.DIB_code dib) blk
  = Some (b ← blk;
          '(d', _) ← Knxnet.DIB_Unpack (Knxnet.DescriptionBlock_field di dib) b;
          Ok (Knxnet.DescriptionBlock_with di d')).
Proof.
  destruct di as [dev ss ipc ipcc ka sec ti ed md unk].
  destruct dib as [d|d|d|d|d|d|d|d|d];
    cbn [Knxnet.DIB_code Knxnet.DescriptionBlock_dispatch
         Knxnet.DescriptionBlock_field Knxnet.DIB_Unpack
         Knxnet.DeviceHardware Knxnet.SupportedServices Knxnet.IPConfig
         Knxnet.IPCurrentConfig Knxnet.KNXAddrs Knxnet.SecuredServices
         Knxnet.TunnellingInfo Knxnet.ExtendedDeviceInfo
         Knxnet.ManufacturerData];
    repeat match goal with
    | |- context [?a =? ?b] =>
        let r := eval vm_compute in (a =? b) in
        change (a =? b) with r; cbv iota
    end;
    f_equal; destruct blk as [b| | |]; cbn [mbind outcome_bind];
      try reflexivity;
    match goal with
    | |- context [mbind _ ?m] =>
        destruct m as [[d' n]| | |]; reflexivity
    end.
Qed.

Lemma field_zero dib :
  Knxnet.DescriptionBlock_field Knxnet.DescriptionBlock_zero dib
  = Knxnet.DIB_zero_like dib.
Proof. destruct dib; reflexivity. Qed.

Lemma field_with_same di dib :
  Knxnet.DescriptionBlock_field (Knxnet.DescriptionBlock_with di dib) dib
  = dib.
Proof. destruct di, dib; reflexivity. Qed.

Lemma field_with_other di d dib :
  Knxnet.DIB_code d <> Knxnet.DIB_code dib ->
  Knxnet.DescriptionBlock_field (Knxnet.DescriptionBlock_with di d) dib
  = Knxnet.DescriptionBlock_field di dib.
Proof.
  destruct di, d, dib; intros H; try reflexivity; exfalso; apply H;
    reflexivity.
Qed.

Lemma with_comm di a b :
  Knxnet.DIB_code a <> Knxnet.DIB_code b ->
  Knxnet.DescriptionBlock_with (Knxnet.DescriptionBlock_with di a) b
  = Knxnet.DescriptionBlock_with (Knxnet.DescriptionBlock_with di b) a.
Proof.
  destruct di, a, b; intros H; try reflexivity; exfalso; apply H;
    reflexivity.
Qed.

Lemma foldl_with_permutation l l' :
  l ≡ₚ l' -> NoDup (map Knxnet.DIB_code l) ->
  forall di, foldl Knxnet.DescriptionBlock_with di l
             = foldl Knxnet.DescriptionBlock_with di l'.
Proof.
  induction 1 as [|x l l' Hp IH|x y l|l l' l'' Hp1 IH1 Hp2 IH2];
    intros Hnd di; cbn [foldl map] in *.
  - reflexivity.
  - apply IH. apply NoDup_cons in Hnd as [_ Hnd]. exact Hnd.
  - rewrite with_comm; [reflexivity|].
    apply NoDup_cons in Hnd as [Hy _]. intros E. apply Hy. rewrite E.
    apply elem_of_cons. left. reflexivity.
  - rewrite IH1 by exact Hnd. apply IH2.
    assert (Hm : map Knxnet.DIB_code l ≡ₚ map Knxnet.DIB_code l')
      by (apply Permutation_map; exact Hp1).
    rewrite <- Hm. exact Hnd.
Qed.

Lemma field_foldl_other l : forall di dib,
  Knxnet.DIB_code dib ∉ map Knxnet.DIB_code l ->
  Knxnet.DescriptionBlock_field (foldl Knxnet.DescriptionBlock_with di l) dib
  = Knxnet.DescriptionBlock_field di dib.
Proof.
  induction l as [|x l IH]; intros di dib Hn; cbn [foldl map] in *;
    [reflexivity|].
  rewrite IH by (intros H; apply Hn; apply elem_of_cons; right; exact H).
  apply field_with_other. intros E. apply Hn. rewrite E.
  apply elem_of_cons. left. reflexivity.
Qed.

Lemma field_foldl_same l : forall di dib,
  NoDup (map Knxnet.DIB_code l) -> dib ∈ l ->
  Knxnet.DescriptionBlock_field (foldl Knxnet.DescriptionBlock_with di l) dib
  = dib.
Proof.
  induction l as [|x l IH]; intros di dib Hnd Hin; cbn [foldl map] in *.
  - apply elem_of_nil in Hin as [].
  - apply NoDup_cons in Hnd as [Hx Hnd].
    apply elem_of_cons in Hin as [->|Hin].
    + rewrite field_foldl_other by exact Hx. apply field_with_same.
    + apply IH; assumption.
Qed.

Lemma DescriptionBlock_loop_wire dibs :
  Forall Knxnet.DIB_sendable dibs ->
  NoDup (map Knxnet.DIB_code dibs) ->
  forall pre di fuel,
    (length dibs <= fuel)%nat ->
    (forall dib, dib ∈ dibs ->
       Knxnet.DescriptionBlock_field di dib = Knxnet.DIB_zero_like dib) ->
    Knxnet.DescriptionBlock_loop fuel di
      (pre ++ concat (map Knxnet.DIB_wire dibs)) (length pre)
    = Ok (foldl Knxnet.DescriptionBlock_with di dibs,
          (length pre + length (concat (map Knxnet.DIB_wire dibs)))%nat).
Proof.
  induction 1 as [|dib dibs Hs _ IH]; intros Hnd pre di fuel Hfuel Hzero.
  - cbn [map concat length foldl]. rewrite !app_nil_r.
    destruct fuel; cbn [Knxnet.DescriptionBlock_loop];
      rewrite Nat.ltb_irrefl, Nat.add_0_r; reflexivity.
  - destruct fuel as [|fuel]; [cbn [length] in Hfuel; lia|].
    cbn [length] in Hfuel. cbn [map] in Hnd.
    apply NoDup_cons in Hnd as [Hfresh Hnd].
    destruct (DIB_wire_header dib Hs) as [rest Hw].
    destruct Hs as [Hok Hty].
    pose proof (DIB_wire_length dib Hok) as Hlen.
    destruct (DIB_wire_unpack dib Hok) as [_ [k Hk]].
    cbn [map concat Knxnet.DescriptionBlock_loop foldl].
    remember (Knxnet.DIB_wire dib) as w eqn:Ew.
    remember (concat (map Knxnet.DIB_wire dibs)) as tl eqn:Etl.
    assert (H0 : Util.unpack_u8 (w ++ tl) 0 = Ok (Knxnet.DIB_Size dib, 1%nat))
      by (rewrite Hw; reflexivity).
    assert (H1 : Util.unpack_u8 (w ++ tl) 1 = Ok (Knxnet.DIB_code dib, 2%nat))
      by (rewrite Hw; reflexivity).
    assert (Hlt : (length pre <? length (pre ++ w ++ tl))%nat = true).
    { apply Nat.ltb_lt. rewrite !length_app, Hw. cbn [length]. lia. }
    rewrite Hlt, slice_from_le by (rewrite length_app; lia).
    cbn [mbind outcome_bind]. rewrite drop_app_length, H0.
    cbn [mbind outcome_bind]. rewrite H1. cbn [mbind outcome_bind].
    rewrite dispatch_field.
    rewrite slice_ok by (rewrite ?length_app; lia).
    replace (length pre + Z.to_nat (Knxnet.DIB_Size dib) - length pre)%nat
      with (length w) by lia.
    rewrite drop_app_length, take_app_length. cbn [mbind outcome_bind].
    rewrite (Hzero dib) by (apply elem_of_cons; left; reflexivity).
    rewrite Hk. cbn [mbind outcome_bind].
    rewrite <- Hlen, <- length_app, (app_assoc pre w tl).
    rewrite IH; [rewrite !length_app; f_equal; f_equal; lia
                |exact Hnd|lia|].
    intros dib' Hin. rewrite field_with_other.
    + apply Hzero. apply elem_of_cons. right. exact Hin.
    + intros E. apply Hfresh. rewrite E.
      change (Knxnet.DIB_code dib' ∈ Knxnet.DIB_code <$> dibs).
      apply list_elem_of_fmap_2. exact Hin.
Qed.

(** X13: DescriptionBlock.Unpack takes description blocks in any order. For
    blocks of different kinds that fit the wire format and carry the
    description type of their kind, the bytes of the blocks one after the
    other unpack, in whatever order the blocks come, to one and the same
    DescriptionBlock, in which every block sits in the field of its kind;
    all bytes are consumed, with one turn of the loop per block. *)
Theorem DescriptionBlock_Unpack_any_order dibs :
  Forall Knxnet.DIB_sendable dibs ->
  NoDup (map Knxnet.DIB_code dibs) ->
  exists di,
    (forall dibs', dibs' ≡ₚ dibs ->
       Knxnet.DescriptionBlock_Unpack (length dibs)
         Knxnet.DescriptionBlock_zero (concat (map Knxnet.DIB_wire dibs'))
       = Ok (di, length (concat (map Knxnet.DIB_wire dibs'))))
    /\ (forall dib, dib ∈ dibs -> Knxnet.DescriptionBlock_field di dib = dib).
Proof.
  intros Hs Hnd.
  exists (foldl Knxnet.DescriptionBlock_with Knxnet.DescriptionBlock_zero dibs).
  split.
  - intros dibs' Hp. unfold Knxnet.DescriptionBlock_Unpack.
    assert (Hs' : Forall Knxnet.DIB_sendable dibs')
      by (rewrite Hp; exact Hs).
    assert (Hnd' : NoDup (map Knxnet.DIB_code dibs')).
    { assert (Hm : map Knxnet.DIB_code dibs' ≡ₚ map Knxnet.DIB_code dibs)
        by (apply Permutation_map; exact Hp).
      rewrite Hm. exact Hnd. }
    pose proof (DescriptionBlock_loop_wire dibs' Hs' Hnd' []
                  Knxnet.DescriptionBlock_zero (length dibs)) as Hrun.
    cbn [app length Nat.add] in Hrun. rewrite Hrun.
    + rewrite (foldl_with_permutation dibs' dibs Hp Hnd'). reflexivity.
    + rewrite Hp. reflexivity.
    + intros dib _. apply field_zero.
  - intros dib Hin. apply field_foldl_same; assumption.
Qed.

Lemma DescriptionBlock_Unpack_any_order_witness :
  exists di,
    (forall dibs',
       dibs' ≡ₚ [Knxnet.DIB_SupportedServices
                   (Knxnet.mkSupportedServicesDIB 2
                      [Knxnet.mkServiceFamily 2 1; Knxnet.mkServiceFamily 4 2]);
                 Knxnet.DIB_ExtendedDeviceInfo
                   (Knxnet.mkExtendedDeviceInfoDIB 8 1 0 254 1968)] ->
       Knxnet.DescriptionBlock_Unpack
         (length [Knxnet.DIB_SupportedServices
                    (Knxnet.mkSupportedServicesDIB 2
                       [Knxnet.mkServiceFamily 2 1;
                        Knxnet.mkServiceFamily 4 2]);
                  Knxnet.DIB_ExtendedDeviceInfo
                    (Knxnet.mkExtendedDeviceInfoDIB 8 1 0 254 1968)])
         Knxnet.DescriptionBlock_zero (concat (map Knxnet.DIB_wire dibs'))
       = Ok (di, length (concat (map Knxnet.DIB_wire dibs'))))
    /\ (forall dib,
          dib ∈ [Knxnet.DIB_SupportedServices
                   (Knxnet.mkSupportedServicesDIB 2
                      [Knxnet.mkServiceFamily 2 1; Knxnet.mkServiceFamily 4 2]);
                 Knxnet.DIB_ExtendedDeviceInfo
                   (Knxnet.mkExtendedDeviceInfoDIB 8 1 0 254 1968)] ->
          Knxnet.DescriptionBlock_field di dib = dib).
Proof.
  apply (DescriptionBlock_Unpack_any_order
           [Knxnet.DIB_SupportedServices
              (Knxnet.mkSupportedServicesDIB 2
                 [Knxnet.mkServiceFamily 2 1; Knxnet.mkServiceFamily 4 2]);
            Knxnet.DIB_ExtendedDeviceInfo
              (Knxnet.mkExtendedDeviceInfoDIB 8 1 0 254 1968)]).
  - repeat (apply Forall_cons; split; [|]); [| |apply Forall_nil_2].
    + split; [|reflexivity]. cbn. split; [unfold is_byte; lia|].
      split; [|vm_compute; discriminate].
      repeat constructor; cbn; unfold is_byte; lia.
    + split; [|reflexivity]. cbn. unfold is_byte, Knxnet.is_u16. lia.
  - apply (bool_decide_unpack _). vm_compute. reflexivity.
Defined.

(** ** SearchReqExt.Pack *)

Lemma padded_map_byte_length l :
  length (Knxnet.padded (map byte l)) = length (Knxnet.padded l).
Proof.
  unfold Knxnet.padded, len. rewrite length_map.
  destruct (negb _); rewrite ?length_app, length_map; reflexivity.
Qed.

Lemma SRP_Size_range param : 1 <= Knxnet.SRP_Size param.
Proof.
  destruct param as [p|p|p|p]; cbn [Knxnet.SRP_Size];
    unfold Knxnet.SelectProgMode_Size, Knxnet.SelectMACAddr_Size,
      Knxnet.SelectSrvSRP_Size; try lia.
  destruct p as [m ty l]. rewrite RequestDIBs_Size_padded. unfold len. lia.
Qed.

Lemma SRP_AllocAndPack_length param :
  length (Knxnet.SRP_AllocAndPack param) = Z.to_nat (Knxnet.SRP_Size param).
Proof.
  unfold Knxnet.SRP_AllocAndPack.
  destruct param as [p|p|p|p]; cbn [Knxnet.SRP_Pack];
    unfold Knxnet.SelectProgMode_Pack, Knxnet.SelectMACAddr_Pack,
      Knxnet.SelectSrvSRP_Pack, Knxnet.RequestDIBs_Pack;
    rewrite PackSome_length, length_replicate; reflexivity.
Qed.

Lemma SRP_Pack_frame param extra :
  Knxnet.SRP_ok param ->
  Knxnet.SRP_Pack param
    (replicate (Z.to_nat (Knxnet.SRP_Size param)) 0 ++ extra)
  = Knxnet.SRP_AllocAndPack param ++ extra.
Proof.
  intros Hok. unfold Knxnet.SRP_AllocAndPack.
  destruct param as [p|p|p|p]; cbn [Knxnet.SRP_Pack Knxnet.SRP_Size];
    unfold Knxnet.SelectProgMode_Pack, Knxnet.SelectMACAddr_Pack,
      Knxnet.SelectSrvSRP_Pack, Knxnet.RequestDIBs_Pack;
    apply PackSome_frame; rewrite length_replicate;
    unfold Util.encode_all; cbn [map concat Util.encode];
    rewrite ?length_app; cbn [length].
  - unfold Knxnet.SelectProgMode_Size. lia.
  - cbn [Knxnet.SRP_ok] in Hok. rewrite Hok.
    unfold Knxnet.SelectMACAddr_Size. lia.
  - unfold Knxnet.SelectSrvSRP_Size. lia.
  - destruct p as [m ty l]. cbn [Knxnet.rd_DescTypes].
    rewrite RequestDIBs_Size_padded, padded_map_byte_length. unfold len. lia.
Qed.

Lemma pack_params_wire params :
  Forall Knxnet.SRP_ok params ->
  forall pre extra,
    Knxnet.pack_params params (length pre)
      (pre ++ replicate
                (length (concat (map Knxnet.SRP_AllocAndPack params))) 0
           ++ extra)
    = Ok (pre ++ concat (map Knxnet.SRP_AllocAndPack params) ++ extra).
Proof.
  induction 1 as [|p params Hok _ IH]; intros pre extra;
    cbn [Knxnet.pack_params map concat]; [reflexivity|].
  rewrite slice_from_le by (rewrite length_app; lia).
  cbn [mbind outcome_bind].
  rewrite drop_app_length, take_app_length.
  rewrite length_app, replicate_add, <- app_assoc.
  rewrite (SRP_AllocAndPack_length p), (SRP_Pack_frame p _ Hok).
  rewrite <- (SRP_AllocAndPack_length p), <- length_app.
  rewrite (app_assoc pre), IH, <- !app_assoc. reflexivity.
Qed.

Lemma SRP_sizes_sum params : forall a,
  foldl (fun size param => size + Knxnet.SRP_Size param) a params
  = a + len (concat (map Knxnet.SRP_AllocAndPack params)).
Proof.
  induction params as [|p params IH]; intros a; cbn [foldl map concat].
  - unfold len. cbn [length]. lia.
  - rewrite IH. unfold len. rewrite length_app, SRP_AllocAndPack_length.
    pose proof (SRP_Size_range p). lia.
Qed.

(** X15: SearchReqExt.Pack on a zeroed buffer of Size bytes writes the host
    information followed by the parameters one after the other, each as
    its own Pack writes it into a buffer of its own Size, and Size is the
    number of bytes written. The three Select parameters so go out as their
    mandatory-and-type byte and payload, without a length byte. *)
Theorem SearchReqExt_Pack_wire (HostInfo : Type)
    (HostInfo_Size : HostInfo -> Z)
    (HostInfo_Pack : HostInfo -> list Z -> list Z)
    (h : HostInfo) (hw : list Z) (params : list Knxnet.SRPBlock) :
  HostInfo_Size h = len hw ->
  (forall buffer, (length hw <= length buffer)%nat ->
     HostInfo_Pack h buffer = hw ++ drop (length hw) buffer) ->
  Forall Knxnet.SRP_ok params ->
  Knxnet.SearchReqExt_Size HostInfo_Size (Knxnet.mkSearchReqExt h params)
  = len (hw ++ concat (map Knxnet.SRP_AllocAndPack params))
  /\ Knxnet.SearchReqExt_Pack HostInfo_Size HostInfo_Pack
       (Knxnet.mkSearchReqExt h params)
       (replicate
          (Z.to_nat (Knxnet.SearchReqExt_Size HostInfo_Size
                       (Knxnet.mkSearchReqExt h params))) 0)
     = Ok (hw ++ concat (map Knxnet.SRP_AllocAndPack params))
  /\ (forall p,
        Knxnet.SRP_AllocAndPack (Knxnet.SRP_SelectProgMode p)
        = [Knxnet.srp_pld (Knxnet.spm_Mandatory p) (Knxnet.spm_Type p)])
  /\ (forall p,
        Knxnet.SRP_AllocAndPack (Knxnet.SRP_SelectSrvSRP p)
        = [Knxnet.srp_pld (Knxnet.ssrv_Mandatory p) (Knxnet.ssrv_Type p);
           Knxnet.ssrv_Service p; Knxnet.ssrv_Version p]).
Proof.
  intros Hsize Hpack Hok.
  assert (Hsz : Knxnet.SearchReqExt_Size HostInfo_Size
                  (Knxnet.mkSearchReqExt h params)
                = len (hw ++ concat (map Knxnet.SRP_AllocAndPack params))).
  { unfold Knxnet.SearchReqExt_Size.
    cbn [Knxnet.req_Control Knxnet.Parameters].
    rewrite SRP_sizes_sum, Hsize. unfold len. rewrite length_app. lia. }
  split; [exact Hsz|]. split; [|split; intros p; reflexivity].
  rewrite Hsz. unfold Knxnet.SearchReqExt_Pack.
  cbn [Knxnet.req_Control Knxnet.Parameters]. rewrite Hsize. unfold len.
  rewrite !Nat2Z.id, length_app, replicate_add.
  rewrite Hpack by (rewrite length_app, length_replicate; lia).
  rewrite drop_app_length' by (symmetry; apply length_replicate).
  rewrite <- (app_nil_r (replicate (length (concat _)) 0)).
  rewrite (pack_params_wire params Hok hw []), app_nil_r. reflexivity.
Qed.

Lemma SearchReqExt_Pack_wire_witness :
  Knxnet.SearchReqExt_Size (fun h => len h)
    (Knxnet.mkSearchReqExt [8; 1; 0; 0; 0; 0; 0; 0]
       [Knxnet.SRP_SelectProgMode (Knxnet.NewSelectProgMode true);
        Knxnet.SRP_RequestDIBs (Knxnet.NewRequestDIBs false [1; 2; 8])])
  = len ([8; 1; 0; 0; 0; 0; 0; 0]
         ++ concat (map Knxnet.SRP_AllocAndPack
              [Knxnet.SRP_SelectProgMode (Knxnet.NewSelectProgMode true);
               Knxnet.SRP_RequestDIBs
                 (Knxnet.NewRequestDIBs false [1; 2; 8])]))
  /\ Knxnet.SearchReqExt_Pack (fun h => len h)
       (fun h buffer => h ++ drop (length h) buffer)
       (Knxnet.mkSearchReqExt [8; 1; 0; 0; 0; 0; 0; 0]
          [Knxnet.SRP_SelectProgMode (Knxnet.NewSelectProgMode true);
           Knxnet.SRP_RequestDIBs (Knxnet.NewRequestDIBs false [1; 2; 8])])
       (replicate
          (Z.to_nat
             (Knxnet.SearchReqExt_Size (fun h => len h)
                (Knxnet.mkSearchReqExt [8; 1; 0; 0; 0; 0; 0; 0]
                   [Knxnet.SRP_SelectProgMode (Knxnet.NewSelectProgMode true);
                    Knxnet.SRP_RequestDIBs
                      (Knxnet.NewRequestDIBs false [1; 2; 8])]))) 0)
     = Ok ([8; 1; 0; 0; 0; 0; 0; 0]
           ++ concat (map Knxnet.SRP_AllocAndPack
                [Knxnet.SRP_SelectProgMode (Knxnet.NewSelectProgMode true);
                 Knxnet.SRP_RequestDIBs
                   (Knxnet.NewRequestDIBs false [1; 2; 8])]))
  /\ (forall p,
        Knxnet.SRP_AllocAndPack (Knxnet.SRP_SelectProgMode p)
        = [Knxnet.srp_pld (Knxnet.spm_Mandatory p) (Knxnet.spm_Type p)])
  /\ (forall p,
        Knxnet.SRP_AllocAndPack (Knxnet.SRP_SelectSrvSRP p)
        = [Knxnet.srp_pld (Knxnet.ssrv_Mandatory p) (Knxnet.ssrv_Type p);
           Knxnet.ssrv_Service p; Knxnet.ssrv_Version p]).
Proof.
  apply (SearchReqExt_Pack_wire (list Z) (fun h => len h)
           (fun h buffer => h ++ drop (length h) buffer)
           [8; 1; 0; 0; 0; 0; 0; 0] [8; 1; 0; 0; 0; 0; 0; 0]).
  - reflexivity.
  - reflexivity.
  - repeat constructor.
Defined.

(** ** An unknown block that declares length 0 *)

(** X12: DescriptionBlock.Unpack does not come back from a block of unknown
    type whose length byte is 0: the default case of its switch adds the
    length to the cursor, so the cursor stays where it is and the loop reads
    the same two bytes again, whatever its budget of turns. *)
Theorem DescriptionBlock_loop_stuck data n ty rest :
  drop n data = 0 :: ty :: rest ->
  Knxnet.DIB_new ty = None ->
  forall fuel di, Knxnet.DescriptionBlock_loop fuel di data n = NoFuel.
Proof.
  intros Hdrop Hnew fuel di. induction fuel as [|fuel IH].
  - cbn [Knxnet.DescriptionBlock_loop].
    assert (Hlt : (n <? length data)%nat = true).
    { apply Nat.ltb_lt. apply (f_equal length) in Hdrop.
      rewrite length_drop in Hdrop. cbn [length] in Hdrop. lia. }
    rewrite Hlt. reflexivity.
  - rewrite (DescriptionBlock_skips_unknown fuel di data n 0 ty rest Hdrop Hnew).
    change (Z.to_nat 0) with 0%nat. rewrite Nat.add_0_r. exact IH.
Qed.

Lemma DescriptionBlock_loop_stuck_witness :
  Knxnet.DescriptionBlock_loop 1000 Knxnet.DescriptionBlock_zero
    [4; 2; 2; 1; 0; 255; 9] 4 = NoFuel.
Proof.
  apply (DescriptionBlock_loop_stuck [4; 2; 2; 1; 0; 255; 9] 4 255 [9]);
    reflexivity.
Defined.

(** ** Point-to-point sessions *)

Import Knx.
Local Open Scope knx_scope.

Lemma nextSeqNum_run conn c st :
  st_heap st !! conn = Some c ->
  nextSeqNum conn st
  = (Ok (byte (seqNumber c + 1) mod 16),
     set_heap (<[conn := set_seqNumber (byte (seqNumber c + 1) mod 16) c]>
                 (st_heap st)) st).
Proof.
  intros H. unfold nextSeqNum, bind, load, store, modify, ret.
  rewrite H. reflexivity.
Qed.

Lemma repeatM_nextSeqNum conn n : forall st c,
  st_heap st !! conn = Some c ->
  0 <= seqNumber c < 16 ->
  fst (repeatM n (nextSeqNum conn) st)
  = Ok (map (fun i => (seqNumber c + 1 + Z.of_nat i) mod 16) (seq 0 n)).
Proof.
  induction n as [|n IH]; intros st c Hc Hs; [reflexivity|].
  cbn [repeatM]. unfold bind at 1. rewrite (nextSeqNum_run conn c st Hc).
  set (c' := set_seqNumber (byte (seqNumber c + 1) mod 16) c).
  set (st' := set_heap (<[conn:=c']> (st_heap st)) st).
  assert (Hc' : st_heap st' !! conn = Some c')
    by (unfold st'; cbn; apply lookup_insert_eq).
  assert (Hs' : 0 <= seqNumber c' < 16)
    by (unfold c'; cbn; apply Z.mod_pos_bound; lia).
  specialize (IH st' c' Hc' Hs').
  unfold bind at 1.
  destruct (repeatM n (nextSeqNum conn) st') as [[rest| | |] st''];
    cbn [fst] in IH; try discriminate IH.
  injection IH as ->. cbn [ret fst seq map]. f_equal. f_equal.
  - rewrite byte_small by lia. f_equal. lia.
  - rewrite <- seq_shift, map_map. apply map_ext. intros i.
    unfold c'. cbn [seqNumber set_seqNumber].
    rewrite byte_small by lia.
    rewrite <- Z.add_assoc, Z.add_mod_idemp_l by lia. f_equal. lia.
Qed.

Lemma await_conn_cases events :
  (exists rest, await_conn events = (Ok tt, rest))
  \/ (exists e rest, await_conn events = (Err e, rest)).
Proof.
  induction events as [|[[l|l|l|]|] events IH]; cbn [await_conn]; eauto.
  destruct (Cemi.ld_Data l); eauto.
Qed.

(** Creating a session either fails with an error and leaves the registry
    alone, or hands out a fresh pointer to a connected session with
    sequence number 15. *)
Lemma NewP2PConnection_cases addr st :
  (exists st',
     NewP2PConnection addr st = (Ok (st_next st), st')
     /\ st_heap st'
        = <[st_next st := mkP2PConnection addr 15 20 (st_now st - second)
                            true false true]> (st_heap st)
     /\ st_mgmt st' = st_mgmt st)
  \/ (exists e st',
        NewP2PConnection addr st = (Err e, st') /\ st_mgmt st' = st_mgmt st).
Proof.
  unfold NewP2PConnection, requestConn, Tunnel_await_conn, Tunnel_Send,
    Tunnel_SourceAddr, time_Now, alloc, bind, load, store, modify, ret, fail.
  simpl. rewrite lookup_insert_eq. simpl.
  destruct (tun_send_results (st_tunnel st)) as [|[e0|] rs]; simpl;
    try (right; do 2 eexists; split; reflexivity);
    (destruct (await_conn_cases (tun_inbound (st_tunnel st)))
       as [[rest Ha]|(e1 & rest & Ha)]; rewrite Ha; simpl;
     [ rewrite lookup_insert_eq; simpl; rewrite lookup_insert_eq; simpl;
       left; eexists; split; [reflexivity|]; simpl;
       rewrite !insert_insert_eq; split; reflexivity
     | right; do 2 eexists; split; reflexivity ]).
Qed.

(** C7: a session that NewP2PConnection hands out has sequence number 15,
    and seventeen calls of nextSeqNum on it give 0, 1, ..., 15, 0. *)
Theorem fresh_session_sequence addr st conn st' :
  NewP2PConnection addr st = (Ok conn, st') ->
  (exists c, st_heap st' !! conn = Some c /\ seqNumber c = 15)
  /\ fst (repeatM 17 (nextSeqNum conn) st') = Ok sequence_0_to_15_then_0.
Proof.
  intros Hnew.
  destruct (NewP2PConnection_cases addr st)
    as [(st1 & H1 & Hheap & _)|(e & st1 & H1 & _)];
    rewrite H1 in Hnew; [|discriminate Hnew].
  injection Hnew as <- <-.
  assert (Hc : st_heap st1 !! st_next st
               = Some (mkP2PConnection addr 15 20 (st_now st - second)
                         true false true))
    by (rewrite Hheap; apply lookup_insert_eq).
  split; [eexists; split; [exact Hc|reflexivity]|].
  rewrite (repeatM_nextSeqNum _ 17 st1 _ Hc) by (cbn; lia).
  reflexivity.
Qed.

Lemma fresh_session_sequence_witness :
  fst (repeatM 17 (nextSeqNum 0)
         (snd (NewP2PConnection 4354 (example_state []))))
  = Ok sequence_0_to_15_then_0.
Proof.
  apply (fresh_session_sequence 4354 (example_state []) 0
           (snd (NewP2PConnection 4354 (example_state [])))).
  reflexivity.
Defined.

(** ** The registry *)

Lemma without_entry_absent addr st :
  connections (st_mgmt st) !! addr = None -> without_entry addr st = st.
Proof.
  intros H. destruct st as [t now h nx [m d]]. unfold without_entry, set_mgmt.
  cbn in *. rewrite delete_id by exact H. reflexivity.
Qed.

Lemma Management_Connect_live addr st conn c :
  connections (st_mgmt st) !! addr = Some conn ->
  st_heap st !! conn = Some c ->
  connected c = true ->
  Management_Connect addr st = (Ok conn, st).
Proof.
  intros Hm Hh Hc.
  unfold Management_Connect, bind, get, load, ret. rewrite Hm, Hh, Hc.
  reflexivity.
Qed.

Lemma Management_Connect_create addr st :
  connections (st_mgmt st) !! addr = None
  \/ (exists conn c, connections (st_mgmt st) !! addr = Some conn
                     /\ st_heap st !! conn = Some c /\ connected c = false) ->
  Management_Connect addr st
  = match NewP2PConnection addr (without_entry addr st) with
    | (Ok conn, st') => (Ok conn, with_entry addr conn st')
    | (Err e, st') => (Err e, st')
    | (Panic, st') => (Panic, st')
    | (NoFuel, st') => (NoFuel, st')
    end.
Proof.
  intros [Hm|(conn & c & Hm & Hh & Hc)].
  - rewrite without_entry_absent by exact Hm.
    unfold Management_Connect, bind, get, ret. rewrite Hm.
    destruct (NewP2PConnection addr st) as [[conn| | |] st']; reflexivity.
  - unfold Management_Connect, bind, get, load, ret, set_connections, modify.
    rewrite Hm, Hh, Hc. cbn [negb].
    fold (without_entry addr st).
    destruct (NewP2PConnection addr (without_entry addr st))
      as [[conn'| | |] st']; reflexivity.
Qed.

(** C8: Management.Connect hands back a live session and changes nothing;
    with a stale entry or none it creates a session in the registry without
    the old entry, and then either passes on the error of the creation,
    leaving no entry under the address, or stores the new session, a fresh
    pointer to a connected session, under the address. *)
Theorem Management_Connect_spec addr st :
  (forall conn c,
     connections (st_mgmt st) !! addr = Some conn ->
     st_heap st !! conn = Some c ->
     connected c = true ->
     Management_Connect addr st = (Ok conn, st))
  /\ (connections (st_mgmt st) !! addr = None
      \/ (exists conn c, connections (st_mgmt st) !! addr = Some conn
                         /\ st_heap st !! conn = Some c
                         /\ connected c = false) ->
      (exists e st',
         NewP2PConnection addr (without_entry addr st) = (Err e, st')
         /\ Management_Connect addr st = (Err e, st')
         /\ connections (st_mgmt st') = delete addr (connections (st_mgmt st))
         /\ connections (st_mgmt st') !! addr = None)
      \/ (exists st',
            fst (NewP2PConnection addr (without_entry addr st))
            = Ok (st_next st)
            /\ Management_Connect addr st = (Ok (st_next st), st')
            /\ connections (st_mgmt st')
               = <[addr := st_next st]> (connections (st_mgmt st))
            /\ connections (st_mgmt st') !! addr = Some (st_next st)
            /\ st_heap st' !! st_next st
               = Some (mkP2PConnection addr 15 20 (st_now st - second)
                         true false true))).
Proof.
  split; [intros conn c; apply Management_Connect_live|].
  intros Hcase. rewrite (Management_Connect_create addr st Hcase).
  destruct (NewP2PConnection_cases addr (without_entry addr st))
    as [(st1 & H1 & Hheap & Hmg)|(e & st1 & H1 & Hmg)]; rewrite H1.
  - right. eexists. split; [reflexivity|]. split; [reflexivity|].
    cbn [with_entry set_mgmt st_mgmt connections st_heap].
    rewrite Hmg. cbn [without_entry set_mgmt st_mgmt connections].
    rewrite insert_delete_eq. split; [reflexivity|].
    split; [apply lookup_insert_eq|].
    rewrite Hheap. apply lookup_insert_eq.
  - left. exists e, st1. split; [reflexivity|]. split; [reflexivity|].
    rewrite Hmg. cbn [without_entry set_mgmt st_mgmt connections].
    split; [reflexivity|apply lookup_delete_eq].
Qed.

Lemma Management_Connect_spec_witness :
  Management_Connect 4354 live_state = (Ok 0%nat, live_state)
  /\ ((exists e st',
         NewP2PConnection 4354 (without_entry 4354 (example_state []))
         = (Err e, st')
         /\ Management_Connect 4354 (example_state []) = (Err e, st')
         /\ connections (st_mgmt st')
            = delete 4354 (connections (st_mgmt (example_state [])))
         /\ connections (st_mgmt st') !! 4354 = None)
      \/ (exists st',
            fst (NewP2PConnection 4354 (without_entry 4354 (example_state [])))
            = Ok (st_next (example_state []))
            /\ Management_Connect 4354 (example_state [])
               = (Ok (st_next (example_state [])), st')
            /\ connections (st_mgmt st')
               = <[4354 := st_next (example_state [])]>
                   (connections (st_mgmt (example_state [])))
            /\ connections (st_mgmt st') !! 4354
               = Some (st_next (example_state []))
            /\ st_heap st' !! st_next (example_state [])
               = Some (mkP2PConnection 4354 15 20
                         (st_now (example_state []) - second)
                         true false true))).
Proof.
  split.
  - apply (proj1 (Management_Connect_spec 4354 live_state) 0%nat
             (mkP2PConnection 4354 15 20 4000000000 true false true));
      reflexivity.
  - apply (proj2 (Management_Connect_spec 4354 (example_state []))).
    left. reflexivity.
Defined.

Lemma Disconnect_not_connected conn c st :
  st_heap st !! conn = Some c -> connected c = false ->
  P2PConnection_Disconnect conn st = (Ok tt, st).
Proof.
  intros Hh Hc. unfold P2PConnection_Disconnect, bind, load, ret.
  rewrite Hh, Hc. reflexivity.
Qed.

(** applyRateLimit ends at an instant [now'] that is neither before the
    call nor less than one interval after the last send; it stamps
    [lastSend] with it and uses up at most one entry of the scheduler's
    script. *)
Lemma applyRateLimit_run conn c st :
  st_heap st !! conn = Some c -> rateLimit c <> 0 ->
  exists now' over',
    applyRateLimit conn st
    = (Ok tt,
       set_oversleep over'
         (set_heap (<[conn := set_lastSend now' c]> (st_heap st))
                   (set_now now' st)))
    /\ Z.max (st_now st) (lastSend c + second / rateLimit c) <= now'.
Proof.
  intros Hh Hr. unfold applyRateLimit, time_Now, time_Sleep,
    bind, load, store, modify, ret, panic.
  rewrite Hh. destruct (Z.eqb_spec (rateLimit c) 0) as [E|_]; [contradiction|].
  destruct (Z.ltb_spec (st_now st - lastSend c) (second / rateLimit c)).
  - destruct (Z.leb_spec (second / rateLimit c - (st_now st - lastSend c)) 0);
      [lia|].
    destruct st as [t now h nx m [|over rest]];
      cbn [st_now st_heap st_oversleep set_now set_oversleep set_heap
           st_tunnel st_next st_mgmt] in *;
      rewrite Hh.
    + exists (now + (second / rateLimit c - (now - lastSend c))), [].
      split; [reflexivity|lia].
    + exists (now + (second / rateLimit c - (now - lastSend c))
              + Z.of_N over), rest.
      split; [reflexivity|lia].
  - rewrite Hh. exists (st_now st), (st_oversleep st).
    split; [destruct st; reflexivity|lia].
Qed.

Lemma Disconnect_connected conn c st :
  st_heap st !! conn = Some c -> connected c = true -> rateLimit c <> 0 ->
  exists st' c',
    P2PConnection_Disconnect conn st
    = (match next_send_result st with Some e => Err e | None => Ok tt end,
       st')
    /\ st_heap st' !! conn = Some c'
    /\ connected c' = false /\ done_closed c' = true /\ serving c' = false
    /\ st_mgmt st' = st_mgmt st
    /\ tun_sent (st_tunnel st')
       = tun_sent (st_tunnel st)
         ++ [Cemi.NewDiscReq (tun_SourceAddr (st_tunnel st)) (targetAddr c)].
Proof.
  intros Hh Hc Hr.
  destruct (applyRateLimit_run conn c st Hh Hr) as (now' & over' & Hrun & _).
  unfold P2PConnection_Disconnect, bind, load.
  rewrite Hh, Hc. cbn [negb]. rewrite Hrun.
  unfold Tunnel_Send, Tunnel_SourceAddr, next_send_result,
    store, modify, ret, fail.
  simpl; rewrite ?Hh, ?lookup_insert_eq; simpl;
    destruct (tun_send_results (st_tunnel st)) as [|[e|] rs]; simpl;
    rewrite ?lookup_insert_eq; simpl;
    destruct (done_closed c) eqn:Hd; simpl;
    rewrite ?lookup_insert_eq; simpl; rewrite ?lookup_insert_eq; simpl;
    do 2 eexists; (split; [reflexivity|]); simpl;
    rewrite ?lookup_insert_eq; repeat split; simpl; rewrite ?Hd;
    reflexivity.
Qed.

(** C9: Management.Disconnect deletes the entry exactly when the session's
    Disconnect returns no error; when the send of the T_DISCONNECT request
    fails on a connected session, that error is returned, the entry stays,
    and the session is marked disconnected with its done channel closed. *)
Theorem Management_Disconnect_spec addr st conn c :
  connections (st_mgmt st) !! addr = Some conn ->
  st_heap st !! conn = Some c ->
  rateLimit c <> 0 ->
  (exists st',
     (Management_Disconnect addr st = (Ok tt, st')
      /\ fst (P2PConnection_Disconnect conn st) = Ok tt
      /\ connections (st_mgmt st') = delete addr (connections (st_mgmt st))
      /\ connections (st_mgmt st') !! addr = None)
     \/ (exists e,
           Management_Disconnect addr st = (Err e, st')
           /\ fst (P2PConnection_Disconnect conn st) = Err e
           /\ connections (st_mgmt st') = connections (st_mgmt st)
           /\ connections (st_mgmt st') !! addr = Some conn))
  /\ (connected c = true ->
      forall e, next_send_result st = Some e ->
      exists st' c',
        Management_Disconnect addr st = (Err e, st')
        /\ connections (st_mgmt st') !! addr = Some conn
        /\ st_heap st' !! conn = Some c'
        /\ connected c' = false /\ done_closed c' = true
        /\ tun_sent (st_tunnel st')
           = tun_sent (st_tunnel st)
             ++ [Cemi.NewDiscReq (tun_SourceAddr (st_tunnel st))
                                 (targetAddr c)]).
Proof.
  intros Hm Hh Hr.
  assert (Hrun : Management_Disconnect addr st
                 = match P2PConnection_Disconnect conn st with
                   | (Ok _, st') =>
                       (Ok tt,
                        set_mgmt (mkManagement
                                    (delete addr (connections (st_mgmt st')))
                                    (mgmt_done_closed (st_mgmt st'))) st')
                   | (Err e, st') => (Err e, st')
                   | (Panic, st') => (Panic, st')
                   | (NoFuel, st') => (NoFuel, st')
                   end).
  { unfold Management_Disconnect, bind, get, set_connections, modify.
    rewrite Hm.
    destruct (P2PConnection_Disconnect conn st) as [[[]| | |] st'];
      reflexivity. }
  rewrite Hrun. clear Hrun.
  destruct (connected c) eqn:Hc.
  - destruct (Disconnect_connected conn c st Hh Hc Hr)
      as (st' & c' & Hd & Hh' & Hc' & Hdone & _ & Hmg & Hsent).
    rewrite Hd. split.
    + destruct (next_send_result st) as [e|].
      * exists st'. right. exists e. rewrite Hmg. auto.
      * eexists. left. cbn [fst set_mgmt st_mgmt connections].
        rewrite Hmg. repeat split. apply lookup_delete_eq.
    + intros _ e He. rewrite He. exists st', c'. rewrite Hmg. auto 10.
  - rewrite (Disconnect_not_connected conn c st Hh Hc). split.
    + eexists. left. cbn [fst set_mgmt st_mgmt connections].
      repeat split. apply lookup_delete_eq.
    + discriminate.
Qed.

Lemma Management_Disconnect_spec_witness :
  exists st' c',
    Management_Disconnect 4354 failing_state = (Err ErrSend, st')
    /\ connections (st_mgmt st') !! 4354 = Some 0%nat
    /\ st_heap st' !! 0%nat = Some c'
    /\ connected c' = false /\ done_closed c' = true
    /\ tun_sent (st_tunnel st')
       = tun_sent (st_tunnel failing_state)
         ++ [Cemi.NewDiscReq (tun_SourceAddr (st_tunnel failing_state))
                             4354].
Proof.
  apply (proj2 (Management_Disconnect_spec 4354 failing_state 0%nat
                  (mkP2PConnection 4354 15 20 4000000000 true false true)
                  eq_refl eq_refl ltac:(discriminate))
           eq_refl ErrSend eq_refl).
Defined.

Example Management_Disconnect_ok :
  let st := snd (Management_Disconnect 4354 live_state) in
  fst (Management_Disconnect 4354 live_state) = Ok tt
  /\ connections (st_mgmt st) !! 4354 = None
  /\ (connected <$> st_heap st !! 0%nat) = Some false.
Proof. vm_compute. auto. Qed.

(** ** Sessions: rate limit, handshake, Send, Close *)

(** X17: applyRateLimit returns no earlier than one interval (a second
    divided by the rate limit) after the last send, and no earlier than it
    was called. [lastSend] is set to the time read at the end and nothing
    else of the sessions, the tunnel and the registry changes; a second
    call right after the first one returns at least one interval later,
    however long the sleeps take. *)
Theorem applyRateLimit_spacing conn c st :
  st_heap st !! conn = Some c -> 0 < rateLimit c ->
  exists st1 st2,
    applyRateLimit conn st = (Ok tt, st1)
    /\ Z.max (st_now st) (lastSend c + second / rateLimit c) <= st_now st1
    /\ st_heap st1 = <[conn := set_lastSend (st_now st1) c]> (st_heap st)
    /\ st_tunnel st1 = st_tunnel st
    /\ st_mgmt st1 = st_mgmt st
    /\ st_next st1 = st_next st
    /\ applyRateLimit conn st1 = (Ok tt, st2)
    /\ st_now st1 + second / rateLimit c <= st_now st2.
Proof.
  intros Hh Hr.
  destruct (applyRateLimit_run conn c st Hh)
    as (now1 & over1 & Hrun1 & Hge1); [lia|].
  set (st1 := set_oversleep over1
                (set_heap (<[conn := set_lastSend now1 c]> (st_heap st))
                          (set_now now1 st))) in *.
  assert (Hh1 : st_heap st1 !! conn = Some (set_lastSend now1 c))
    by apply lookup_insert_eq.
  destruct (applyRateLimit_run conn _ st1 Hh1)
    as (now2 & over2 & Hrun2 & Hge2);
    [cbn [rateLimit set_lastSend]; lia|].
  eexists st1, _.
  split; [exact Hrun1|].
  split; [exact Hge1|].
  do 4 (split; [reflexivity|]).
  split; [exact Hrun2|].
  cbn [st_now set_oversleep set_heap set_now lastSend rateLimit set_lastSend
       st1] in Hge2 |- *.
  lia.
Qed.

Lemma applyRateLimit_spacing_witness :
  exists st1 st2,
    applyRateLimit 0 live_state = (Ok tt, st1)
    /\ Z.max (st_now live_state) (4000000000 + second / 20) <= st_now st1
    /\ st_heap st1
       = <[0%nat := set_lastSend (st_now st1)
                      (mkP2PConnection 4354 15 20 4000000000 true false true)]>
           (st_heap live_state)
    /\ st_tunnel st1 = st_tunnel live_state
    /\ st_mgmt st1 = st_mgmt live_state
    /\ st_next st1 = st_next live_state
    /\ applyRateLimit 0 st1 = (Ok tt, st2)
    /\ st_now st1 + second / 20 <= st_now st2.
Proof.
  apply (applyRateLimit_spacing 0
           (mkP2PConnection 4354 15 20 4000000000 true false true)
           live_state).
  - reflexivity.
  - reflexivity.
Defined.

(** With the scheduler of the example state the second of two calls in a
    row sleeps its 50 ms and 0.3 ms more. *)
Example applyRateLimit_overrun :
  st_now (snd (applyRateLimit 0 (snd (applyRateLimit 0 live_state))))
  - st_now (snd (applyRateLimit 0 live_state))
  = 50300000.
Proof. reflexivity. Qed.

(** X18: from any four-bit sequence number, sixteen calls of nextSeqNum in a
    row give sixteen different four-bit values, the successors of the start
    value modulo 16, and the sixteenth is the start value again. *)
Theorem nextSeqNum_window conn c st :
  st_heap st !! conn = Some c -> 0 <= seqNumber c < 16 ->
  exists vs,
    fst (repeatM 16 (nextSeqNum conn) st) = Ok vs
    /\ vs = map (fun i => (seqNumber c + 1 + Z.of_nat i) mod 16) (seq 0 16)
    /\ NoDup vs
    /\ Forall (fun v => 0 <= v < 16) vs
    /\ last vs = Some (seqNumber c).
Proof.
  intros Hh Hs. eexists. split; [apply (repeatM_nextSeqNum conn 16 st c Hh Hs)|].
  split; [reflexivity|].
  apply seq_16_cases in Hs. simpl in Hs.
  repeat (destruct Hs as [<-|Hs];
          [split; [apply (bool_decide_unpack _); vm_compute; reflexivity|];
           split; [repeat constructor; vm_compute; try discriminate;
                   reflexivity
                  |reflexivity]|]).
  contradiction.
Qed.

Lemma nextSeqNum_window_witness :
  exists vs,
    fst (repeatM 16 (nextSeqNum 0) live_state) = Ok vs
    /\ vs = map (fun i => (15 + 1 + Z.of_nat i) mod 16) (seq 0 16)
    /\ NoDup vs
    /\ Forall (fun v => 0 <= v < 16) vs
    /\ last vs = Some 15.
Proof.
  apply (nextSeqNum_window 0
           (mkP2PConnection 4354 15 20 4000000000 true false true)
           live_state).
  - reflexivity.
  - cbn. lia.
Defined.

(** X21: Disconnect is idempotent: whatever the first call returns (nil, or
    the error of the tunnel's send), a second call on the same session
    returns nil and leaves the state as it is, so no second T_DISCONNECT is
    sent. *)
Theorem Disconnect_twice conn c st :
  st_heap st !! conn = Some c -> rateLimit c <> 0 ->
  exists r st',
    P2PConnection_Disconnect conn st = (r, st')
    /\ (r = Ok tt \/ exists e, r = Err e)
    /\ P2PConnection_Disconnect conn st' = (Ok tt, st').
Proof.
  intros Hh Hr. destruct (connected c) eqn:Hc.
  - destruct (Disconnect_connected conn c st Hh Hc Hr)
      as (st' & c' & Hd & Hh' & Hc' & _).
    exists (match next_send_result st with Some e => Err e | None => Ok tt end),
           st'.
    split; [exact Hd|]. split.
    + destruct (next_send_result st) as [e|]; eauto.
    + apply (Disconnect_not_connected conn c' st' Hh' Hc').
  - exists (Ok tt), st.
    pose proof (Disconnect_not_connected conn c st Hh Hc) as Hd. auto.
Qed.

Lemma Disconnect_twice_witness :
  exists r st',
    P2PConnection_Disconnect 0 live_state = (r, st')
    /\ (r = Ok tt \/ exists e, r = Err e)
    /\ P2PConnection_Disconnect 0 st' = (Ok tt, st').
Proof.
  apply (Disconnect_twice 0
           (mkP2PConnection 4354 15 20 4000000000 true false true) live_state).
  - reflexivity.
  - discriminate.
Defined.

Lemma await_conn_passed_over pre rest :
  Forall (fun ev => passed_over ev = true) pre ->
  await_conn (pre ++ rest) = await_conn rest.
Proof.
  induction 1 as [|ev pre Hev _ IH]; [reflexivity|].
  cbn [app]. destruct ev as [[l|l|l|]|]; try discriminate Hev;
    cbn [await_conn]; try exact IH.
  unfold passed_over, is_conn_confirmation in Hev.
  destruct (Cemi.ld_Data l); try discriminate Hev; exact IH.
Qed.

Lemma Tunnel_Send_run req st :
  Tunnel_Send req st
  = (Ok (next_send_result st),
     set_tunnel (mkTunnel (tun_SourceAddr (st_tunnel st))
                          (tun_ResponseTimeout (st_tunnel st))
                          (tail (tun_send_results (st_tunnel st)))
                          (tun_inbound (st_tunnel st))
                          (tun_sent (st_tunnel st) ++ [req])) st).
Proof.
  unfold Tunnel_Send, next_send_result.
  destruct (tun_send_results (st_tunnel st)) as [|r rs]; reflexivity.
Qed.

(** X19: the handshake of NewP2PConnection is decided by the first event on
    the tunnel's inbound channel that is an L_Data.con carrying a T_CONNECT
    or the close of the channel; every message before it is read and
    dropped. On the confirmation (whatever addresses it carries) the new
    session is connected with sequence number 15 and rate limit 20, on the
    close the call fails; either way exactly one frame was sent, the
    T_CONNECT request to the target, and the registry is not touched. *)
Theorem NewP2PConnection_handshake addr st pre ev rest :
  next_send_result st = None ->
  tun_inbound (st_tunnel st) = pre ++ ev :: rest ->
  Forall (fun e => passed_over e = true) pre ->
  passed_over ev = false ->
  exists st',
    NewP2PConnection addr st
    = (if is_conn_confirmation ev then Ok (st_next st)
       else Err ErrTunnelClosed, st')
    /\ tun_sent (st_tunnel st')
       = tun_sent (st_tunnel st)
         ++ [Cemi.NewConnReq (tun_SourceAddr (st_tunnel st)) addr]
    /\ tun_inbound (st_tunnel st')
       = (if is_conn_confirmation ev then rest else ev :: rest)
    /\ st_heap st' !! st_next st
       = Some (mkP2PConnection addr 15 20 (st_now st - second)
                 (is_conn_confirmation ev) false (is_conn_confirmation ev))
    /\ st_mgmt st' = st_mgmt st.
Proof.
  intros Hsend Hin Hpre Hev.
  unfold NewP2PConnection, requestConn, Tunnel_await_conn,
    Tunnel_SourceAddr, time_Now, alloc, bind, load, store, modify, ret, fail.
  simpl. rewrite lookup_insert_eq. simpl. rewrite Tunnel_Send_run.
  unfold next_send_result in *. simpl. rewrite Hsend.
  simpl. rewrite Hin, (await_conn_passed_over pre (ev :: rest) Hpre).
  destruct ev as [[l|l|l|]|]; try discriminate Hev.
  - unfold passed_over in Hev. cbn [is_conn_confirmation] in *.
    cbn [await_conn]. destruct (Cemi.ld_Data l); try discriminate Hev.
    simpl. rewrite lookup_insert_eq. simpl. rewrite lookup_insert_eq.
    eexists. split; [reflexivity|]. simpl.
    rewrite lookup_insert_eq. repeat split; reflexivity.
  - cbn [await_conn is_conn_confirmation].
    eexists. split; [reflexivity|]. simpl.
    rewrite lookup_insert_eq. repeat split; reflexivity.
Qed.

Lemma NewP2PConnection_handshake_witness :
  exists st',
    NewP2PConnection 4354 (example_state [])
    = (Ok (st_next (example_state [])), st')
    /\ tun_sent (st_tunnel st')
       = tun_sent (st_tunnel (example_state []))
         ++ [Cemi.NewConnReq (tun_SourceAddr (st_tunnel (example_state [])))
               4354]
    /\ tun_inbound (st_tunnel st') = []
    /\ st_heap st' !! st_next (example_state [])
       = Some (mkP2PConnection 4354 15 20
                 (st_now (example_state []) - second) true false true)
    /\ st_mgmt st' = st_mgmt (example_state []).
Proof.
  apply (NewP2PConnection_handshake 4354 (example_state [])
           [Delivered Cemi.OtherMessage]
           (Delivered (Cemi.LDataCon
                         (Cemi.mkLData [Cemi.Control1StdFrame] 6 4353 4354
                            Cemi.TConnect)))
           []).
  - reflexivity.
  - reflexivity.
  - repeat constructor.
  - reflexivity.
Defined.

(** X20: without a confirmation NewP2PConnection fails and hands out no
    session: when the tunnel's send fails, with that error and without
    reading the inbound channel; when every message that arrives before the
    response timeout is passed over, with the timeout error and those
    messages consumed. The T_CONNECT request was sent, the registry is as it
    was. *)
Theorem NewP2PConnection_no_confirmation addr st :
  (forall e, next_send_result st = Some e ->
     exists st',
       NewP2PConnection addr st = (Err e, st')
       /\ tun_inbound (st_tunnel st') = tun_inbound (st_tunnel st)
       /\ tun_sent (st_tunnel st')
          = tun_sent (st_tunnel st)
            ++ [Cemi.NewConnReq (tun_SourceAddr (st_tunnel st)) addr]
       /\ st_mgmt st' = st_mgmt st)
  /\ (next_send_result st = None ->
      Forall (fun ev => passed_over ev = true) (tun_inbound (st_tunnel st)) ->
      exists st',
        NewP2PConnection addr st = (Err ErrResponseTimeout, st')
        /\ tun_inbound (st_tunnel st') = []
        /\ tun_sent (st_tunnel st')
           = tun_sent (st_tunnel st)
             ++ [Cemi.NewConnReq (tun_SourceAddr (st_tunnel st)) addr]
        /\ st_mgmt st' = st_mgmt st).
Proof.
  split.
  - intros e Hsend.
    unfold NewP2PConnection, requestConn, Tunnel_await_conn,
      Tunnel_SourceAddr, time_Now, alloc, bind, load, store, modify, ret, fail.
    simpl. rewrite lookup_insert_eq. simpl. rewrite Tunnel_Send_run.
    unfold next_send_result in *. simpl. rewrite Hsend.
    eexists. split; [reflexivity|]. repeat split; reflexivity.
  - intros Hsend Hpre.
    unfold NewP2PConnection, requestConn, Tunnel_await_conn,
      Tunnel_SourceAddr, time_Now, alloc, bind, load, store, modify, ret, fail.
    simpl. rewrite lookup_insert_eq. simpl. rewrite Tunnel_Send_run.
    unfold next_send_result in *. simpl. rewrite Hsend. simpl.
    rewrite <- (app_nil_r (tun_inbound (st_tunnel st))).
    rewrite (await_conn_passed_over _ [] Hpre). cbn [await_conn].
    eexists. split; [reflexivity|]. repeat split; reflexivity.
Qed.

Lemma NewP2PConnection_no_confirmation_witness :
  exists st',
    NewP2PConnection 4354 (example_state [Some ErrSend]) = (Err ErrSend, st')
    /\ tun_inbound (st_tunnel st')
       = tun_inbound (st_tunnel (example_state [Some ErrSend]))
    /\ tun_sent (st_tunnel st')
       = tun_sent (st_tunnel (example_state [Some ErrSend]))
         ++ [Cemi.NewConnReq
               (tun_SourceAddr (st_tunnel (example_state [Some ErrSend])))
               4354]
    /\ st_mgmt st' = st_mgmt (example_state [Some ErrSend]).
Proof.
  apply (proj1 (NewP2PConnection_no_confirmation 4354
                  (example_state [Some ErrSend])) ErrSend).
  reflexivity.
Defined.

(** X28: a second Connect for the same address right after a successful one
    hands back the same session and changes nothing (no second handshake,
    no frame), and GetConnection finds that session under the address. *)
Theorem Management_Connect_twice addr st conn st' :
  Management_Connect addr st = (Ok conn, st') ->
  Management_Connect addr st' = (Ok conn, st')
  /\ Management_GetConnection addr st' = (Ok (Some conn), st')
  /\ exists c, st_heap st' !! conn = Some c /\ connected c = true.
Proof.
  intros Hrun.
  assert (Hlive : connections (st_mgmt st') !! addr = Some conn
                  /\ exists c, st_heap st' !! conn = Some c
                               /\ connected c = true).
  { destruct (connections (st_mgmt st) !! addr) as [p|] eqn:Hm.
    - destruct (st_heap st !! p) as [c|] eqn:Hh.
      + destruct (connected c) eqn:Hc.
        * rewrite (Management_Connect_live addr st p c Hm Hh Hc) in Hrun.
          injection Hrun as <- <-. eauto.
        * rewrite (Management_Connect_create addr st) in Hrun by eauto 6.
          destruct (NewP2PConnection_cases addr (without_entry addr st))
            as [(st1 & H1 & Hheap & Hmg)|(e & st1 & H1 & Hmg)];
            rewrite H1 in Hrun; [|discriminate Hrun].
          injection Hrun as <- <-.
          cbn [with_entry set_mgmt st_mgmt connections st_heap].
          split; [apply lookup_insert_eq|].
          eexists. split; [rewrite Hheap; apply lookup_insert_eq|reflexivity].
      + unfold Management_Connect, bind, get, load in Hrun.
        rewrite Hm, Hh in Hrun. discriminate Hrun.
    - rewrite (Management_Connect_create addr st) in Hrun by auto.
      destruct (NewP2PConnection_cases addr (without_entry addr st))
        as [(st1 & H1 & Hheap & Hmg)|(e & st1 & H1 & Hmg)];
        rewrite H1 in Hrun; [|discriminate Hrun].
      injection Hrun as <- <-.
      cbn [with_entry set_mgmt st_mgmt connections st_heap].
      split; [apply lookup_insert_eq|].
      eexists. split; [rewrite Hheap; apply lookup_insert_eq|reflexivity]. }
  destruct Hlive as (Hm' & c & Hh' & Hc').
  split; [exact (Management_Connect_live addr st' conn c Hm' Hh' Hc')|].
  split; [|eauto].
  unfold Management_GetConnection, bind, get, ret. rewrite Hm'. reflexivity.
Qed.

Lemma Management_Connect_twice_witness :
  Management_Connect 4354 live_state = (Ok 0%nat, live_state)
  /\ Management_GetConnection 4354 live_state = (Ok (Some 0%nat), live_state)
  /\ exists c, st_heap live_state !! 0%nat = Some c /\ connected c = true.
Proof.
  apply (Management_Connect_twice 4354 (example_state []) 0 live_state).
  reflexivity.
Defined.

(** X29: after a successful Management.Disconnect the address is no longer
    registered: GetConnection gives nil for it and a second Disconnect fails
    with the not-found error, leaving the state alone. *)
Theorem Management_Disconnect_twice addr st st' :
  Management_Disconnect addr st = (Ok tt, st') ->
  connections (st_mgmt st') = delete addr (connections (st_mgmt st))
  /\ Management_GetConnection addr st' = (Ok None, st')
  /\ Management_Disconnect addr st' = (Err ErrNotFound, st').
Proof.
  intros Hrun.
  assert (Hm' : connections (st_mgmt st') !! addr = None
                /\ connections (st_mgmt st')
                   = delete addr (connections (st_mgmt st))).
  { unfold Management_Disconnect, bind, get, fail, set_connections, modify
      in Hrun.
    destruct (connections (st_mgmt st) !! addr) as [p|] eqn:Hm;
      [|discriminate Hrun].
    destruct (P2PConnection_Disconnect p st) as [[[]| | |] st1] eqn:Hd;
      try discriminate Hrun.
    injection Hrun as <-. cbn [set_mgmt st_mgmt connections].
    assert (Hmg : st_mgmt st1 = st_mgmt st).
    { destruct (st_heap st !! p) as [c|] eqn:Hh.
      - destruct (connected c) eqn:Hc.
        + unfold P2PConnection_Disconnect, applyRateLimit, bind, load, panic
            in Hd. rewrite Hh, Hc in Hd. cbn [negb] in Hd. rewrite Hh in Hd.
          destruct (Z.eqb_spec (rateLimit c) 0) as [E|Hr];
            [discriminate Hd|].
          destruct (Disconnect_connected p c st Hh Hc Hr)
            as (st2 & c2 & Hd2 & _ & _ & _ & _ & Hmg & _).
          unfold P2PConnection_Disconnect, applyRateLimit, bind, load, panic
            in Hd2. rewrite Hh, Hc in Hd2. cbn [negb] in Hd2.
          rewrite Hh in Hd2.
          destruct (Z.eqb_spec (rateLimit c) 0) as [E|_]; [contradiction|].
          rewrite Hd in Hd2. injection Hd2 as _ <-. exact Hmg.
        + rewrite (Disconnect_not_connected p c st Hh Hc) in Hd.
          injection Hd as <-. reflexivity.
      - unfold P2PConnection_Disconnect, bind, load in Hd. rewrite Hh in Hd.
        discriminate Hd. }
    rewrite Hmg. split; [apply lookup_delete_eq|reflexivity]. }
  destruct Hm' as [Hnone Hdel].
  split; [exact Hdel|].
  unfold Management_GetConnection, Management_Disconnect, bind, get, ret, fail.
  rewrite Hnone. split; reflexivity.
Qed.

Lemma Management_Disconnect_twice_witness :
  connections (st_mgmt (snd (Management_Disconnect 4354 live_state)))
  = delete 4354 (connections (st_mgmt live_state))
  /\ Management_GetConnection 4354 (snd (Management_Disconnect 4354 live_state))
     = (Ok None, snd (Management_Disconnect 4354 live_state))
  /\ Management_Disconnect 4354 (snd (Management_Disconnect 4354 live_state))
     = (Err ErrNotFound, snd (Management_Disconnect 4354 live_state)).
Proof.
  apply (Management_Disconnect_twice 4354 live_state).
  reflexivity.
Defined.

Lemma Disconnect_frame conn c st :
  st_heap st !! conn = Some c -> rateLimit c <> 0 ->
  exists r st' c',
    P2PConnection_Disconnect conn st = (r, st')
    /\ (r = Ok tt \/ exists e, r = Err e)
    /\ st_mgmt st' = st_mgmt st
    /\ st_heap st' = <[conn := c']> (st_heap st)
    /\ connected c' = false
    /\ rateLimit c' = rateLimit c.
Proof.
  intros Hh Hr. destruct (connected c) eqn:Hc.
  - unfold P2PConnection_Disconnect, bind at 1, load at 1.
    rewrite Hh, Hc. cbn [negb]. unfold bind at 1.
    destruct (applyRateLimit_run conn c st Hh Hr) as (now' & over' & Hrun & _).
    rewrite Hrun.
    unfold Tunnel_SourceAddr, bind, load, store, modify, ret, fail.
    rewrite Tunnel_Send_run. simpl. rewrite lookup_insert_eq. simpl.
    rewrite lookup_insert_eq. simpl.
    destruct (done_closed c) eqn:Hd; simpl;
      rewrite ?lookup_insert_eq; simpl; rewrite ?insert_insert_eq;
      (destruct (next_send_result _) as [e|];
       do 3 eexists; (split; [reflexivity|]); simpl;
       (split; [eauto|]); (split; [reflexivity|]);
       (split; [reflexivity|]); split; reflexivity).
  - exists (Ok tt), st, c.
    rewrite (Disconnect_not_connected conn c st Hh Hc).
    rewrite insert_id by exact Hh. auto 10.
Qed.

Lemma disconnect_each_spec order : forall st,
  registry_ok st ->
  exists st',
    disconnect_each order st = (Ok tt, st')
    /\ st_mgmt st' = st_mgmt st
    /\ (forall p c, st_heap st !! p = Some c ->
          exists c', st_heap st' !! p = Some c'
                     /\ rateLimit c' = rateLimit c
                     /\ (connected c = false -> connected c' = false))
    /\ (forall addr conn, addr ∈ order ->
          connections (st_mgmt st) !! addr = Some conn ->
          exists c', st_heap st' !! conn = Some c' /\ connected c' = false).
Proof.
  induction order as [|addr order IH]; intros st Hok.
  - exists st. split; [reflexivity|]. split; [reflexivity|].
    split; [eauto|]. intros addr conn Hin. apply elem_of_nil in Hin as [].
  - cbn [disconnect_each]. unfold bind at 1, get.
    assert (Hstep : exists st1,
      (match connections (st_mgmt st) !! addr with
       | Some conn => drop_error (P2PConnection_Disconnect conn)
       | None => ret tt
       end) st = (Ok tt, st1)
      /\ st_mgmt st1 = st_mgmt st
      /\ (forall p c, st_heap st !! p = Some c ->
            exists c', st_heap st1 !! p = Some c'
                       /\ rateLimit c' = rateLimit c
                       /\ (connected c = false -> connected c' = false))
      /\ (forall conn, connections (st_mgmt st) !! addr = Some conn ->
            exists c', st_heap st1 !! conn = Some c' /\ connected c' = false)).
    { destruct (connections (st_mgmt st) !! addr) as [conn|] eqn:Hm.
      - destruct (Hok addr conn Hm) as (c & Hh & Hr).
        destruct (Disconnect_frame conn c st Hh Hr)
          as (r & st1 & c1 & Hd & Hres & Hmg & Hheap & Hc1 & Hr1).
        exists st1. unfold drop_error. rewrite Hd.
        split; [destruct Hres as [->|[e ->]]; reflexivity|].
        split; [exact Hmg|]. split.
        + intros p c0 Hp. rewrite Hheap.
          destruct (decide (p = conn)) as [->|Hne].
          * rewrite lookup_insert_eq. exists c1.
            rewrite Hh in Hp. injection Hp as <-. auto.
          * rewrite lookup_insert_ne by congruence. eauto.
        + intros conn' [= <-]. exists c1. rewrite Hheap, lookup_insert_eq.
          auto.
      - exists st. split; [reflexivity|]. split; [reflexivity|].
        split; [eauto|]. discriminate. }
    destruct Hstep as (st1 & Hrun & Hmg & Hkeep & Hdone).
    unfold bind at 1. rewrite Hrun.
    assert (Hok1 : registry_ok st1).
    { intros a p Hp. rewrite Hmg in Hp. destruct (Hok a p Hp) as (c & Hh & Hr).
      destruct (Hkeep p c Hh) as (c' & Hh' & Hr' & _).
      exists c'. rewrite Hr'. auto. }
    destruct (IH st1 Hok1) as (st' & Hrest & Hmg' & Hkeep' & Hdone').
    exists st'. split; [exact Hrest|]. split; [congruence|]. split.
    + intros p c Hp. destruct (Hkeep p c Hp) as (c1 & Hp1 & Hr1 & Hc1).
      destruct (Hkeep' p c1 Hp1) as (c2 & Hp2 & Hr2 & Hc2).
      exists c2. split; [exact Hp2|]. split; [congruence|auto].
    + intros a conn Hin Hm. apply elem_of_cons in Hin as [->|Hin].
      * destruct (Hdone conn Hm) as (c1 & Hp1 & Hc1).
        destruct (Hkeep' conn c1 Hp1) as (c2 & Hp2 & _ & Hc2). eauto.
      * apply (Hdone' a conn Hin). rewrite Hmg. exact Hm.
Qed.

(** X30: Management.Close closes [done] and disconnects the sessions it
    visits, whatever the order and whatever the sends return: every visited
    session ends disconnected, the registry keeps all its entries (now
    stale), and a second Close panics on the closed channel. *)
Theorem Management_Close_spec order st :
  mgmt_done_closed (st_mgmt st) = false ->
  registry_ok st ->
  exists st',
    Management_Close order st = (Ok tt, st')
    /\ mgmt_done_closed (st_mgmt st') = true
    /\ connections (st_mgmt st') = connections (st_mgmt st)
    /\ (forall addr conn, addr ∈ order ->
          connections (st_mgmt st) !! addr = Some conn ->
          exists c', st_heap st' !! conn = Some c' /\ connected c' = false)
    /\ fst (Management_Close order st') = Panic.
Proof.
  intros Hopen Hok.
  unfold Management_Close, bind at 1, get. rewrite Hopen.
  unfold bind at 1, modify.
  set (st0 := set_mgmt (mkManagement (connections (st_mgmt st)) true) st).
  assert (Hok0 : registry_ok st0) by exact Hok.
  destruct (disconnect_each_spec order st0 Hok0)
    as (st' & Hrun & Hmg & _ & Hdone).
  exists st'. split; [exact Hrun|]. rewrite Hmg.
  split; [reflexivity|]. split; [reflexivity|]. split; [exact Hdone|].
  unfold bind, get, panic. rewrite Hmg. reflexivity.
Qed.

Lemma Management_Close_spec_witness :
  exists st',
    Management_Close [4354] live_state = (Ok tt, st')
    /\ mgmt_done_closed (st_mgmt st') = true
    /\ connections (st_mgmt st') = connections (st_mgmt live_state)
    /\ (forall addr conn, addr ∈ [4354] ->
          connections (st_mgmt live_state) !! addr = Some conn ->
          exists c', st_heap st' !! conn = Some c' /\ connected c' = false)
    /\ fst (Management_Close [4354] st') = Panic.
Proof.
  apply (Management_Close_spec [4354] live_state).
  - reflexivity.
  - intros addr conn H.
    destruct (decide (addr = 4354)) as [->|Hne].
    + vm_compute in H. injection H as <-.
      eexists. split; [reflexivity|discriminate].
    + exfalso. change (connections (st_mgmt live_state))
        with (<[4354 := 0%nat]> (∅ : gmap Z nat)) in H.
      rewrite lookup_insert_ne, lookup_empty in H by congruence.
      discriminate H.
Defined.

(** X22: awaitAck is decided by the first L_Data.ind carrying a T_ACK: what
    the queue delivers before it (anything but the close of [done]) is read
    and dropped, the T_ACK is accepted from whatever source when its
    sequence number is the session's, and refused with the mismatch error
    when it is not; the rest of the queue is left for the caller. *)
Theorem awaitAck_first_ack seqNumber pre ldata ack rest :
  Forall (fun ev => not_an_ack ev = true) pre ->
  Cemi.ld_Data ldata = Cemi.UControlAck ack ->
  awaitAck seqNumber (pre ++ Received (Cemi.LDataInd ldata) :: rest)
  = (if Cemi.ctl_SeqNumber ack =? seqNumber then None
     else Some (ErrAckMismatch (Cemi.ctl_SeqNumber ack) seqNumber), rest).
Proof.
  intros Hpre Hack. induction Hpre as [|ev pre Hev _ IH].
  - cbn [app awaitAck]. rewrite Hack.
    destruct (Cemi.ctl_SeqNumber ack =? seqNumber); reflexivity.
  - cbn [app]. destruct ev as [[l|l|l|]| |]; try discriminate Hev;
      cbn [awaitAck]; try exact IH.
    cbn [not_an_ack] in Hev.
    destruct (Cemi.ld_Data l); try discriminate Hev; exact IH.
Qed.

Lemma awaitAck_first_ack_witness :
  awaitAck 0
    ([Received
        (Cemi.LDataInd
           (Cemi.mkLData [] 6 4354 4353
              (Cemi.UAppData
                 (Cemi.mkAppData true 0 Cemi.PropertyValueResponse [1]))))]
     ++ Received (Cemi.LDataInd (Cemi.mkLData [] 6 4354 4353 (Cemi.TAck 3)))
        :: [])
  = (Some (ErrAckMismatch 3 0), []).
Proof.
  apply (awaitAck_first_ack 0 _ (Cemi.mkLData [] 6 4354 4353 (Cemi.TAck 3))
           (Cemi.mkControlData true 3 Cemi.Ack) []).
  - repeat constructor.
  - reflexivity.
Defined.

Lemma await_response_found exp events ind app rest :
  await_response exp events = (inl (ind, app), rest) ->
  Cemi.ld_Data ind = Cemi.UAppData app /\ Cemi.app_Command app = exp.
Proof.
  induction events as [|ev events IH]; [discriminate|].
  destruct ev as [[l|l|l|]| |]; cbn [await_response]; try exact IH;
    try discriminate.
  destruct (Cemi.ld_Data l) as [a| | | | |] eqn:E; try exact IH.
  destruct (Z.eqb_spec (Cemi.app_Command a) exp) as [Heq|Hne]; cbn [negb];
    [|exact IH].
  intros [= <- <- <-]. auto.
Qed.

Lemma Send_connected_run conn c st req exp t inbound :
  st_heap st !! conn = Some c -> connected c = true ->
  let seq := byte (seqNumber c + 1) mod 16 in
  P2PConnection_Send conn req exp t inbound st
  = (match setSeqNum req seq with
     | inr e => ret (inr e, inbound)
     | inl req =>
         applyRateLimit conn ;;;
         err <- Tunnel_Send req ;;
         match err with
         | Some e => ret (inr (ErrSendRequest e), inbound)
         | None =>
             c <- load conn ;;
             match awaitAck (seqNumber c) inbound with
             | (Some e, rest) => ret (inr e, rest)
             | (None, rest) =>
                 match await_response exp rest with
                 | (inr e, rest) => ret (inr e, rest)
                 | (inl (ind, app), rest) =>
                     applyRateLimit conn ;;;
                     src <- Tunnel_SourceAddr ;;
                     let req := Cemi.NewAck src (Cemi.ld_Source ind)
                                  (Cemi.app_SeqNumber app) in
                     err <- Tunnel_Send req ;;
                     match err with
                     | Some e => ret (inr (ErrSendAck e), rest)
                     | None => ret (inl (Cemi.LDataInd ind), rest)
                     end
                 end
             end
         end
     end) (set_heap (<[conn := set_seqNumber seq c]> (st_heap st)) st).
Proof.
  intros Hh Hc seq. unfold P2PConnection_Send, bind at 1, load at 1.
  rewrite Hh, Hc. cbn [negb]. unfold bind at 1.
  rewrite (nextSeqNum_run conn c st Hh). reflexivity.
Qed.

(** X23: a request that is not an L_Data.req around an AppData is refused by
    Send, but only after nextSeqNum has run: the error of setSeqNum comes
    back, no frame is sent, nothing of the queue is read, and the session's
    sequence number has advanced by one all the same. *)
Theorem Send_rejected_request conn c st req exp t inbound e :
  st_heap st !! conn = Some c -> connected c = true ->
  (forall seq, setSeqNum req seq = inr e) ->
  P2PConnection_Send conn req exp t inbound st
  = (Ok (inr e, inbound),
     set_heap (<[conn := set_seqNumber (byte (seqNumber c + 1) mod 16) c]>
                 (st_heap st)) st)
  /\ (e = ErrExpectedLDataReq \/ e = ErrExpectedAppData).
Proof.
  intros Hh Hc He. rewrite (Send_connected_run conn c st req exp t inbound Hh Hc).
  cbv zeta. rewrite He. split; [reflexivity|].
  specialize (He 0). unfold setSeqNum in He.
  destruct req as [l|l|l|]; try (injection He as <-; auto).
  destruct (Cemi.ld_Data l); try discriminate He; injection He as <-; auto.
Qed.

Lemma Send_rejected_request_witness :
  P2PConnection_Send 0 Cemi.OtherMessage Cemi.PropertyValueResponse
    6000000000 [] live_state
  = (Ok (inr ErrExpectedLDataReq, []),
     set_heap (<[0%nat := set_seqNumber (byte (15 + 1) mod 16)
                            (mkP2PConnection 4354 15 20 4000000000
                               true false true)]>
                 (st_heap live_state)) live_state)
  /\ (ErrExpectedLDataReq = ErrExpectedLDataReq
      \/ ErrExpectedLDataReq = ErrExpectedAppData).
Proof.
  apply (Send_rejected_request 0
           (mkP2PConnection 4354 15 20 4000000000 true false true)
           live_state Cemi.OtherMessage Cemi.PropertyValueResponse
           6000000000 [] ErrExpectedLDataReq).
  - reflexivity.
  - reflexivity.
  - intros seq. reflexivity.
Defined.

(** The part of Send up to the wait for the T_ACK, when the request is
    accepted and its send succeeds. *)
Lemma Send_request_sent conn c st req req' exp t inbound :
  st_heap st !! conn = Some c -> connected c = true -> rateLimit c <> 0 ->
  let seq := byte (seqNumber c + 1) mod 16 in
  setSeqNum req seq = inl req' ->
  next_send_result st = None ->
  exists st2,
    P2PConnection_Send conn req exp t inbound st
    = (match awaitAck seq inbound with
       | (Some e, rest) => ret (inr e, rest)
       | (None, rest) =>
           match await_response exp rest with
           | (inr e, rest) => ret (inr e, rest)
           | (inl (ind, app), rest) =>
               applyRateLimit conn ;;;
               src <- Tunnel_SourceAddr ;;
               let req := Cemi.NewAck src (Cemi.ld_Source ind)
                            (Cemi.app_SeqNumber app) in
               err <- Tunnel_Send req ;;
               match err with
               | Some e => ret (inr (ErrSendAck e), rest)
               | None => ret (inl (Cemi.LDataInd ind), rest)
               end
           end
       end) st2
    /\ tun_sent (st_tunnel st2) = tun_sent (st_tunnel st) ++ [req']
    /\ tun_send_results (st_tunnel st2) = tail (tun_send_results (st_tunnel st))
    /\ tun_SourceAddr (st_tunnel st2) = tun_SourceAddr (st_tunnel st)
    /\ st_mgmt st2 = st_mgmt st
    /\ st_now st <= st_now st2
    /\ st_heap st2 !! conn
       = Some (set_lastSend (st_now st2) (set_seqNumber seq c)).
Proof.
  intros Hh Hc Hr seq Hset Hsend.
  rewrite (Send_connected_run conn c st req exp t inbound Hh Hc).
  cbv zeta. fold seq. rewrite Hset.
  set (st1 := set_heap (<[conn := set_seqNumber seq c]> (st_heap st)) st).
  assert (Hh1 : st_heap st1 !! conn = Some (set_seqNumber seq c))
    by apply lookup_insert_eq.
  unfold bind at 1.
  destruct (applyRateLimit_run conn _ st1 Hh1)
    as (now' & over' & Hrun & Hge); [exact Hr|].
  rewrite Hrun.
  set (st1' := set_oversleep over' (set_heap _ (set_now now' st1))).
  unfold bind at 1. rewrite Tunnel_Send_run.
  change (next_send_result st1') with (next_send_result st). rewrite Hsend.
  set (st2 := set_tunnel _ st1').
  assert (Hh2 : st_heap st2 !! conn
                = Some (set_lastSend now' (set_seqNumber seq c)))
    by apply lookup_insert_eq.
  unfold bind at 1, load at 1. rewrite Hh2.
  exists st2. split; [reflexivity|].
  repeat split; try reflexivity.
  - change (st_now st2) with now'.
    change (st_now st1) with (st_now st) in Hge. lia.
  - exact Hh2.
Qed.

(** X24: when the wait for the T_ACK fails (timeout, closed session, or a
    T_ACK with another sequence number), Send returns that error after
    having sent the request, stamped numbered with the new sequence number;
    no second frame is sent, the session stays connected and keeps the
    sequence number it has advanced to. *)
Theorem Send_ack_failure conn c st req req' exp t inbound e rest :
  st_heap st !! conn = Some c -> connected c = true -> rateLimit c <> 0 ->
  setSeqNum req (byte (seqNumber c + 1) mod 16) = inl req' ->
  next_send_result st = None ->
  awaitAck (byte (seqNumber c + 1) mod 16) inbound = (Some e, rest) ->
  exists st' c',
    P2PConnection_Send conn req exp t inbound st = (Ok (inr e, rest), st')
    /\ tun_sent (st_tunnel st') = tun_sent (st_tunnel st) ++ [req']
    /\ st_heap st' !! conn = Some c'
    /\ connected c' = true
    /\ seqNumber c' = byte (seqNumber c + 1) mod 16
    /\ st_mgmt st' = st_mgmt st.
Proof.
  intros Hh Hc Hr Hset Hsend Hack.
  destruct (Send_request_sent conn c st req req' exp t inbound Hh Hc Hr Hset
              Hsend) as (st2 & Hrun & Hsent & _ & _ & Hmg & _ & Hh2).
  rewrite Hrun, Hack. do 2 eexists. split; [reflexivity|].
  split; [exact Hsent|]. split; [exact Hh2|].
  cbn [connected seqNumber set_lastSend set_seqNumber]. auto.
Qed.

Lemma Send_ack_failure_witness :
  exists st' c',
    P2PConnection_Send 0
      (Cemi.LDataReq
         (Cemi.mkLData [] 6 4353 4354
            (Cemi.UAppData
               (Cemi.mkAppData false 0 Cemi.PropertyValueRead [1]))))
      Cemi.PropertyValueResponse 6000000000
      [Received (Cemi.LDataInd (Cemi.mkLData [] 6 4354 4353 (Cemi.TAck 3)))]
      live_state
    = (Ok (inr (ErrAckMismatch 3 0), []), st')
    /\ tun_sent (st_tunnel st')
       = tun_sent (st_tunnel live_state)
         ++ [Cemi.LDataReq
               (Cemi.mkLData [] 6 4353 4354
                  (Cemi.UAppData
                     (Cemi.mkAppData true 0 Cemi.PropertyValueRead [1])))]
    /\ st_heap st' !! 0%nat = Some c'
    /\ connected c' = true
    /\ seqNumber c' = byte (15 + 1) mod 16
    /\ st_mgmt st' = st_mgmt live_state.
Proof.
  apply (Send_ack_failure 0
           (mkP2PConnection 4354 15 20 4000000000 true false true)
           live_state); reflexivity || discriminate.
Defined.

(** X25: a Send that succeeds has put exactly two frames on the tunnel: the
    request, stamped numbered with the next sequence number, and a T_ACK
    addressed to the source of the response and carrying the response's
    sequence number. The response returned is the first L_Data.ind after
    the accepted T_ACK whose AppData has the expected command; the session
    is left connected with the new sequence number and [lastSend] at the
    time of the T_ACK, and the clock has not gone back. *)
Theorem Send_success conn c st req req' exp t inbound rest ind app rest' :
  st_heap st !! conn = Some c -> connected c = true -> 0 < rateLimit c ->
  setSeqNum req (byte (seqNumber c + 1) mod 16) = inl req' ->
  tun_send_results (st_tunnel st) = [] ->
  awaitAck (byte (seqNumber c + 1) mod 16) inbound = (None, rest) ->
  await_response exp rest = (inl (ind, app), rest') ->
  exists st' c',
    P2PConnection_Send conn req exp t inbound st
    = (Ok (inl (Cemi.LDataInd ind), rest'), st')
    /\ Cemi.ld_Data ind = Cemi.UAppData app
    /\ Cemi.app_Command app = exp
    /\ tun_sent (st_tunnel st')
       = tun_sent (st_tunnel st)
         ++ [req';
             Cemi.NewAck (tun_SourceAddr (st_tunnel st)) (Cemi.ld_Source ind)
                         (Cemi.app_SeqNumber app)]
    /\ st_heap st' !! conn = Some c'
    /\ connected c' = true
    /\ seqNumber c' = byte (seqNumber c + 1) mod 16
    /\ lastSend c' = st_now st'
    /\ st_now st <= st_now st'
    /\ st_mgmt st' = st_mgmt st.
Proof.
  intros Hh Hc Hr Hset Hres Hack Hresp.
  assert (Hsend : next_send_result st = None)
    by (unfold next_send_result; rewrite Hres; reflexivity).
  destruct (Send_request_sent conn c st req req' exp t inbound Hh Hc
              ltac:(lia) Hset Hsend)
    as (st2 & Hrun & Hsent & Hres2 & Hsrc & Hmg & Hnow & Hh2).
  rewrite Hrun, Hack, Hresp.
  destruct (await_response_found exp rest ind app rest' Hresp) as [Hd He].
  unfold bind at 1.
  destruct (applyRateLimit_run conn _ st2 Hh2)
    as (now' & over' & Hrun3 & Hge);
    [cbn [rateLimit set_lastSend set_seqNumber]; lia|].
  rewrite Hrun3.
  set (st3 := set_oversleep over' (set_heap _ (set_now now' st2))).
  unfold Tunnel_SourceAddr, bind at 1. unfold bind at 1.
  rewrite Tunnel_Send_run.
  assert (Hsend3 : next_send_result st3 = None).
  { unfold next_send_result. change (st_tunnel st3) with (st_tunnel st2).
    rewrite Hres2, Hres. reflexivity. }
  rewrite Hsend3. unfold ret.
  do 2 eexists. split; [reflexivity|].
  split; [exact Hd|]. split; [exact He|].
  cbn [set_tunnel st_tunnel tun_sent st_heap st_now st_mgmt].
  change (st_tunnel st3) with (st_tunnel st2). rewrite Hsent, Hsrc.
  split; [rewrite <- app_assoc; reflexivity|].
  change (st_heap st3)
    with (<[conn := set_lastSend now'
                      (set_lastSend (st_now st2)
                         (set_seqNumber (byte (seqNumber c + 1) mod 16) c))]>
            (st_heap st2)).
  rewrite lookup_insert_eq. split; [reflexivity|].
  cbn [connected seqNumber lastSend set_lastSend set_seqNumber].
  change (st_now st3) with now'. change (st_mgmt st3) with (st_mgmt st2).
  repeat split; auto. lia.
Qed.

Lemma Send_success_witness :
  exists st' c',
    P2PConnection_Send 0
      (Cemi.LDataReq
         (Cemi.mkLData [] 6 4353 4354
            (Cemi.UAppData
               (Cemi.mkAppData false 0 Cemi.PropertyValueRead [1]))))
      Cemi.PropertyValueResponse 6000000000
      [Received (Cemi.LDataInd (Cemi.mkLData [] 6 4354 4353 (Cemi.TAck 0)));
       Received
         (Cemi.LDataInd
            (Cemi.mkLData [] 6 4354 4353
               (Cemi.UAppData
                  (Cemi.mkAppData true 9 Cemi.PropertyValueResponse [1; 7]))))]
      live_state
    = (Ok (inl (Cemi.LDataInd
                  (Cemi.mkLData [] 6 4354 4353
                     (Cemi.UAppData
                        (Cemi.mkAppData true 9 Cemi.PropertyValueResponse
                           [1; 7])))), []), st')
    /\ Cemi.ld_Data
         (Cemi.mkLData [] 6 4354 4353
            (Cemi.UAppData
               (Cemi.mkAppData true 9 Cemi.PropertyValueResponse [1; 7])))
       = Cemi.UAppData (Cemi.mkAppData true 9 Cemi.PropertyValueResponse [1; 7])
    /\ Cemi.app_Command
         (Cemi.mkAppData true 9 Cemi.PropertyValueResponse [1; 7])
       = Cemi.PropertyValueResponse
    /\ tun_sent (st_tunnel st')
       = tun_sent (st_tunnel live_state)
         ++ [Cemi.LDataReq
               (Cemi.mkLData [] 6 4353 4354
                  (Cemi.UAppData
                     (Cemi.mkAppData true 0 Cemi.PropertyValueRead [1])));
             Cemi.NewAck (tun_SourceAddr (st_tunnel live_state)) 4354 9]
    /\ st_heap st' !! 0%nat = Some c'
    /\ connected c' = true
    /\ seqNumber c' = byte (15 + 1) mod 16
    /\ lastSend c' = st_now st'
    /\ st_now live_state <= st_now st'
    /\ st_mgmt st' = st_mgmt live_state.
Proof.
  apply (Send_success 0
           (mkP2PConnection 4354 15 20 4000000000 true false true)
           live_state _ _ _ _ _
           [Received
              (Cemi.LDataInd
                 (Cemi.mkLData [] 6 4354 4353
                    (Cemi.UAppData
                       (Cemi.mkAppData true 9 Cemi.PropertyValueResponse
                          [1; 7]))))]);
    reflexivity.
Defined.

Lemma Send_not_connected conn c st req exp t inbound :
  st_heap st !! conn = Some c -> connected c = false ->
  P2PConnection_Send conn req exp t inbound st
  = (Ok (inr ErrNotConnected, inbound), st).
Proof.
  intros Hh Hc. unfold P2PConnection_Send, bind, load, ret.
  rewrite Hh, Hc. reflexivity.
Qed.

(** X26: once Disconnect has run, whatever it returned, the session refuses
    every Send with the not-connected error: no sequence number is used, no
    frame is sent, nothing of the queue is read. *)
Theorem Send_after_Disconnect conn c st :
  st_heap st !! conn = Some c -> rateLimit c <> 0 ->
  exists r st',
    P2PConnection_Disconnect conn st = (r, st')
    /\ forall req exp t inbound,
         P2PConnection_Send conn req exp t inbound st'
         = (Ok (inr ErrNotConnected, inbound), st').
Proof.
  intros Hh Hr.
  destruct (Disconnect_frame conn c st Hh Hr)
    as (r & st' & c' & Hd & _ & _ & Hheap & Hc' & _).
  exists r, st'. split; [exact Hd|]. intros req exp t inbound.
  apply (Send_not_connected conn c'); [|exact Hc'].
  rewrite Hheap. apply lookup_insert_eq.
Qed.

Lemma Send_after_Disconnect_witness :
  exists r st',
    P2PConnection_Disconnect 0 live_state = (r, st')
    /\ forall req exp t inbound,
         P2PConnection_Send 0 req exp t inbound st'
         = (Ok (inr ErrNotConnected, inbound), st').
Proof.
  apply (Send_after_Disconnect 0
           (mkP2PConnection 4354 15 20 4000000000 true false true)
           live_state).
  - reflexivity.
  - discriminate.
Defined.

(** X27: handleTunnelClosed marks the session disconnected and closes [done]
    without sending anything; after it Send is refused with the
    not-connected error, Disconnect returns nil without sending a
    T_DISCONNECT, and Management.Connect for the session's address treats
    the entry as stale and starts a new handshake. *)
Theorem handleTunnelClosed_spec conn c st :
  st_heap st !! conn = Some c ->
  exists st',
    handleTunnelClosed conn st = (Ok tt, st')
    /\ st_heap st'
       = <[conn := set_done_closed true (set_connected false c)]> (st_heap st)
    /\ st_tunnel st' = st_tunnel st
    /\ st_mgmt st' = st_mgmt st
    /\ (forall req exp t inbound,
          P2PConnection_Send conn req exp t inbound st'
          = (Ok (inr ErrNotConnected, inbound), st'))
    /\ P2PConnection_Disconnect conn st' = (Ok tt, st')
    /\ (forall addr,
          connections (st_mgmt st) !! addr = Some conn ->
          Management_Connect addr st'
          = match NewP2PConnection addr (without_entry addr st') with
            | (Ok conn', st'') => (Ok conn', with_entry addr conn' st'')
            | (Err e, st'') => (Err e, st'')
            | (Panic, st'') => (Panic, st'')
            | (NoFuel, st'') => (NoFuel, st'')
            end).
Proof.
  intros Hh.
  set (c' := set_done_closed true (set_connected false c)).
  assert (Hrun : handleTunnelClosed conn st
                 = (Ok tt, set_heap (<[conn := c']> (st_heap st)) st)).
  { unfold handleTunnelClosed, bind, load, store, modify, ret. rewrite Hh.
    simpl. rewrite lookup_insert_eq. simpl.
    destruct (done_closed c) eqn:Hd.
    - f_equal. unfold set_heap. simpl. f_equal. f_equal.
      unfold c', set_done_closed, set_connected. simpl. rewrite Hd.
      reflexivity.
    - simpl. rewrite insert_insert_eq. reflexivity. }
  eexists. split; [exact Hrun|].
  assert (Hh' : st_heap (set_heap (<[conn := c']> (st_heap st)) st) !! conn
                = Some c') by apply lookup_insert_eq.
  do 3 (split; [reflexivity|]).
  split; [intros; apply (Send_not_connected conn c'); [exact Hh'|reflexivity]|].
  split; [apply (Disconnect_not_connected conn c'); [exact Hh'|reflexivity]|].
  intros addr Hm. apply Management_Connect_create. right.
  exists conn, c'. auto.
Qed.

Lemma handleTunnelClosed_spec_witness :
  exists st',
    handleTunnelClosed 0 live_state = (Ok tt, st')
    /\ st_heap st'
       = <[0%nat := set_done_closed true
                      (set_connected false
                         (mkP2PConnection 4354 15 20 4000000000
                            true false true))]> (st_heap live_state)
    /\ st_tunnel st' = st_tunnel live_state
    /\ st_mgmt st' = st_mgmt live_state
    /\ (forall req exp t inbound,
          P2PConnection_Send 0 req exp t inbound st'
          = (Ok (inr ErrNotConnected, inbound), st'))
    /\ P2PConnection_Disconnect 0 st' = (Ok tt, st')
    /\ (forall addr,
          connections (st_mgmt live_state) !! addr = Some 0%nat ->
          Management_Connect addr st'
          = match NewP2PConnection addr (without_entry addr st') with
            | (Ok conn', st'') => (Ok conn', with_entry addr conn' st'')
            | (Err e, st'') => (Err e, st'')
            | (Panic, st'') => (Panic, st'')
            | (NoFuel, st'') => (NoFuel, st'')
            end).
Proof.
  apply (handleTunnelClosed_spec 0
           (mkP2PConnection 4354 15 20 4000000000 true false true)
           live_state).
  reflexivity.
Defined.
